(** * EthiQuest: decision processing and pattern analysis

    A shallow embedding of

    - [app/core/game/game_logic.py]   (class [GameLogic]) and
    - [app/core/analytics/pattern_analyzer.py] (class [PatternAnalyzer])

    together with the properties of these two modules.

    Conventions of the embedding.

    - A Python [float] (and a numpy [float64]) is a value of [fl]: an exact
      rational, one of the two infinities, or NaN.  Rounding, overflow and
      the sign of zero are not represented.
    - A Python [int] is a [Z].
    - A Python exception is a value of [exn]; a computation that can raise
      returns a [result].
    - A [dict] with string keys is an association list in insertion order
      (the order in which Python iterates it).
    - The containers hanging off a [GameState] (its satisfaction dict, its
      event list, its metadata dict) live in a [store] and are held by
      reference, so that sharing between a state and its copy is visible. *)

From Stdlib Require Import QArith Qround Qabs Qpower Qminmax Lqa ZArith Lia.
From stdpp Require Import gmap strings list fin_maps.

Open Scope string_scope.

(** ** Exceptions and results *)

Inductive exn : Type :=
| KeyError (key : string)
| ZeroDivisionError
| ValueError
| OverflowError
| AttributeError (name : string)
| LinAlgError
| HTTPException (status_code : Z)
| DanglingReference.

Inductive result (A : Type) : Type :=
| Ok (a : A)
| Raise (e : exn).

Arguments Ok {A} a.
Arguments Raise {A} e.

Definition rbind {A B} (m : result A) (f : A -> result B) : result B :=
  match m with
  | Ok a => f a
  | Raise e => Raise e
  end.

Declare Scope result_scope.
Delimit Scope result_scope with result.
Notation "'let?' x ':=' m 'in' k" := (rbind m (fun x => k))
  (at level 10, x pattern, m at level 100, k at level 200) : result_scope.
Open Scope result_scope.

(** [try: body except Exception: handler] *)
Definition try_except {A} (body : result A) (handler : exn -> result A) : result A :=
  match body with
  | Ok a => Ok a
  | Raise e => handler e
  end.

Definition is_raise {A} (m : result A) : Prop :=
  match m with
  | Ok _ => False
  | Raise _ => True
  end.

Fixpoint mapR {A B} (f : A -> result B) (l : list A) : result (list B) :=
  match l with
  | [] => Ok []
  | x :: l' =>
      match f x with
      | Ok y => match mapR f l' with
                | Ok ys => Ok (y :: ys)
                | Raise e => Raise e
                end
      | Raise e => Raise e
      end
  end.

(** ** Floating-point values *)

Inductive fl : Type :=
| Fin (q : Q)
| PInf
| NInf
| NaN.

Definition Qsgn (q : Q) : Z := Z.sgn (Qnum q).

Definition fl_of_Z (z : Z) : fl := Fin (inject_Z z).

Definition fl_opp (a : fl) : fl :=
  match a with
  | Fin q => Fin (- q)
  | PInf => NInf
  | NInf => PInf
  | NaN => NaN
  end.

Definition fl_add (a b : fl) : fl :=
  match a, b with
  | NaN, _ | _, NaN => NaN
  | Fin p, Fin q => Fin (p + q)
  | PInf, NInf | NInf, PInf => NaN
  | PInf, _ | _, PInf => PInf
  | NInf, _ | _, NInf => NInf
  end.

Definition fl_sub (a b : fl) : fl := fl_add a (fl_opp b).

(** The infinity of sign [s], NaN when [s] is zero. *)
Definition fl_inf (s : Z) : fl :=
  match s with
  | Zpos _ => PInf
  | Zneg _ => NInf
  | Z0 => NaN
  end.

Definition fl_sgn (a : fl) : Z :=
  match a with
  | Fin q => Qsgn q
  | PInf => 1
  | NInf => (-1)
  | NaN => 0
  end.

Definition fl_mul (a b : fl) : fl :=
  match a, b with
  | NaN, _ | _, NaN => NaN
  | Fin p, Fin q => Fin (p * q)
  | _, _ => fl_inf (fl_sgn a * fl_sgn b)
  end.

Definition fl_abs (a : fl) : fl :=
  match a with
  | Fin q => Fin (Qabs q)
  | PInf | NInf => PInf
  | NaN => NaN
  end.

(** [a < b]; every comparison with NaN is false. *)
Definition fl_ltb (a b : fl) : bool :=
  match a, b with
  | NaN, _ | _, NaN => false
  | Fin p, Fin q => negb (Qle_bool q p)
  | NInf, NInf => false
  | NInf, _ => true
  | _, NInf => false
  | PInf, _ => false
  | _, PInf => true
  end.

(** [a <= b] *)
Definition fl_leb (a b : fl) : bool :=
  match a, b with
  | NaN, _ | _, NaN => false
  | Fin p, Fin q => Qle_bool p q
  | NInf, _ => true
  | _, NInf => false
  | _, PInf => true
  | PInf, _ => false
  end.

Definition fl_is_zero (a : fl) : bool :=
  match a with
  | Fin q => Qeq_bool q 0
  | _ => false
  end.

(** numpy's division: a zero divisor gives an infinity or NaN (with a
    RuntimeWarning), never an exception. *)
Definition np_div (a b : fl) : fl :=
  match a, b with
  | NaN, _ | _, NaN => NaN
  | Fin p, Fin q => if Qeq_bool q 0 then fl_inf (Qsgn p) else Fin (p / q)
  | Fin _, _ => Fin 0
  | _, Fin q => if Qeq_bool q 0 then a else fl_inf (fl_sgn a * Qsgn q)
  | _, _ => NaN
  end.

(** Python's [/] on ints and floats: a zero divisor raises. *)
Definition py_truediv (a b : fl) : result fl :=
  if fl_is_zero b then Raise ZeroDivisionError else Ok (np_div a b).

(** Python's two-argument [min] and [max]: the first argument is kept
    unless the second is strictly smaller (resp. larger). *)
Definition py_min (a b : fl) : fl := if fl_ltb b a then b else a.
Definition py_max (a b : fl) : fl := if fl_ltb a b then b else a.

(** Python's [sum]: left to right, starting from 0. *)
Definition py_sum (l : list fl) : fl := fold_left fl_add l (Fin 0).

(** [np.mean]: the sum divided by the number of items; NaN on an empty
    list (numpy warns, it does not raise). *)
Definition np_mean (l : list fl) : fl :=
  np_div (py_sum l) (fl_of_Z (Z.of_nat (length l))).

(** Truncation towards zero. *)
Definition Qtrunc (q : Q) : Z :=
  if Qle_bool 0 q then Qfloor q else Qceiling q.

(** Python's [int(x)] on a float. *)
Definition py_int (a : fl) : result Z :=
  match a with
  | Fin q => Ok (Qtrunc q)
  | PInf | NInf => Raise OverflowError
  | NaN => Raise ValueError
  end.

(** Equality of values (not IEEE [==]: here NaN equals NaN). *)
Definition fl_eq (a b : fl) : Prop :=
  match a, b with
  | Fin p, Fin q => p == q
  | PInf, PInf | NInf, NInf | NaN, NaN => True
  | _, _ => False
  end.

(** ** Dictionaries with string keys *)

Definition dict (A : Type) : Type := list (string * A).

Fixpoint dict_get {A} (k : string) (d : dict A) : option A :=
  match d with
  | [] => None
  | (k', v) :: d' => if String.eqb k k' then Some v else dict_get k d'
  end.

(** [d[k] = v]: an existing key keeps its position, a new key goes last. *)
Fixpoint dict_set {A} (k : string) (v : A) (d : dict A) : dict A :=
  match d with
  | [] => [(k, v)]
  | (k', v') :: d' =>
      if String.eqb k k' then (k', v) :: d' else (k', v') :: dict_set k v d'
  end.

(** [k in d] *)
Definition dict_mem {A} (k : string) (d : dict A) : bool :=
  match dict_get k d with
  | Some _ => true
  | None => false
  end.

(** [d[k]] *)
Definition dict_index {A} (k : string) (d : dict A) : result A :=
  match dict_get k d with
  | Some v => Ok v
  | None => Raise (KeyError k)
  end.

(** [d.get(k, default)] *)
Definition dict_get_default {A} (k : string) (default : A) (d : dict A) : A :=
  match dict_get k d with
  | Some v => v
  | None => default
  end.

Definition dict_keys {A} (d : dict A) : list string := map fst d.
Definition dict_values {A} (d : dict A) : list A := map snd d.

(** ** [app/config.py]: the settings read by the game logic *)

Record Settings : Type := {
  STARTING_CAPITAL : Z;
  STAKEHOLDER_TYPES : list string
}.

Definition default_settings : Settings := {|
  STARTING_CAPITAL := 1000000;
  STAKEHOLDER_TYPES :=
    ["employees"; "customers"; "investors"; "community"; "environment"]
|}.

(** * [app/core/game/game_logic.py] *)

Module GameLogic.

(** ** Data

    [GameState], [Scenario] and [Decision] are imported by the source from
    [app/models/], which holds no such modules here; the records below have
    the attributes that [game_logic.py] and its callers read and write.
    Callers use [GameState] through the pydantic model interface
    ([.copy()], [.dict()]). *)

Definition loc : Type := positive.

(** An entry of [ongoing_events]: a dict with keys [type], [severity],
    [description] and, for a stakeholder crisis, [stakeholder]. *)
Record Event : Type := {
  ev_type : string;
  ev_stakeholder : option string;
  ev_severity : string;
  ev_description : string
}.

(** An entry of a stakeholder's memory list; [timestamp] in microseconds. *)
Record Memory : Type := {
  decision_type : string;
  impact : fl;
  timestamp : Z
}.

(** The value of [metadata] at key ['stakeholder_memories'], [None] when the
    key is absent; no other key of [metadata] is read or written. *)
Definition Metadata : Type := option (dict (list Memory)).

Record store : Type := {
  dicts : gmap loc (dict fl);
  lists : gmap loc (list Event);
  metas : gmap loc Metadata
}.

Record GameState : Type := {
  company_size : string;
  financial_resources : fl;
  reputation : fl;
  stakeholder_satisfaction : loc;
  market_share : fl;
  sustainability_rating : string;
  ongoing_events : loc;
  current_level : Z;
  experience_points : Z;
  metadata : loc
}.

(** [possible_approaches] holds the [id] of each approach;
    [time_constraint] is in seconds, [created_at] in microseconds. *)
Record Scenario : Type := {
  difficulty_level : fl;
  possible_approaches : list string;
  time_constraint : option Z;
  created_at : Z;
  required_parameters : list string
}.

(** [parameters] holds the keys of the decision's parameter dict. *)
Record Decision : Type := {
  approach_id : string;
  type : string;
  impacts : dict fl;
  parameters : list string
}.

(** ** Computations over the store

    A computation takes the store and returns its outcome with the store
    as it has left it; an exception does not undo earlier writes. *)

Definition M (A : Type) : Type := store -> result A * store.

Definition ret {A} (a : A) : M A := fun s => (Ok a, s).

Definition raise {A} (e : exn) : M A := fun s => (Raise e, s).

Definition bind {A B} (m : M A) (f : A -> M B) : M B :=
  fun s =>
    match m s with
    | (Ok a, s') => f a s'
    | (Raise e, s') => (Raise e, s')
    end.

Definition lift {A} (r : result A) : M A := fun s => (r, s).

Declare Scope py_scope.
Delimit Scope py_scope with py.
Notation "'let*' x ':=' m 'in' k" := (bind m (fun x => k))
  (at level 10, x pattern, m at level 100, k at level 200) : py_scope.

Open Scope py_scope.

Fixpoint foldM {A B} (f : B -> A -> M B) (l : list A) (b : B) : M B :=
  match l with
  | [] => ret b
  | x :: l' => let* b' := f b x in foldM f l' b'
  end.

Definition read_dict (l : loc) : M (dict fl) :=
  fun s => match dicts s !! l with
           | Some d => (Ok d, s)
           | None => (Raise DanglingReference, s)
           end.

Definition write_dict (l : loc) (d : dict fl) : M unit :=
  fun s => (Ok tt, {| dicts := <[l := d]> (dicts s);
                      lists := lists s; metas := metas s |}).

Definition read_list (l : loc) : M (list Event) :=
  fun s => match lists s !! l with
           | Some d => (Ok d, s)
           | None => (Raise DanglingReference, s)
           end.

Definition write_list (l : loc) (d : list Event) : M unit :=
  fun s => (Ok tt, {| dicts := dicts s;
                      lists := <[l := d]> (lists s); metas := metas s |}).

Definition read_meta (l : loc) : M Metadata :=
  fun s => match metas s !! l with
           | Some d => (Ok d, s)
           | None => (Raise DanglingReference, s)
           end.

Definition write_meta (l : loc) (d : Metadata) : M unit :=
  fun s => (Ok tt, {| dicts := dicts s;
                      lists := lists s; metas := <[l := d]> (metas s) |}).

Definition alloc_dict (d : dict fl) : M loc :=
  fun s => let l := fresh (dom (dicts s)) in
           (Ok l, {| dicts := <[l := d]> (dicts s);
                     lists := lists s; metas := metas s |}).

Definition alloc_list (d : list Event) : M loc :=
  fun s => let l := fresh (dom (lists s)) in
           (Ok l, {| dicts := dicts s;
                     lists := <[l := d]> (lists s); metas := metas s |}).

Definition alloc_meta (d : Metadata) : M loc :=
  fun s => let l := fresh (dom (metas s)) in
           (Ok l, {| dicts := dicts s;
                     lists := lists s; metas := <[l := d]> (metas s) |}).

(** [GameState.copy(deep=...)] of a pydantic model.  With [deep = false],
    the default, the new object has the attribute values of the old one:
    the three containers are shared.  With [deep = true] they are copied. *)
Definition GameState_copy (deep : bool) (gs : GameState) : M GameState :=
  if deep then
    let* d := read_dict (stakeholder_satisfaction gs) in
    let* e := read_list (ongoing_events gs) in
    let* m := read_meta (metadata gs) in
    let* ld := alloc_dict d in
    let* le := alloc_list e in
    let* lm := alloc_meta m in
    ret {| company_size := company_size gs;
           financial_resources := financial_resources gs;
           reputation := reputation gs;
           stakeholder_satisfaction := ld;
           market_share := market_share gs;
           sustainability_rating := sustainability_rating gs;
           ongoing_events := le;
           current_level := current_level gs;
           experience_points := experience_points gs;
           metadata := lm |}
  else ret gs.

Definition set_financial_resources (v : fl) (gs : GameState) : GameState :=
  {| company_size := company_size gs;
     financial_resources := v;
     reputation := reputation gs;
     stakeholder_satisfaction := stakeholder_satisfaction gs;
     market_share := market_share gs;
     sustainability_rating := sustainability_rating gs;
     ongoing_events := ongoing_events gs;
     current_level := current_level gs;
     experience_points := experience_points gs;
     metadata := metadata gs |}.

Definition set_reputation (v : fl) (gs : GameState) : GameState :=
  {| company_size := company_size gs;
     financial_resources := financial_resources gs;
     reputation := v;
     stakeholder_satisfaction := stakeholder_satisfaction gs;
     market_share := market_share gs;
     sustainability_rating := sustainability_rating gs;
     ongoing_events := ongoing_events gs;
     current_level := current_level gs;
     experience_points := experience_points gs;
     metadata := metadata gs |}.

Definition set_market_share (v : fl) (gs : GameState) : GameState :=
  {| company_size := company_size gs;
     financial_resources := financial_resources gs;
     reputation := reputation gs;
     stakeholder_satisfaction := stakeholder_satisfaction gs;
     market_share := v;
     sustainability_rating := sustainability_rating gs;
     ongoing_events := ongoing_events gs;
     current_level := current_level gs;
     experience_points := experience_points gs;
     metadata := metadata gs |}.

Definition set_sustainability_rating (v : string) (gs : GameState) : GameState :=
  {| company_size := company_size gs;
     financial_resources := financial_resources gs;
     reputation := reputation gs;
     stakeholder_satisfaction := stakeholder_satisfaction gs;
     market_share := market_share gs;
     sustainability_rating := v;
     ongoing_events := ongoing_events gs;
     current_level := current_level gs;
     experience_points := experience_points gs;
     metadata := metadata gs |}.

Definition set_current_level (v : Z) (gs : GameState) : GameState :=
  {| company_size := company_size gs;
     financial_resources := financial_resources gs;
     reputation := reputation gs;
     stakeholder_satisfaction := stakeholder_satisfaction gs;
     market_share := market_share gs;
     sustainability_rating := sustainability_rating gs;
     ongoing_events := ongoing_events gs;
     current_level := v;
     experience_points := experience_points gs;
     metadata := metadata gs |}.

Definition set_experience_points (v : Z) (gs : GameState) : GameState :=
  {| company_size := company_size gs;
     financial_resources := financial_resources gs;
     reputation := reputation gs;
     stakeholder_satisfaction := stakeholder_satisfaction gs;
     market_share := market_share gs;
     sustainability_rating := sustainability_rating gs;
     ongoing_events := ongoing_events gs;
     current_level := current_level gs;
     experience_points := v;
     metadata := metadata gs |}.

(** ** The rules engine *)

Section Rules.

(** [self.settings] *)
Variable settings : Settings.

(** The [deep] argument of [GameState.copy]; the source passes none, which
    is [False]. *)
Variable copy_deep : bool.

(** The reading of [datetime.utcnow()] while a decision is processed, in
    microseconds. *)
Variable utcnow : Z.

Definition REPUTATION_MULTIPLIER : fl := Fin 1.5.
Definition LEVEL_XP_REQUIREMENT : Q := 1000.
Definition STAKEHOLDER_MEMORY_DURATION : Z := 5.

Definition size_modifiers : dict fl :=
  [("small", Fin 1.2); ("medium", Fin 1.0); ("large", Fin 0.8)].

Definition calculate_impact_modifier
    (stakeholder : string) (game_state : GameState) : M fl :=
  let base_modifier := Fin 1.0 in
  let* satisfactions := read_dict (stakeholder_satisfaction game_state) in
  let* satisfaction := lift (dict_index stakeholder satisfactions) in
  let base_modifier :=
    if fl_ltb satisfaction (Fin 30) then fl_mul base_modifier (Fin 1.2)
    else if fl_ltb (Fin 70) satisfaction then fl_mul base_modifier (Fin 0.8)
    else base_modifier in
  let* size_modifier :=
    lift (dict_index (company_size game_state) size_modifiers) in
  ret (fl_mul base_modifier size_modifier).

Definition size_multipliers : dict fl :=
  [("small", Fin 0.5); ("medium", Fin 1.0); ("large", Fin 2.0)].

Definition calculate_financial_impact
    (decision : Decision) (game_state : GameState) : result fl :=
  let base_impact := dict_get_default "financial" (Fin 0) (impacts decision) in
  let? size_multiplier :=
    dict_index (company_size game_state) size_multipliers in
  let scaled_impact := fl_mul base_impact size_multiplier in
  let market_multiplier :=
    fl_add (Fin 1) (np_div (market_share game_state) (Fin 100)) in
  Ok (fl_mul scaled_impact market_multiplier).

Definition reputation_weights : dict fl :=
  [("employees", Fin 0.3); ("customers", Fin 0.3); ("community", Fin 0.2);
   ("environment", Fin 0.1); ("investors", Fin 0.1)].

Definition calculate_reputation_impact
    (decision : Decision) (resolved : dict fl) : fl :=
  let weighted_impact :=
    py_sum (map (fun sw : string * fl =>
                   fl_mul (dict_get_default (fst sw) (Fin 0) resolved) (snd sw))
                reputation_weights) in
  fl_mul weighted_impact REPUTATION_MULTIPLIER.

Definition calculate_decision_impacts
    (decision : Decision) (scenario : Scenario) (game_state : GameState)
    : M (dict fl) :=
  let* resolved :=
    foldM (fun (resolved : dict fl) (item : string * fl) =>
             let stakeholder := fst item in
             let base_impact := fl_mul (snd item) (difficulty_level scenario) in
             let* modifier := calculate_impact_modifier stakeholder game_state in
             ret (dict_set stakeholder (fl_mul base_impact modifier) resolved))
          (impacts decision) [] in
  let* financial := lift (calculate_financial_impact decision game_state) in
  let resolved := dict_set "financial" financial resolved in
  let resolved :=
    dict_set "reputation" (calculate_reputation_impact decision resolved)
             resolved in
  ret resolved.

Definition calculate_new_market_share
    (game_state : GameState) (resolved : dict fl) : result fl :=
  let current_share := market_share game_state in
  let reputation_change :=
    fl_mul (dict_get_default "reputation" (Fin 0) resolved) (Fin 0.1) in
  let? financial_change :=
    py_truediv (dict_get_default "financial" (Fin 0) resolved)
               (financial_resources game_state) in
  let share_change :=
    fl_mul (fl_add reputation_change financial_change) (Fin 0.5) in
  Ok (py_max (Fin 0) (py_min (Fin 100) (fl_add current_share share_change))).

Definition calculate_sustainability_rating (game_state : GameState) : M string :=
  let* satisfactions := read_dict (stakeholder_satisfaction game_state) in
  let* environmental_score := lift (dict_index "environment" satisfactions) in
  let* community_score := lift (dict_index "community" satisfactions) in
  let overall_score :=
    fl_add (fl_mul environmental_score (Fin 0.6))
           (fl_mul community_score (Fin 0.4)) in
  ret (if fl_leb (Fin 90) overall_score then "A+"
       else if fl_leb (Fin 80) overall_score then "A"
       else if fl_leb (Fin 70) overall_score then "B+"
       else if fl_leb (Fin 60) overall_score then "B"
       else if fl_leb (Fin 50) overall_score then "C+"
       else if fl_leb (Fin 40) overall_score then "C"
       else "D").

(** One round of the satisfaction loop of [_apply_impacts]. *)
Definition apply_stakeholder_impact
    (updated_state : GameState) (resolved : dict fl) (stakeholder : string)
    : M unit :=
  if dict_mem stakeholder resolved then
    let* satisfactions := read_dict (stakeholder_satisfaction updated_state) in
    let* current := lift (dict_index stakeholder satisfactions) in
    let* change := lift (dict_index stakeholder resolved) in
    write_dict (stakeholder_satisfaction updated_state)
      (dict_set stakeholder
         (py_max (Fin 0) (py_min (Fin 100) (fl_add current change)))
         satisfactions)
  else ret tt.

Definition apply_impacts (game_state : GameState) (resolved : dict fl)
    : M GameState :=
  let* updated_state := GameState_copy copy_deep game_state in
  let updated_state :=
    set_financial_resources
      (fl_add (financial_resources updated_state)
              (dict_get_default "financial" (Fin 0) resolved))
      updated_state in
  let updated_state :=
    set_reputation
      (fl_add (reputation updated_state)
              (dict_get_default "reputation" (Fin 0) resolved))
      updated_state in
  let* _ :=
    foldM (fun (_ : unit) stakeholder =>
             apply_stakeholder_impact updated_state resolved stakeholder)
          (STAKEHOLDER_TYPES settings) tt in
  let* share := lift (calculate_new_market_share updated_state resolved) in
  let updated_state := set_market_share share updated_state in
  let* rating := calculate_sustainability_rating updated_state in
  ret (set_sustainability_rating rating updated_state).

Definition calculate_experience_points
    (decision : Decision) (resolved : dict fl) (difficulty : fl) : result Z :=
  let base_xp := Fin 100 in
  let difficulty_bonus := fl_mul base_xp difficulty in
  let stakeholder_count :=
    length (filter (fun v => fl_ltb (Fin 0) (fl_abs v) = true)
                   (dict_values resolved)) in
  let? ratio :=
    py_truediv (fl_of_Z (Z.of_nat stakeholder_count))
               (fl_of_Z (Z.of_nat (length (STAKEHOLDER_TYPES settings)))) in
  let balance_bonus := fl_mul base_xp ratio in
  let impact_bonus :=
    fl_mul (py_sum (filter (fun v => fl_ltb (Fin 0) v = true)
                           (dict_values resolved)))
           (Fin 0.5) in
  let total_xp :=
    fl_add (fl_add (fl_add base_xp difficulty_bonus) balance_bonus)
           impact_bonus in
  py_int total_xp.

(** [_calculate_xp_needed], in exact arithmetic.  In the source the
    product is a double: from level 1735 on it is beyond the largest one
    and [int] raises [OverflowError]; that case is not modelled. *)
Definition calculate_xp_needed (level : Z) : Z :=
  Qtrunc (LEVEL_XP_REQUIREMENT * Qpower 1.5 (level - 1)).

Definition check_level_up (game_state : GameState) : GameState :=
  let level := current_level game_state in
  let xp_needed := calculate_xp_needed level in
  if (xp_needed <=? experience_points game_state)%Z
  then set_current_level (current_level game_state + 1) game_state
  else game_state.

Definition microseconds_per_day : Z := 86400000000.

(** [(a - b).days] of two datetimes *)
Definition days_between (a b : Z) : Z := ((a - b) / microseconds_per_day)%Z.

(** One round of the loop of [_update_stakeholder_memories]. *)
Definition remember_impact
    (game_state : GameState) (decision : Decision) (resolved : dict fl)
    (stakeholder : string) : M unit :=
  if dict_mem stakeholder resolved then
    let* change := lift (dict_index stakeholder resolved) in
    let memory :=
      {| decision_type := type decision; impact := change;
         timestamp := utcnow |} in
    let* meta := read_meta (metadata game_state) in
    let stakeholder_memories :=
      match meta with
      | Some d => d
      | None => []
      end in
    let stakeholder_memories :=
      if dict_mem stakeholder stakeholder_memories then stakeholder_memories
      else dict_set stakeholder [] stakeholder_memories in
    let* memories := lift (dict_index stakeholder stakeholder_memories) in
    let memories := (memories ++ [memory])%list in
    let recent_memories :=
      filter (fun m => (days_between utcnow (timestamp m)
                        < STAKEHOLDER_MEMORY_DURATION)%Z)
             memories in
    write_meta (metadata game_state)
      (Some (dict_set stakeholder recent_memories stakeholder_memories))
  else ret tt.

Definition update_stakeholder_memories
    (game_state : GameState) (decision : Decision) (resolved : dict fl)
    : M GameState :=
  let* _ :=
    foldM (fun (_ : unit) stakeholder =>
             remember_impact game_state decision resolved stakeholder)
          (STAKEHOLDER_TYPES settings) tt in
  ret game_state.

Definition check_triggered_events
    (game_state : GameState) (resolved : dict fl) : M (list Event) :=
  let* satisfactions := read_dict (stakeholder_satisfaction game_state) in
  let stakeholder_events :=
    flat_map (fun item : string * fl =>
                if fl_ltb (snd item) (Fin 30) then
                  [{| ev_type := "stakeholder_crisis";
                      ev_stakeholder := Some (fst item);
                      ev_severity := "high";
                      ev_description :=
                        "Critical " ++ fst item ++ " satisfaction level" |}]
                else [])
             satisfactions in
  let financial_events :=
    if fl_ltb (financial_resources game_state)
              (fl_mul (fl_of_Z (STARTING_CAPITAL settings)) (Fin 0.2))
    then [{| ev_type := "financial_crisis"; ev_stakeholder := None;
             ev_severity := "high";
             ev_description := "Critical financial situation" |}]
    else [] in
  let reputation_events :=
    if fl_ltb (reputation game_state) (Fin 30)
    then [{| ev_type := "reputation_crisis"; ev_stakeholder := None;
             ev_severity := "high";
             ev_description := "Critical reputation level" |}]
    else [] in
  ret (stakeholder_events ++ financial_events ++ reputation_events)%list.

Definition option_string_eqb (a b : option string) : bool :=
  match a, b with
  | Some x, Some y => String.eqb x y
  | None, None => true
  | _, _ => false
  end.

(** [==] on two event dicts *)
Definition Event_eqb (a b : Event) : bool :=
  String.eqb (ev_type a) (ev_type b)
  && option_string_eqb (ev_stakeholder a) (ev_stakeholder b)
  && String.eqb (ev_severity a) (ev_severity b)
  && String.eqb (ev_description a) (ev_description b).

Definition handle_events (game_state : GameState) (events : list Event)
    : M GameState :=
  let* _ :=
    foldM (fun (_ : unit) event =>
             let* ongoing := read_list (ongoing_events game_state) in
             if existsb (Event_eqb event) ongoing then ret tt
             else write_list (ongoing_events game_state) (ongoing ++ [event])%list)
          events tt in
  ret game_state.

Definition process_decision
    (game_state : GameState) (scenario : Scenario) (decision : Decision)
    : M (GameState * dict fl) :=
  let* immediate_impacts :=
    calculate_decision_impacts decision scenario game_state in
  let* updated_state := apply_impacts game_state immediate_impacts in
  let* events := check_triggered_events updated_state immediate_impacts in
  let* updated_state :=
    match events with
    | [] => ret updated_state
    | _ :: _ => handle_events updated_state events
    end in
  let* xp_gained :=
    lift (calculate_experience_points decision immediate_impacts
                                      (difficulty_level scenario)) in
  let updated_state :=
    set_experience_points (experience_points updated_state + xp_gained)%Z
                          updated_state in
  let updated_state := check_level_up updated_state in
  let* updated_state :=
    update_stakeholder_memories updated_state decision immediate_impacts in
  ret (updated_state, immediate_impacts).

End Rules.

End GameLogic.

(** * [app/api/endpoints/scenarios.py]: the caller of [process_decision] *)

Module ScenarioEndpoints.
Import GameLogic.

Definition microseconds_per_second : Z := 1000000.

(** [_validate_decision]; its [except Exception: return False] has
    nothing to catch here, the attributes being present. *)
Definition validate_decision
    (utcnow : Z) (decision : Decision) (scenario : Scenario) : bool :=
  let valid_approaches := possible_approaches scenario in
  if negb (existsb (String.eqb (approach_id decision)) valid_approaches)
  then false
  else if match time_constraint scenario with
          | Some limit =>
              negb (limit =? 0)%Z
              && (limit * microseconds_per_second
                  <? utcnow - created_at scenario)%Z
          | None => false
          end
  then false
  else if negb (forallb (fun param =>
                           existsb (String.eqb param)
                                   (required_parameters scenario))
                        (parameters decision))
  then false
  else true.

(** [submit_decision], from the validation to the call of
    [process_decision]; the lookups before and the storage after are left
    out.  An [HTTPException] passes through, any other exception becomes
    status 500. *)
Definition submit_decision
    (settings : Settings) (copy_deep : bool) (utcnow : Z)
    (game_state : GameState) (scenario : Scenario) (decision : Decision)
    : M (GameState * dict fl) :=
  if negb (validate_decision utcnow decision scenario)
  then raise (HTTPException 400)
  else
    fun s =>
      match process_decision settings copy_deep utcnow game_state scenario
                             decision s with
      | (Ok r, s') => (Ok r, s')
      | (Raise (HTTPException code), s') => (Raise (HTTPException code), s')
      | (Raise _, s') => (Raise (HTTPException 500), s')
      end.

End ScenarioEndpoints.

(** * [app/core/analytics/pattern_analyzer.py] *)

Module PatternAnalyzer.

(** ** Data *)

(** The dataclass [Decision]; [timestamp] in microseconds, [time_spent] in
    seconds. *)
Record Decision : Type := {
  id : string;
  timestamp : Z;
  scenario_type : string;
  choice : string;
  stakeholders_affected : list string;
  impacts : dict fl;
  rationale : string;
  time_spent : Z;
  difficulty_level : fl
}.

(** The dataclass [LearningPattern] *)
Record LearningPattern : Type := {
  bias_score : fl;
  confidence : fl;
  stakeholder_preferences : dict fl;
  avoided_topics : list string;
  skill_levels : dict fl;
  learning_rate : fl;
  decision_speed : fl;
  consistency_score : fl
}.

(** [self.skill_categories] *)
Definition skill_categories : dict (list string) :=
  [("stakeholder_management",
    ["employee_relations"; "community_engagement"; "investor_relations"]);
   ("ethical_reasoning",
    ["principle_application"; "consequence_analysis"; "moral_judgment"]);
   ("strategic_thinking",
    ["long_term_planning"; "risk_assessment"; "resource_allocation"]);
   ("leadership",
    ["decision_making"; "crisis_management"; "change_management"])].

(** ** Helpers for the containers of the source *)

(** [d[k].append(v)] on a [defaultdict(list)] *)
Definition dict_append {A} (k : string) (v : A) (d : dict (list A)) : dict (list A) :=
  dict_set k (dict_get_default k [] d ++ [v])%list d.

(** [d[k] += n] on a [defaultdict(int)] *)
Definition dict_incr (k : string) (n : Z) (d : dict Z) : dict Z :=
  dict_set k (dict_get_default k 0%Z d + n)%Z d.

(** [d[k] += x] on a dict that holds [k] *)
Definition dict_add_to (k : string) (x : fl) (d : dict fl) : dict fl :=
  match dict_get k d with
  | Some v => dict_set k (fl_add v x) d
  | None => d
  end.

Fixpoint insert_by_timestamp (d : Decision) (l : list Decision) : list Decision :=
  match l with
  | [] => [d]
  | x :: l' =>
      if (timestamp d <=? timestamp x)%Z then d :: l
      else x :: insert_by_timestamp d l'
  end.

(** [sorted(decisions, key=lambda x: x.timestamp)]; stable *)
Definition sorted_by_timestamp (decisions : list Decision) : list Decision :=
  fold_right insert_by_timestamp [] decisions.

(** [l[-n:]] for a positive [n] *)
Definition last_n {A} (n : nat) (l : list A) : list A :=
  skipn (length l - n) l.

(** The pairs [(l[i], l[j])] with [i < j], in the order of the two loops. *)
Fixpoint pairs_in_order {A} (l : list A) : list (A * A) :=
  match l with
  | [] => []
  | x :: l' => (map (fun y => (x, y)) l' ++ pairs_in_order l')%list
  end.

(** The pairs [(l[i-1], l[i])] for [i > 0]. *)
Fixpoint consecutive_pairs {A} (l : list A) : list (A * A) :=
  match l with
  | x :: (y :: _) as l' => (x, y) :: consecutive_pairs l'
  | _ => []
  end.

Section Analyzer.

(** [self.min_decisions] *)
Variable min_decisions : Z.

(** [np.std] on a list of floats; it does not raise. *)
Variable np_std : list fl -> fl.

(** [np.polyfit(x, y, 1)[0]] *)
Variable np_polyfit_slope : list fl -> list fl -> result fl.

(** [self._calculate_skill_score(decision, subcategories)]: the class calls
    this method and does not define it. *)
Variable calculate_skill_score : Decision -> list string -> result fl.

Definition mean_stakeholder_impact (decision : Decision) : fl :=
  np_mean (map (fun s => dict_get_default s (Fin 0) (impacts decision))
               (stakeholders_affected decision)).

Definition calculate_bias_score (decisions : list Decision) : fl :=
  let biases : dict fl :=
    [("short_term", Fin 0); ("financial", Fin 0); ("stakeholder", Fin 0)] in
  let biases :=
    fold_left
      (fun biases decision =>
         let short_term_impact :=
           dict_get_default "immediate" (Fin 0) (impacts decision) in
         let long_term_impact :=
           dict_get_default "long_term" (Fin 0) (impacts decision) in
         let biases :=
           dict_add_to "short_term"
             (np_div (fl_sub short_term_impact long_term_impact) (Fin 100))
             biases in
         let financial_impact :=
           dict_get_default "financial" (Fin 0) (impacts decision) in
         let stakeholder_impact := mean_stakeholder_impact decision in
         dict_add_to "financial"
           (np_div (fl_sub financial_impact stakeholder_impact) (Fin 100))
           biases)
      decisions biases in
  np_mean (dict_values biases).

Definition calculate_impact_similarity (impacts1 impacts2 : dict fl) : fl :=
  let all_keys : gset string :=
    list_to_set (dict_keys impacts1) ∪ list_to_set (dict_keys impacts2) in
  let differences :=
    map (fun key =>
           let val1 := dict_get_default key (Fin 0) impacts1 in
           let val2 := dict_get_default key (Fin 0) impacts2 in
           np_div (fl_abs (fl_sub val1 val2)) (Fin 200))
        (elements all_keys) in
  fl_sub (Fin 1) (np_mean differences).

Definition calculate_decision_similarity
    (decision1 decision2 : Decision) : result fl :=
  let impact_similarity :=
    calculate_impact_similarity (impacts decision1) (impacts decision2) in
  let set1 : gset string := list_to_set (stakeholders_affected decision1) in
  let set2 : gset string := list_to_set (stakeholders_affected decision2) in
  let? stakeholder_similarity :=
    py_truediv (fl_of_Z (Z.of_nat (size (set1 ∩ set2))))
               (fl_of_Z (Z.of_nat (size (set1 ∪ set2)))) in
  Ok (np_div (fl_add impact_similarity stakeholder_similarity) (Fin 2)).

Definition calculate_confidence (decisions : list Decision) : result fl :=
  let recent_decisions := last_n 5 (sorted_by_timestamp decisions) in
  let avg_time :=
    np_mean (map (fun d => fl_of_Z (time_spent d)) recent_decisions) in
  let time_spent_factor :=
    map (fun d => py_min (np_div (fl_of_Z (time_spent d)) avg_time) (Fin 2))
        recent_decisions in
  let? consistency_factor :=
    mapR (fun p : Decision * Decision =>
            calculate_decision_similarity (snd p) (fst p))
         (filter (fun p : Decision * Decision =>
                    scenario_type (snd p) = scenario_type (fst p))
                 (consecutive_pairs recent_decisions)) in
  let changes := 0%Z in
  let time_consistency := fl_sub (Fin 1) (np_std time_spent_factor) in
  let similarity :=
    match consistency_factor with
    | [] => Fin 0.5
    | _ :: _ => np_mean consistency_factor
    end in
  let? change_ratio :=
    py_truediv (fl_of_Z changes)
               (fl_of_Z (Z.of_nat (length recent_decisions))) in
  let confidence_score :=
    np_mean [time_consistency; similarity; fl_sub (Fin 1) change_ratio] in
  Ok (py_max (Fin 0) (py_min (Fin 1) confidence_score)).

Definition analyze_stakeholder_preferences (decisions : list Decision) : dict fl :=
  let stakeholder_impacts : dict (list fl) :=
    fold_left
      (fun acc decision =>
         fold_left
           (fun acc stakeholder =>
              dict_append stakeholder
                (dict_get_default stakeholder (Fin 0) (impacts decision)) acc)
           (stakeholders_affected decision) acc)
      decisions [] in
  fold_left
    (fun preferences (item : string * list fl) =>
       let avg_impact := np_mean (snd item) in
       dict_set (fst item) (np_div (fl_add avg_impact (Fin 100)) (Fin 200))
                preferences)
    stakeholder_impacts [].

Definition is_avoidance_behavior (decision : Decision) : bool :=
  let avg_impact := np_mean (dict_values (impacts decision)) in
  let quick_decision := (time_spent decision <? 15)%Z in
  let minimal_impact := fl_ltb (fl_abs avg_impact) (Fin 10) in
  quick_decision && minimal_impact.

Definition identify_avoided_topics (decisions : list Decision)
    : result (list string) :=
  let counts : dict Z * dict Z :=
    fold_left
      (fun (acc : dict Z * dict Z) decision =>
         let topic_counts := dict_incr (scenario_type decision) 1 (fst acc) in
         let topic_avoidance :=
           if is_avoidance_behavior decision
           then dict_incr (scenario_type decision) 1 (snd acc)
           else snd acc in
         (topic_counts, topic_avoidance))
      decisions ([], []) in
  let topic_counts := fst counts in
  let topic_avoidance := snd counts in
  let? flags :=
    mapR (fun item : string * Z =>
            let? avoidance_rate :=
              py_truediv
                (fl_of_Z (dict_get_default (fst item) 0%Z topic_avoidance))
                (fl_of_Z (snd item)) in
            Ok (fst item, fl_ltb (Fin 0.7) avoidance_rate))
         topic_counts in
  Ok (map fst (filter (fun f : string * bool => snd f = true) flags)).

Definition assess_skill_levels (decisions : list Decision) : result (dict fl) :=
  let? scored :=
    mapR (fun decision =>
            mapR (fun item : string * list string =>
                    let? skill_score :=
                      calculate_skill_score decision (snd item) in
                    Ok (fst item, skill_score))
                 skill_categories)
         decisions in
  let skills : dict (list fl) :=
    fold_left (fun acc (item : string * fl) =>
                 dict_append (fst item) (snd item) acc)
              (concat scored) [] in
  Ok (map (fun item : string * list fl => (fst item, np_mean (snd item)))
          skills).

Definition calculate_window_performance (decisions : list Decision) : fl :=
  let scores :=
    map (fun decision =>
           let impact_score := np_mean (dict_values (impacts decision)) in
           let difficulty_adj := difficulty_level decision in
           fl_mul (np_div (fl_add impact_score (Fin 100)) (Fin 200))
                  difficulty_adj)
        decisions in
  np_mean scores.

Definition calculate_learning_rate (decisions : list Decision) : result fl :=
  if (length decisions <? 10)%nat then Ok (Fin 0.5)
  else
    let sorted_decisions := sorted_by_timestamp decisions in
    let window_size := 5%nat in
    let performance_trend :=
      map (fun i =>
             calculate_window_performance
               (firstn window_size (skipn i sorted_decisions)))
          (seq 0 (length sorted_decisions - window_size)) in
    match performance_trend with
    | [] => Ok (Fin 0.5)
    | _ :: _ =>
        let? slope :=
          np_polyfit_slope
            (map (fun i => fl_of_Z (Z.of_nat i))
                 (seq 0 (length performance_trend)))
            performance_trend in
        Ok (py_max (Fin 0)
                   (py_min (Fin 1) (np_div (fl_add slope (Fin 1)) (Fin 2))))
    end.

Definition analyze_decision_speed (decisions : list Decision) : result fl :=
  match decisions with
  | [] => Ok (Fin 0.5)
  | _ :: _ =>
      let? speed_scores :=
        mapR (fun decision =>
                let expected_time :=
                  fl_add (Fin 30)
                         (fl_mul (Fin 90) (difficulty_level decision)) in
                let actual_time := fl_of_Z (time_spent decision) in
                py_truediv expected_time actual_time)
             decisions in
      let avg_speed := np_mean speed_scores in
      Ok (py_max (Fin 0) (py_min (Fin 1) avg_speed))
  end.

Definition calculate_consistency (decisions : list Decision) : result fl :=
  if (length decisions <? 3)%nat then Ok (Fin 0.5)
  else
    let scenario_decisions : dict (list Decision) :=
      fold_left (fun acc decision =>
                   dict_append (scenario_type decision) decision acc)
                decisions [] in
    let? consistency_scores :=
      mapR (fun item : string * list Decision =>
              let type_decisions := snd item in
              if (length type_decisions <? 2)%nat then Ok []
              else
                let? similarities :=
                  mapR (fun p : Decision * Decision =>
                          calculate_decision_similarity (fst p) (snd p))
                       (pairs_in_order type_decisions) in
                match similarities with
                | [] => Ok []
                | _ :: _ => Ok [np_mean similarities]
                end)
           scenario_decisions in
    match concat consistency_scores with
    | [] => Ok (Fin 0.5)
    | scores => Ok (np_mean scores)
    end.

Definition generate_initial_pattern : LearningPattern := {|
  bias_score := Fin 0.0;
  confidence := Fin 0.5;
  stakeholder_preferences :=
    [("employees", Fin 0.5); ("community", Fin 0.5);
     ("investors", Fin 0.5); ("environment", Fin 0.5)];
  avoided_topics := [];
  skill_levels := map (fun item : string * list string => (fst item, Fin 0.3))
                      skill_categories;
  learning_rate := Fin 0.5;
  decision_speed := Fin 0.5;
  consistency_score := Fin 0.5
|}.

(** The body of the [try] block of [analyze_patterns]: the eight fields in
    the order in which the keyword arguments are evaluated. *)
Definition compute_pattern (decisions : list Decision) : result LearningPattern :=
  let bias := calculate_bias_score decisions in
  let? conf := calculate_confidence decisions in
  let prefs := analyze_stakeholder_preferences decisions in
  let? avoided := identify_avoided_topics decisions in
  let? skills := assess_skill_levels decisions in
  let? rate := calculate_learning_rate decisions in
  let? speed := analyze_decision_speed decisions in
  let? consistency := calculate_consistency decisions in
  Ok {| bias_score := bias;
        confidence := conf;
        stakeholder_preferences := prefs;
        avoided_topics := avoided;
        skill_levels := skills;
        learning_rate := rate;
        decision_speed := speed;
        consistency_score := consistency |}.

Definition analyze_patterns (decisions : list Decision) (current_level : Z)
    : result LearningPattern :=
  if (Z.of_nat (length decisions) <? min_decisions)%Z
  then Ok generate_initial_pattern
  else try_except (compute_pattern decisions)
                  (fun _ => Ok generate_initial_pattern).

End Analyzer.

End PatternAnalyzer.

(** * Reference formulas and sample inputs for the game logic *)

Module GameLogicSamples.
Import GameLogic.

Definition set_approach_id (a : string) (decision : Decision) : Decision :=
  {| approach_id := a; type := type decision; impacts := impacts decision;
     parameters := parameters decision |}.

Definition set_possible_approaches (l : list string) (scenario : Scenario)
    : Scenario :=
  {| difficulty_level := difficulty_level scenario;
     possible_approaches := l;
     time_constraint := time_constraint scenario;
     created_at := created_at scenario;
     required_parameters := required_parameters scenario |}.


(** The caller's view of the containers of [game_state] is the same in
    [after] as in [before]. *)
Definition containers_unchanged
    (game_state : GameState) (before after : store) : Prop :=
  dicts after !! stakeholder_satisfaction game_state
  = dicts before !! stakeholder_satisfaction game_state
  /\ lists after !! ongoing_events game_state
     = lists before !! ongoing_events game_state
  /\ metas after !! metadata game_state
     = metas before !! metadata game_state.

(** Every container of [before] is in [after] with the same contents. *)
Definition preserved (before after : store) : Prop :=
  (forall l x, dicts before !! l = Some x -> dicts after !! l = Some x)
  /\ (forall l x, lists before !! l = Some x -> lists after !! l = Some x)
  /\ (forall l x, metas before !! l = Some x -> metas after !! l = Some x).

(** The containers of [game_state] are not among those of [s]. *)
Definition apart_from (s : store) (game_state : GameState) : Prop :=
  dicts s !! stakeholder_satisfaction game_state = None
  /\ lists s !! ongoing_events game_state = None
  /\ metas s !! metadata game_state = None.

(** From a store that satisfies [P], the computation [m] either returns
    [a] in a store that satisfies [Q a], or raises in a store that
    satisfies [E]. *)
Definition triple {A} (P : store -> Prop) (m : M A)
    (Q : A -> store -> Prop) (E : store -> Prop) : Prop :=
  forall s, P s ->
    match m s with
    | (Ok a, s') => Q a s'
    | (Raise _, s') => E s'
    end.

(** [lo <= x <= hi] *)
Definition within (lo hi : Q) (x : fl) : Prop :=
  exists q, x = Fin q /\ (lo <= q)%Q /\ (q <= hi)%Q.

(** Every satisfaction value of the dict at [l] lies in [0, 100]. *)
Definition satisfactions_within (l : loc) (s : store) : Prop :=
  exists satisfactions,
    dicts s !! l = Some satisfactions
    /\ Forall (fun kv => within 0 100 (snd kv)) satisfactions.

Definition nonnegative_or_infinite (a : fl) : Prop :=
  a = PInf \/ exists q, a = Fin q /\ (0 <= q)%Q.

(** A state has the scalars of another. *)
Definition same_scalars (a b : GameState) : Prop :=
  company_size a = company_size b
  /\ financial_resources a = financial_resources b
  /\ reputation a = reputation b
  /\ market_share a = market_share b
  /\ sustainability_rating a = sustainability_rating b
  /\ current_level a = current_level b
  /\ experience_points a = experience_points b.

(** The state of a new player ([initialize_game_state]), its containers
    at address 1. *)
Definition neutral_satisfaction : dict fl :=
  [("employees", Fin 50); ("customers", Fin 50); ("investors", Fin 50);
   ("community", Fin 50); ("environment", Fin 50)].

Definition starting_store : store := {|
  dicts := {[ 1%positive := neutral_satisfaction ]};
  lists := {[ 1%positive := [] ]};
  metas := {[ 1%positive := None ]}
|}.

Definition starting_state : GameState := {|
  company_size := "small";
  financial_resources := Fin 1000000;
  reputation := Fin 50;
  stakeholder_satisfaction := 1%positive;
  market_share := Fin 5;
  sustainability_rating := "C";
  ongoing_events := 1%positive;
  current_level := 1;
  experience_points := 0;
  metadata := 1%positive
|}.

Definition half_difficulty : Scenario := {|
  difficulty_level := Fin 0.5;
  possible_approaches := ["approach_1"; "approach_2"];
  time_constraint := None;
  created_at := 0;
  required_parameters := []
|}.

(** Impacts [{employees: +20, financial: -10000}]. *)
Definition raise_wages : Decision := {|
  approach_id := "approach_1";
  type := "labor";
  impacts := [("employees", Fin 20); ("financial", Fin (-10000))];
  parameters := []
|}.

(** A decision for an approach that the scenario does not offer. *)
Definition unknown_approach : Decision := {|
  approach_id := "approach_9";
  type := "labor";
  impacts := [("employees", Fin 20)];
  parameters := []
|}.

(** A decision that drives employee satisfaction to the floor. *)
Definition mass_layoff : Decision := {|
  approach_id := "approach_2";
  type := "labor";
  impacts := [("employees", Fin (-100))];
  parameters := []
|}.

(** A decision with an impact far beyond the usual range. *)
Definition windfall : Decision := {|
  approach_id := "approach_1";
  type := "labor";
  impacts := [("employees", Fin 1000000)];
  parameters := []
|}.



End GameLogicSamples.

(** * Reference formulas and sample inputs for the pattern analyzer *)

Module PatternAnalyzerSamples.
Import PatternAnalyzer.

(** The two signed per-decision components of the bias score. *)
Definition short_term_component (decision : Decision) : fl :=
  np_div (fl_sub (dict_get_default "immediate" (Fin 0) (impacts decision))
                 (dict_get_default "long_term" (Fin 0) (impacts decision)))
         (Fin 100).

Definition financial_component (decision : Decision) : fl :=
  np_div (fl_sub (dict_get_default "financial" (Fin 0) (impacts decision))
                 (mean_stakeholder_impact decision))
         (Fin 100).

(** The bias score as the specification words it: each component averaged
    over the decisions, the two averages averaged together. *)
Definition bias_score_as_specified (decisions : list Decision) : fl :=
  np_mean [np_mean (map short_term_component decisions);
           np_mean (map financial_component decisions)].

(** The cold-start profile as the specification words it: a preference of
    0.5 for each of the five stakeholder types of the settings. *)
Definition cold_start_as_specified : LearningPattern := {|
  bias_score := Fin 0;
  confidence := Fin 0.5;
  stakeholder_preferences :=
    map (fun s => (s, Fin 0.5)) (STAKEHOLDER_TYPES default_settings);
  avoided_topics := [];
  skill_levels := map (fun item : string * list string => (fst item, Fin 0.3))
                      skill_categories;
  learning_rate := Fin 0.5;
  decision_speed := Fin 0.5;
  consistency_score := Fin 0.5
|}.

(** A decision that favours the short term: +100 now, nothing later. *)
Definition short_sighted (n : Z) : Decision := {|
  id := "d";
  timestamp := n;
  scenario_type := "labor";
  choice := "a";
  stakeholders_affected := ["employees"];
  impacts := [("immediate", Fin 100); ("long_term", Fin 0);
              ("financial", Fin 0); ("employees", Fin 0)];
  rationale := "";
  time_spent := 30;
  difficulty_level := Fin 0.5
|}.

Definition five_short_sighted : list Decision :=
  map short_sighted [1; 2; 3; 4; 5]%Z.

(** A decision taken in zero seconds. *)
Definition instant (n : Z) : Decision := {|
  id := "d";
  timestamp := n;
  scenario_type := "labor";
  choice := "a";
  stakeholders_affected := ["employees"];
  impacts := [("employees", Fin 10)];
  rationale := "";
  time_spent := 0;
  difficulty_level := Fin 0.5
|}.

Definition five_instant : list Decision := map instant [1; 2; 3; 4; 5]%Z.

(** Stand-ins for the numpy routines and for the scoring method that the
    class does not define, to run the analyzer on the samples. *)
Definition sample_std (l : list fl) : fl := Fin 0.
Definition sample_slope (x y : list fl) : result fl := Ok (Fin 0).
Definition sample_skill_score (d : Decision) (subs : list string) : result fl :=
  Ok (Fin 0.5).

(** What the call does in the source as it stands: the attribute lookup
    fails. *)
Definition missing_skill_score (d : Decision) (subs : list string) : result fl :=
  Raise (AttributeError "_calculate_skill_score").

End PatternAnalyzerSamples.

(** * Further notions used to state the laws of the game logic *)

Module GameLogicNotions.
Import GameLogic GameLogicSamples.

(** [max(lo, min(hi, x))] *)
Definition clamp (lo hi : Q) (x : fl) : fl :=
  py_max (Fin lo) (py_min (Fin hi) x).

(** What a satisfaction dict holds after the loop of [_apply_impacts]
    over [types], [sat'], given what it held before, [sat]. *)
Definition satisfaction_after
    (types : list string) (resolved sat sat' : dict fl) : Prop :=
  forall k,
    (In k types ->
     forall change old,
       dict_get k resolved = Some change -> dict_get k sat = Some old ->
       dict_get k sat' = Some (clamp 0 100 (fl_add old change)))
    /\ (~ In k types \/ dict_get k resolved = None ->
        dict_get k sat' = dict_get k sat).

(** The position of a sustainability rating on the scale from D to A+. *)
Definition rating_rank (rating : string) : nat :=
  if String.eqb rating "A+" then 6
  else if String.eqb rating "A" then 5
  else if String.eqb rating "B+" then 4
  else if String.eqb rating "B" then 3
  else if String.eqb rating "C+" then 2
  else if String.eqb rating "C" then 1
  else 0.

(** The memory that [_update_stakeholder_memories] writes for a
    stakeholder. *)
Definition new_memory (utcnow : Z) (decision : Decision) (resolved : dict fl)
    (stakeholder : string) : Memory :=
  {| decision_type := type decision;
     impact := dict_get_default stakeholder (Fin 0) resolved;
     timestamp := utcnow |}.

(** A memory is less than [STAKEHOLDER_MEMORY_DURATION] days old. *)
Definition recent (utcnow : Z) (m : Memory) : Prop :=
  (days_between utcnow (timestamp m) < STAKEHOLDER_MEMORY_DURATION)%Z.

(** The memory list of a stakeholder in the metadata at [l]. *)
Definition memories_of (s : store) (l : loc) (stakeholder : string)
    : option (list Memory) :=
  match metas s !! l with
  | Some (Some d) => dict_get stakeholder d
  | _ => None
  end.

(** After the update the memory list of the stakeholder ends with the
    memory of this decision and holds recent memories only. *)
Definition remembered (utcnow : Z) (decision : Decision) (resolved : dict fl)
    (s : store) (l : loc) (stakeholder : string) : Prop :=
  exists memories,
    memories_of s l stakeholder = Some memories
    /\ last memories = Some (new_memory utcnow decision resolved stakeholder)
    /\ Forall (recent utcnow) memories.

(** The exceptions that the endpoint turns into status 500. *)
Definition not_http (e : exn) : Prop :=
  match e with
  | HTTPException _ => False
  | _ => True
  end.

(** Every exception that [m] can raise satisfies [S]. *)
Definition raises_only {A} (S : exn -> Prop) (m : M A) : Prop :=
  forall s e s', m s = (Raise e, s') -> S e.

(** A finite number: neither NaN nor an infinity. *)
Definition finite (x : fl) : Prop := exists q, x = Fin q.

Definition finite_values (d : dict fl) : Prop :=
  Forall (fun kv : string * fl => finite (snd kv)) d.

(** The satisfaction dict of the state has an entry for [k]. *)
Definition has_satisfaction (game_state : GameState) (s : store) (k : string)
    : Prop :=
  exists sat,
    dicts s !! stakeholder_satisfaction game_state = Some sat
    /\ In k (dict_keys sat).

(** Every value of the dict lies in [-100, 100], the range of an impact. *)
Definition in_range (d : dict fl) : Prop :=
  Forall (fun kv : string * fl => within (-100) 100 (snd kv)) d.

(** A finite number at a distance of [bound] at least from zero. *)
Definition away_from_zero (bound : Q) (x : fl) : Prop :=
  exists r, x = Fin r /\ (bound <= r \/ r <= - bound)%Q.

(** The largest double, [sys.float_info.max]. *)
Definition DBL_MAX : Q := inject_Z (2 ^ 1024 - 2 ^ 971).

(** A state that the rules can work on: its three containers are in the
    store, the satisfaction dict has an entry for every stakeholder type of
    the settings (there is one at least) and for the two stakeholders of the
    sustainability rating, the company size is one of the three sizes, and
    the market share lies in [0, 100]. *)
Definition well_formed (settings : Settings) (game_state : GameState)
    (s : store) : Prop :=
  (exists events, lists s !! ongoing_events game_state = Some events)
  /\ (exists meta, metas s !! metadata game_state = Some meta)
  /\ (forall k, In k (STAKEHOLDER_TYPES settings) ->
                has_satisfaction game_state s k)
  /\ has_satisfaction game_state s "environment"
  /\ has_satisfaction game_state s "community"
  /\ In (company_size game_state) ["small"; "medium"; "large"]
  /\ STAKEHOLDER_TYPES settings <> []
  /\ within 0 100 (market_share game_state).

(** A scenario that has to be answered within a minute. *)
Definition one_minute_limit : Scenario := {|
  difficulty_level := Fin 0.5;
  possible_approaches := ["approach_1"; "approach_2"];
  time_constraint := Some 60%Z;
  created_at := 0;
  required_parameters := []
|}.

End GameLogicNotions.

(** * Notions used in the laws of the pattern analyzer *)

Module PatternAnalyzerNotions.
Import PatternAnalyzer.

(** The decisions of a history on one scenario type, and those among them
    that show avoidance behaviour. *)
Definition decisions_on (topic : string) (decisions : list Decision)
    : list Decision :=
  List.filter (fun d => String.eqb (scenario_type d) topic) decisions.

Definition avoided_on (topic : string) (decisions : list Decision)
    : list Decision :=
  List.filter is_avoidance_behavior (decisions_on topic decisions).

(** [lo <= x <= hi] for a finite [x] *)
Definition between (lo hi : Q) (x : fl) : Prop :=
  exists q, x = Fin q /\ (lo <= q)%Q /\ (q <= hi)%Q.

(** Every impact that a decision records lies in [-100, 100]. *)
Definition impacts_in_range (decision : Decision) : Prop :=
  Forall (fun kv : string * fl => between (-100) 100 (snd kv))
         (impacts decision).

End PatternAnalyzerNotions.

(** * Properties of the game logic *)

Module GameLogicFacts.
Import GameLogic ScenarioEndpoints GameLogicSamples.

(** ** Reasoning about computations over the store *)

Lemma bind_ok {A B} (m : M A) (f : A -> M B) s b s' :
  bind m f s = (Ok b, s') ->
  exists a s1, m s = (Ok a, s1) /\ f a s1 = (Ok b, s').
Proof.
  unfold bind. destruct (m s) as [[a|e] s1]; [eauto | discriminate].
Qed.

Lemma ret_ok {A} (a b : A) s s' : ret a s = (Ok b, s') -> b = a /\ s' = s.
Proof. unfold ret. intros H. inversion H. auto. Qed.

Lemma lift_ok {A} (r : result A) (a : A) s s' :
  lift r s = (Ok a, s') -> r = Ok a /\ s' = s.
Proof. unfold lift. intros H. inversion H. auto. Qed.

Lemma read_dict_ok l d s s' :
  read_dict l s = (Ok d, s') -> dicts s !! l = Some d /\ s' = s.
Proof.
  unfold read_dict. destruct (dicts s !! l); intros H; inversion H; auto.
Qed.

Lemma read_list_ok l d s s' :
  read_list l s = (Ok d, s') -> lists s !! l = Some d /\ s' = s.
Proof.
  unfold read_list. destruct (lists s !! l); intros H; inversion H; auto.
Qed.

Lemma read_meta_ok l d s s' :
  read_meta l s = (Ok d, s') -> metas s !! l = Some d /\ s' = s.
Proof.
  unfold read_meta. destruct (metas s !! l); intros H; inversion H; auto.
Qed.

(** Take the first step of a computation that has returned. *)
Tactic Notation "step" hyp(H) "as" ident(a) ident(H1) :=
  let s1 := fresh "s" in
  apply bind_ok in H; destruct H as (a & s1 & H1 & H).

Ltac finish H :=
  first
    [ apply ret_ok in H; destruct H as [? ?]; subst
    | apply lift_ok in H; destruct H as [? ?]; subst
    | apply read_dict_ok in H; destruct H as [? ?]; subst
    | apply read_list_ok in H; destruct H as [? ?]; subst
    | apply read_meta_ok in H; destruct H as [? ?]; subst ].

(** An invariant of the store that every round of a loop keeps is kept by
    the loop. *)
Lemma foldM_invariant {A} (P : store -> Prop) (f : unit -> A -> M unit) l :
  (forall x s s', P s -> f tt x s = (Ok tt, s') -> P s') ->
  forall s s' u, P s -> foldM f l tt s = (Ok u, s') -> P s'.
Proof.
  intros Hf. induction l as [|x l IH]; intros s s' u HP H; simpl in H.
  - finish H. exact HP.
  - step H as v Hx. destruct v. eapply IH; [eapply Hf; eauto | exact H].
Qed.

(** ** C1: no validation of the approach *)

(** [process_decision] reads neither the approach that the decision names
    nor the approaches that the scenario offers. *)
Lemma process_decision_ignores_approach
    settings copy_deep utcnow game_state scenario decision
    (a : string) (approaches : list string) (s : store) :
  process_decision settings copy_deep utcnow game_state
                   (set_possible_approaches approaches scenario)
                   (set_approach_id a decision) s
  = process_decision settings copy_deep utcnow game_state scenario decision s.
Proof. reflexivity. Qed.

Lemma existsb_eqb_In (a : string) (l : list string) :
  existsb (String.eqb a) l = true <-> In a l.
Proof.
  rewrite existsb_exists. split.
  - intros (x & Hx & E). apply String.eqb_eq in E. subst. exact Hx.
  - intros H. exists a. split; [exact H | apply String.eqb_refl].
Qed.

Lemma validate_decision_unknown_approach utcnow decision scenario :
  ~ In (approach_id decision) (possible_approaches scenario) ->
  validate_decision utcnow decision scenario = false.
Proof.
  intros H. unfold validate_decision.
  destruct (existsb _ _) eqn:E; [|reflexivity].
  apply existsb_eqb_In in E. contradiction.
Qed.

(** C1, on the code.  A decision for an approach that the scenario does
    not offer is turned down by the endpoint: [_validate_decision] returns
    False, [submit_decision] raises status 400 before it calls
    [process_decision], and the store is as it was.  [process_decision]
    itself makes no such check: its outcome, exception or new state, is
    the same whatever the approach named and the approaches offered. *)
Theorem unknown_approach_is_rejected_by_the_endpoint
    settings copy_deep utcnow game_state scenario decision (s : store) :
  ~ In (approach_id decision) (possible_approaches scenario) ->
  submit_decision settings copy_deep utcnow game_state scenario decision s
  = (Raise (HTTPException 400), s)
  /\ (forall a approaches,
        process_decision settings copy_deep utcnow game_state
                         (set_possible_approaches approaches scenario)
                         (set_approach_id a decision) s
        = process_decision settings copy_deep utcnow game_state scenario
                           decision s).
Proof.
  intros H. split.
  - unfold submit_decision.
    rewrite (validate_decision_unknown_approach utcnow decision scenario H).
    reflexivity.
  - intros a approaches. apply process_decision_ignores_approach.
Qed.

(** C1, on the starting state: a decision for ['approach_9'] when the
    scenario offers ['approach_1'] and ['approach_2']. *)
Lemma approach_9_is_rejected_by_the_endpoint :
  submit_decision default_settings false 0 starting_state half_difficulty
                  unknown_approach starting_store
  = (Raise (HTTPException 400), starting_store).
Proof.
  apply (unknown_approach_is_rejected_by_the_endpoint default_settings false 0
           starting_state half_difficulty unknown_approach starting_store).
  simpl. intros [E|[E|[]]]; discriminate E.
Defined.

(** C1, as the claim has it, fails: a decision for an approach that the
    scenario does not offer is processed, and a new state is returned. *)
Lemma unknown_approach_is_processed :
  ~ (forall settings copy_deep utcnow game_state scenario decision s,
       ~ In (approach_id decision) (possible_approaches scenario) ->
       is_raise (fst (process_decision settings copy_deep utcnow game_state
                                       scenario decision s))
       /\ snd (process_decision settings copy_deep utcnow game_state
                                scenario decision s) = s).
Proof.
  intros H.
  destruct (H default_settings false 0%Z starting_state half_difficulty
              unknown_approach starting_store) as [Hraise _].
  - simpl. intros [E|[E|[]]]; discriminate E.
  - vm_compute in Hraise. exact Hraise.
Qed.

(** ** C2: the sample decision of the specification *)

(** C2, on the code.  On the starting state, the decision with impacts
    [{employees: +20, financial: -10000}] is not processed: the loop over
    the decision's impacts looks up the satisfaction of ['financial'],
    which is no stakeholder, and the call ends in a [KeyError]. *)
Theorem sample_decision_raises_key_error copy_deep utcnow :
  process_decision default_settings copy_deep utcnow
                   starting_state half_difficulty raise_wages starting_store
  = (Raise (KeyError "financial"), starting_store).
Proof. destruct copy_deep; vm_compute; reflexivity. Qed.

(** ** C3: the market share and the division by the resources *)



(** With resources equal to zero it raises. *)
Lemma calculate_new_market_share_zero game_state resolved :
  fl_is_zero (financial_resources game_state) = true ->
  calculate_new_market_share game_state resolved = Raise ZeroDivisionError.
Proof.
  intros H. unfold calculate_new_market_share, py_truediv. rewrite H.
  reflexivity.
Qed.







(** ** Which parts of the state each step touches *)

Section Steps.

Variable settings : Settings.
Variable copy_deep : bool.
Variable utcnow : Z.

Lemma GameState_copy_ok game_state updated s s' :
  GameState_copy copy_deep game_state s = (Ok updated, s') ->
  same_scalars updated game_state
  /\ dicts s' !! stakeholder_satisfaction updated
     = dicts s !! stakeholder_satisfaction game_state.
Proof.
  unfold GameState_copy. destruct copy_deep; intros H.
  - step H as d Hd. finish Hd. step H as e He. finish He.
    step H as m Hm. finish Hm.
    step H as ld Hld. step H as le Hle. step H as lm Hlm. finish H.
    unfold alloc_dict in Hld. inversion Hld; subst. clear Hld.
    unfold alloc_list in Hle. inversion Hle; subst. clear Hle.
    unfold alloc_meta in Hlm. inversion Hlm; subst. clear Hlm.
    split; [repeat split|]. simpl.
    rewrite lookup_insert_eq. symmetry. assumption.
  - finish H. split; [repeat split | reflexivity].
Qed.

Lemma handle_events_same_state game_state events g s s' :
  handle_events game_state events s = (Ok g, s') ->
  g = game_state /\ dicts s' = dicts s.
Proof.
  unfold handle_events. intros H. step H as u Hloop. finish H.
  split; [reflexivity|]. revert Hloop.
  apply (foldM_invariant (fun t => dicts t = dicts s)); [|reflexivity].
  intros ev t t' Ht H. step H as ongoing Hr. finish Hr.
  destruct (existsb (Event_eqb ev) ongoing).
  - finish H. exact Ht.
  - unfold write_list in H. inversion H; subst. exact Ht.
Qed.

Lemma remember_impact_dicts game_state decision resolved stakeholder s s' :
  remember_impact utcnow game_state decision resolved stakeholder s
  = (Ok tt, s') ->
  dicts s' = dicts s.
Proof.
  unfold remember_impact. intros H.
  destruct (dict_mem stakeholder resolved).
  - step H as change Hc. finish Hc. step H as meta Hm. finish Hm.
    step H as memories Hi. finish Hi.
    unfold write_meta in H. inversion H; subst. reflexivity.
  - finish H. reflexivity.
Qed.

Lemma update_stakeholder_memories_same_state game_state decision resolved g s s' :
  update_stakeholder_memories settings utcnow game_state decision resolved s
  = (Ok g, s') ->
  g = game_state /\ dicts s' = dicts s.
Proof.
  unfold update_stakeholder_memories. intros H. step H as u Hloop. finish H.
  split; [reflexivity|]. revert Hloop.
  apply (foldM_invariant (fun t => dicts t = dicts s)); [|reflexivity].
  intros x t t' Ht H. apply remember_impact_dicts in H. congruence.
Qed.

Lemma check_triggered_events_store game_state resolved events s s' :
  check_triggered_events settings game_state resolved s = (Ok events, s') ->
  s' = s.
Proof.
  unfold check_triggered_events. intros H. step H as sat Hr. finish Hr.
  finish H. reflexivity.
Qed.

Lemma calculate_sustainability_rating_store game_state rating s s' :
  calculate_sustainability_rating game_state s = (Ok rating, s') -> s' = s.
Proof.
  unfold calculate_sustainability_rating. intros H.
  step H as sat Hr. finish Hr. step H as env He. finish He.
  step H as com Hc. finish Hc. finish H. reflexivity.
Qed.

Lemma check_level_up_ok game_state :
  experience_points (check_level_up game_state) = experience_points game_state
  /\ stakeholder_satisfaction (check_level_up game_state)
     = stakeholder_satisfaction game_state
  /\ market_share (check_level_up game_state) = market_share game_state
  /\ (current_level (check_level_up game_state) = current_level game_state
      \/ current_level (check_level_up game_state)
         = (current_level game_state + 1)%Z).
Proof.
  unfold check_level_up.
  destruct (calculate_xp_needed (current_level game_state)
            <=? experience_points game_state)%Z; simpl; auto.
Qed.

(** ** Experience points *)

Lemma fl_ltb_0_positive (v : fl) :
  fl_ltb (Fin 0) v = true -> v = PInf \/ exists p, v = Fin p /\ (0 < p)%Q.
Proof.
  destruct v as [p| | |]; simpl; try discriminate; auto.
  intros H. right. exists p. split; [reflexivity|].
  destruct (Qlt_le_dec 0 p) as [Hlt|Hle]; [exact Hlt|].
  apply Qle_bool_iff in Hle. rewrite Hle in H. discriminate.
Qed.

Lemma fl_leb_0_nonnegative (v : fl) :
  fl_leb (Fin 0) v = true -> nonnegative_or_infinite v.
Proof.
  destruct v as [p| | |]; simpl; try discriminate.
  - intros H. right. exists p. split; [reflexivity|].
    apply Qle_bool_iff, H.
  - intros _. left. reflexivity.
Qed.

(** A sum of positive terms that is finite is not negative. *)
Lemma sum_of_positive_terms (l : list fl) : forall acc s,
  nonnegative_or_infinite acc ->
  fold_left fl_add (filter (fun v => fl_ltb (Fin 0) v = true) l) acc = Fin s ->
  (0 <= s)%Q.
Proof.
  induction l as [|x l IH]; intros acc s Hacc H.
  - simpl in H. destruct Hacc as [->|(q & -> & Hq)]; [discriminate|].
    inversion H. subst. exact Hq.
  - rewrite filter_cons in H.
    destruct (decide (fl_ltb (Fin 0) x = true)) as [Hx|Hx].
    + simpl in H. apply IH in H; [exact H|].
      apply fl_ltb_0_positive in Hx.
      destruct Hacc as [->|(q & -> & Hq)];
        destruct Hx as [->|(p & -> & Hp)]; simpl;
        try (left; reflexivity).
      right. exists (q + p)%Q. split; [reflexivity|]. lra.
    + eapply IH; eauto.
Qed.

Lemma Qtrunc_nonnegative (q : Q) : (0 <= q)%Q -> (0 <= Qtrunc q)%Z.
Proof.
  intros H. unfold Qtrunc.
  apply Qle_bool_iff in H as Hb. rewrite Hb.
  change 0%Z with (Qfloor 0). apply Qfloor_resp_le, H.
Qed.

Lemma calculate_experience_points_nonnegative
    decision resolved difficulty xp :
  fl_leb (Fin 0) difficulty = true ->
  calculate_experience_points settings decision resolved difficulty = Ok xp ->
  (0 <= xp)%Z.
Proof.
  intros Hd H. unfold calculate_experience_points in H.
  unfold py_truediv in H.
  destruct (fl_is_zero _) eqn:Hz in H; [discriminate|].
  simpl rbind in H. simpl in Hz. unfold fl_of_Z in H. simpl np_div in H.
  rewrite Hz in H.
  set (count := inject_Z (Z.of_nat (length (filter _ (dict_values resolved))))) in *.
  set (types := inject_Z (Z.of_nat (length (STAKEHOLDER_TYPES settings)))) in *.
  assert (Hratio : (0 <= count / types)%Q).
  { apply Qmult_le_0_compat.
    - unfold count. change 0%Q with (inject_Z 0). rewrite <- Zle_Qle. lia.
    - apply Qinv_le_0_compat. unfold types.
      change 0%Q with (inject_Z 0). rewrite <- Zle_Qle. lia. }
  generalize dependent (count / types)%Q. intros ratio H Hratio.
  pose proof (fun s => sum_of_positive_terms (dict_values resolved) (Fin 0) s
                         (or_intror (ex_intro _ 0%Q (conj eq_refl (Qle_refl 0)))))
    as Hsum.
  fold (py_sum (filter (fun v => fl_ltb (Fin 0) v = true) (dict_values resolved)))
    in Hsum.
  destruct (py_sum _) as [total| | |] in H, Hsum;
    destruct (fl_leb_0_nonnegative _ Hd) as [->|(d & -> & Hdq)];
    simpl in H; try discriminate.
  inversion H. subst xp. apply Qtrunc_nonnegative.
  specialize (Hsum total eq_refl). lra.
Qed.

(** ** The state after the impacts are applied *)

Lemma calculate_impact_modifier_store stakeholder game_state m s s' :
  calculate_impact_modifier stakeholder game_state s = (Ok m, s') -> s' = s.
Proof.
  unfold calculate_impact_modifier. intros H.
  step H as sat Hr. finish Hr. step H as satisfaction Hi. finish Hi.
  step H as size Hs. finish Hs. finish H. reflexivity.
Qed.

(** Resolving the impacts reads the store and leaves it as it is. *)
Lemma calculate_decision_impacts_store decision scenario game_state r s s' :
  calculate_decision_impacts decision scenario game_state s = (Ok r, s') ->
  s' = s.
Proof.
  unfold calculate_decision_impacts. intros H.
  step H as resolved Hloop. step H as financial Hf. finish Hf. finish H.
  revert Hloop. generalize (@nil (string * fl)) as acc.
  generalize (impacts decision) as items.
  induction items as [|item items IH]; intros acc H; simpl in H.
  - finish H. reflexivity.
  - step H as acc' Hitem. step Hitem as m Hm.
    apply calculate_impact_modifier_store in Hm. subst. finish Hitem.
    eapply IH. exact H.
Qed.

Lemma dict_set_Forall {A} (P : A -> Prop) k v (d : dict A) :
  Forall (fun kv => P (snd kv)) d -> P v ->
  Forall (fun kv => P (snd kv)) (dict_set k v d).
Proof.
  intros Hd Hv. induction Hd as [|[k' v'] d Hkv Hd IH]; simpl.
  - constructor; [exact Hv | constructor].
  - destruct (String.eqb k k'); constructor; auto.
Qed.

(** [max(0, min(100, x))] lies in the range for every [x], NaN and the
    infinities included. *)
Lemma clamp_within (x : fl) :
  within 0 100 (py_max (Fin 0) (py_min (Fin 100) x)).
Proof.
  destruct x as [q| | |]; try (vm_compute; eexists; split;
    [reflexivity | split; discriminate]).
  unfold py_min, py_max, fl_ltb.
  destruct (Qle_bool 100 q) eqn:E1; simpl.
  - exists 100%Q. split; [reflexivity|]. split; discriminate.
  - destruct (Qle_bool q 0) eqn:E2; simpl.
    + exists 0%Q. split; [reflexivity|]. split; discriminate.
    + exists q. split; [reflexivity|]. split.
      * destruct (Qlt_le_dec 0 q) as [Hlt|Hle]; [apply Qlt_le_weak, Hlt|].
        apply Qle_bool_iff in Hle. congruence.
      * destruct (Qlt_le_dec q 100) as [Hlt|Hle]; [apply Qlt_le_weak, Hlt|].
        apply Qle_bool_iff in Hle. congruence.
Qed.

Lemma apply_stakeholder_impact_within updated resolved stakeholder s s' :
  satisfactions_within (stakeholder_satisfaction updated) s ->
  apply_stakeholder_impact updated resolved stakeholder s = (Ok tt, s') ->
  satisfactions_within (stakeholder_satisfaction updated) s'.
Proof.
  intros (sat & Hsat & Hall) H. unfold apply_stakeholder_impact in H.
  destruct (dict_mem stakeholder resolved).
  - step H as cur_sat Hr. finish Hr. step H as current Hc. finish Hc.
    step H as change Hch. finish Hch.
    unfold write_dict in H. inversion H; subst. clear H.
    eexists. simpl. rewrite lookup_insert_eq. split; [reflexivity|].
    apply dict_set_Forall; [|apply clamp_within].
    match goal with
    | Hr : _ = Some ?d |- Forall _ ?d =>
        pose proof (eq_trans (eq_sym Hr) Hsat) as E; inversion E; subst;
        exact Hall
    end.
  - finish H. exists sat. auto.
Qed.

Lemma apply_impacts_ok game_state resolved updated s s' :
  apply_impacts settings copy_deep game_state resolved s = (Ok updated, s') ->
  current_level updated = current_level game_state
  /\ experience_points updated = experience_points game_state
  /\ within 0 100 (market_share updated)
  /\ (satisfactions_within (stakeholder_satisfaction game_state) s ->
      satisfactions_within (stakeholder_satisfaction updated) s').
Proof.
  unfold apply_impacts. intros H.
  step H as copied Hcopy. apply GameState_copy_ok in Hcopy as [Hsc Hd].
  destruct Hsc as (_ & _ & _ & _ & _ & Hlevel & Hxp).
  step H as u Hloop. step H as share Hshare. finish Hshare.
  step H as rating Hrating.
  apply calculate_sustainability_rating_store in Hrating. subst. finish H.
  simpl. repeat split; try assumption.
  - unfold calculate_new_market_share in H0.
    destruct (py_truediv _ _); simpl in H0; [|discriminate].
    inversion H0. apply clamp_within.
  - intros (sat & Hsat & Hall). revert Hloop.
    apply (foldM_invariant
             (satisfactions_within (stakeholder_satisfaction copied))).
    + intros x t t' Ht Hx.
      eapply (apply_stakeholder_impact_within
                (set_reputation _ (set_financial_resources _ copied))); eauto.
    + exists sat. split; [exact (eq_trans Hd Hsat) | exact Hall].
Qed.

(** The share that [_apply_impacts] stores is computed from the resources
    as they are after the financial impact has been added. *)
Lemma apply_impacts_market_share game_state resolved updated s s' :
  apply_impacts settings copy_deep game_state resolved s = (Ok updated, s') ->
  calculate_new_market_share
    (set_financial_resources
       (fl_add (financial_resources game_state)
               (dict_get_default "financial" (Fin 0) resolved))
       game_state)
    resolved
  = Ok (market_share updated).
Proof.
  unfold apply_impacts. intros H.
  step H as copied Hcopy. apply GameState_copy_ok in Hcopy as [Hsc _].
  destruct Hsc as (_ & Hfr & _ & Hms & _).
  step H as u Hloop. step H as share Hshare. finish Hshare.
  step H as rating Hrating. finish H. simpl.
  match goal with
  | Hc : calculate_new_market_share _ _ = Ok share |- _ =>
      rewrite <- Hc
  end.
  unfold calculate_new_market_share. simpl. rewrite Hfr, Hms. reflexivity.
Qed.

(** ** C5 and C4: what a processed decision does to the state *)

(** C5. A call that returns, for a scenario of non-negative difficulty,
    never lowers the experience points, and leaves the level as it was or
    raises it by exactly one. *)
Theorem process_decision_experience_and_level
    game_state scenario decision updated resolved s s' :
  fl_leb (Fin 0) (difficulty_level scenario) = true ->
  process_decision settings copy_deep utcnow game_state scenario decision s
  = (Ok (updated, resolved), s') ->
  (experience_points game_state <= experience_points updated)%Z
  /\ (current_level updated = current_level game_state
      \/ current_level updated = (current_level game_state + 1)%Z).
Proof.
  intros Hd H. unfold process_decision in H.
  step H as imp Himpacts. step H as u1 Happly.
  apply apply_impacts_ok in Happly as (Hlevel & Hxp & _ & _).
  step H as events Hevents. step H as u2 Hhandle.
  step H as xp Hgain. finish Hgain. step H as u3 Hmem. finish H.
  apply update_stakeholder_memories_same_state in Hmem as [-> _].
  apply calculate_experience_points_nonnegative in H0; [|exact Hd].
  assert (u2 = u1) as ->.
  { destruct events; [finish Hhandle; reflexivity|].
    apply handle_events_same_state in Hhandle as [-> _]. reflexivity. }
  inversion H; subst; clear H.
  match goal with
  | |- context [check_level_up ?g] =>
      destruct (check_level_up_ok g) as (Hxp' & _ & _ & Hlevel')
  end.
  rewrite Hxp'. simpl. simpl in Hlevel'. rewrite <- Hlevel, <- Hxp.
  split; [lia | exact Hlevel'].
Qed.

(** C4. From a state whose satisfaction values lie in [0, 100], a call
    that returns gives a state whose satisfaction values and market share
    lie in [0, 100]; the bound on the new share needs no assumption on the
    old one. *)
Theorem process_decision_keeps_bounds
    game_state scenario decision updated resolved s s' :
  satisfactions_within (stakeholder_satisfaction game_state) s ->
  process_decision settings copy_deep utcnow game_state scenario decision s
  = (Ok (updated, resolved), s') ->
  satisfactions_within (stakeholder_satisfaction updated) s'
  /\ within 0 100 (market_share updated).
Proof.
  intros Hsat H. unfold process_decision in H.
  step H as imp Himpacts.
  apply calculate_decision_impacts_store in Himpacts. subst.
  step H as u1 Happly.
  apply apply_impacts_ok in Happly as (_ & _ & Hshare & Hkeep).
  specialize (Hkeep Hsat).
  step H as events Hevents.
  apply check_triggered_events_store in Hevents. subst.
  step H as u2 Hhandle. step H as xp Hgain. finish Hgain.
  step H as u3 Hmem. finish H.
  apply update_stakeholder_memories_same_state in Hmem as [-> Hdicts].
  match type of Hhandle with
  | _ ?before = (_, ?after) =>
      assert (u2 = u1 /\ dicts after = dicts before) as [-> Hdicts']
  end.
  { destruct events; [finish Hhandle; auto|].
    apply handle_events_same_state in Hhandle. exact Hhandle. }
  inversion H; subst; clear H.
  match goal with
  | |- context [check_level_up ?g] =>
      destruct (check_level_up_ok g) as (_ & Hloc & Hms & _)
  end.
  rewrite Hloc, Hms. simpl. split; [|exact Hshare].
  destruct Hkeep as (sat & Hl & Hall). exists sat.
  split; [congruence | exact Hall].
Qed.

End Steps.

Lemma neutral_satisfaction_within :
  satisfactions_within (stakeholder_satisfaction starting_state) starting_store.
Proof.
  exists neutral_satisfaction. split; [reflexivity|].
  repeat constructor; exists 50%Q; (split; [reflexivity | split; discriminate]).
Qed.

(** C4, on the starting state and a decision with impacts
    [{employees: +20}]. *)
Lemma bounds_after_first_decision :
  exists updated resolved s',
    process_decision default_settings false 0 starting_state half_difficulty
                     unknown_approach starting_store
    = (Ok (updated, resolved), s')
    /\ satisfactions_within (stakeholder_satisfaction updated) s'
    /\ within 0 100 (market_share updated).
Proof.
  eexists. eexists. eexists. split; [vm_compute; reflexivity|].
  eapply (process_decision_keeps_bounds default_settings false 0
            starting_state half_difficulty unknown_approach _ _
            starting_store).
  - exact neutral_satisfaction_within.
  - vm_compute. reflexivity.
Defined.

(** C5, on the starting state and a decision whose impact earns several
    hundred thousand experience points at once: the new total is beyond
    the requirement of level 2 as well, and the level goes from 1 to 2. *)
Lemma one_level_after_windfall :
  exists updated resolved s',
    process_decision default_settings false 0 starting_state half_difficulty
                     windfall starting_store
    = (Ok (updated, resolved), s')
    /\ (calculate_xp_needed 2 <= experience_points updated)%Z
    /\ ((experience_points starting_state <= experience_points updated)%Z
        /\ (current_level updated = current_level starting_state
            \/ current_level updated = (current_level starting_state + 1)%Z)).
Proof.
  eexists. eexists. eexists. split; [vm_compute; reflexivity|].
  split; [vm_compute; discriminate|].
  eapply (process_decision_experience_and_level default_settings false 0
            starting_state half_difficulty windfall _ _ starting_store).
  - reflexivity.
  - vm_compute. reflexivity.
Defined.

(** ** C9: the caller's state after the call *)

(** C9, on the code.  [_apply_impacts] works on [game_state.copy()], which
    shares the containers of [game_state].  After a decision that drives
    employee satisfaction to 0, the caller's state shows the new
    satisfaction, two crisis events and the new memory entry. *)
Theorem process_decision_mutates_prior_state :
  exists updated resolved s',
    process_decision default_settings false 0 starting_state half_difficulty
                     mass_layoff starting_store
    = (Ok (updated, resolved), s')
    /\ stakeholder_satisfaction updated = stakeholder_satisfaction starting_state
    /\ (exists satisfactions v,
          dicts s' !! stakeholder_satisfaction starting_state
          = Some satisfactions
          /\ dict_get "employees" neutral_satisfaction = Some (Fin 50)
          /\ dict_get "employees" satisfactions = Some v
          /\ fl_eq v (Fin 0))
    /\ (exists events,
          lists s' !! ongoing_events starting_state = Some events
          /\ lists starting_store !! ongoing_events starting_state = Some []
          /\ map ev_type events = ["stakeholder_crisis"; "reputation_crisis"])
    /\ (exists memories,
          metas s' !! metadata starting_state = Some (Some memories)
          /\ metas starting_store !! metadata starting_state = Some None
          /\ dict_keys memories = ["employees"])
    /\ ~ containers_unchanged starting_state starting_store s'.
Proof.
  eexists. eexists. eexists. split; [vm_compute; reflexivity|].
  split; [reflexivity|]. split; [|split; [|split]].
  - eexists. eexists. split; [vm_compute; reflexivity|].
    repeat split; vm_compute; reflexivity.
  - eexists. split; [vm_compute; reflexivity|]. split; reflexivity.
  - eexists. split; [vm_compute; reflexivity|]. split; reflexivity.
  - intros (_ & Hlists & _). vm_compute in Hlists. discriminate Hlists.
Qed.

(** ** With a deep copy the caller's containers are out of reach

    The same rules with [copy(deep=True)]: whatever the outcome, return or
    exception, every container that the store held before the call is
    there afterwards with the contents it had. *)

Lemma triple_bind {A B} P (m : M A) (f : A -> M B) Q R E :
  triple P m Q E -> (forall a, triple (Q a) (f a) R E) ->
  triple P (bind m f) R E.
Proof.
  intros Hm Hf s HP. unfold bind. specialize (Hm s HP).
  destruct (m s) as [[a|e] s1]; [apply Hf, Hm | exact Hm].
Qed.

Lemma triple_weaken {A} (P P' : store -> Prop) (m : M A)
    (Q Q' : A -> store -> Prop) (E : store -> Prop) :
  (forall s, P' s -> P s) -> (forall a s, Q a s -> Q' a s) ->
  triple P m Q E -> triple P' m Q' E.
Proof.
  intros HP HQ Hm s Hs. specialize (Hm s (HP s Hs)).
  destruct (m s) as [[a|e] s1]; auto.
Qed.

Lemma triple_ret {A} (a : A) (P : store -> Prop) E :
  triple P (ret a) (fun _ s => P s) E.
Proof. intros s HP. exact HP. Qed.

Lemma triple_lift {A} (r : result A) (P : store -> Prop) :
  triple P (lift r) (fun _ s => P s) P.
Proof. intros s HP. unfold lift. destruct r; exact HP. Qed.

Lemma triple_read_dict l (P : store -> Prop) :
  triple P (read_dict l) (fun _ s => P s) P.
Proof. intros s HP. unfold read_dict. destruct (dicts s !! l); exact HP. Qed.

Lemma triple_read_list l (P : store -> Prop) :
  triple P (read_list l) (fun _ s => P s) P.
Proof. intros s HP. unfold read_list. destruct (lists s !! l); exact HP. Qed.

Lemma triple_read_meta l (P : store -> Prop) :
  triple P (read_meta l) (fun _ s => P s) P.
Proof. intros s HP. unfold read_meta. destruct (metas s !! l); exact HP. Qed.

Lemma triple_foldM {A B} (P : store -> Prop) (f : B -> A -> M B) l :
  (forall b x, triple P (f b x) (fun _ s => P s) P) ->
  forall b, triple P (foldM f l b) (fun _ s => P s) P.
Proof.
  intros Hf. induction l as [|x l IH]; intros b; simpl.
  - intros s HP. exact HP.
  - eapply triple_bind; [apply Hf | intros b'; apply IH].
Qed.

Lemma preserved_refl s : preserved s s.
Proof. repeat split; auto. Qed.

(** A write to a container that the old store does not hold. *)
Lemma triple_write_dict s0 l d :
  dicts s0 !! l = None ->
  triple (preserved s0) (write_dict l d) (fun _ s => preserved s0 s)
         (preserved s0).
Proof.
  intros Hl s (Hd & Hl' & Hm). simpl. repeat split; simpl; auto.
  intros l0 x H0. rewrite lookup_insert_ne; [auto | congruence].
Qed.

Lemma triple_write_list s0 l d :
  lists s0 !! l = None ->
  triple (preserved s0) (write_list l d) (fun _ s => preserved s0 s)
         (preserved s0).
Proof.
  intros Hl s (Hd & Hl' & Hm). simpl. repeat split; simpl; auto.
  intros l0 x H0. rewrite lookup_insert_ne; [auto | congruence].
Qed.

Lemma triple_write_meta s0 l d :
  metas s0 !! l = None ->
  triple (preserved s0) (write_meta l d) (fun _ s => preserved s0 s)
         (preserved s0).
Proof.
  intros Hl s (Hd & Hl' & Hm). simpl. repeat split; simpl; auto.
  intros l0 x H0. rewrite lookup_insert_ne; [auto | congruence].
Qed.

(** A fresh address holds nothing, now or before. *)
Lemma fresh_is_new {V} (before now : gmap loc V) :
  (forall l x, before !! l = Some x -> now !! l = Some x) ->
  before !! fresh (dom now) = None
  /\ (forall l x, before !! l = Some x -> fresh (dom now) <> l).
Proof.
  intros Hsub.
  assert (Hnone : now !! fresh (dom now) = None)
    by (apply not_elem_of_dom, is_fresh).
  split.
  - destruct (before !! fresh (dom now)) as [x|] eqn:E; [|reflexivity].
    apply Hsub in E. congruence.
  - intros l x Hl E. subst l. apply Hsub in Hl. congruence.
Qed.

Lemma triple_deep_copy s0 game_state :
  triple (preserved s0) (GameState_copy true game_state)
         (fun updated s => preserved s0 s /\ apart_from s0 updated)
         (preserved s0).
Proof.
  intros s HP. unfold GameState_copy, bind, read_dict, read_list, read_meta.
  destruct (dicts s !! _) as [d|]; [|exact HP].
  destruct (lists s !! _) as [e|]; [|exact HP].
  destruct (metas s !! _) as [m|]; [|exact HP].
  simpl. destruct HP as (Hd & Hl & Hm).
  destruct (fresh_is_new (dicts s0) (dicts s) Hd) as [Fd Nd].
  destruct (fresh_is_new (lists s0) (lists s) Hl) as [Fl Nl].
  destruct (fresh_is_new (metas s0) (metas s) Hm) as [Fm Nm].
  split; [|repeat split; assumption].
  repeat split; simpl; intros l x H0.
  - rewrite lookup_insert_ne; [auto | eapply Nd; eauto].
  - rewrite lookup_insert_ne; [auto | eapply Nl; eauto].
  - rewrite lookup_insert_ne; [auto | eapply Nm; eauto].
Qed.


Lemma triple_ret_intro {A} (a : A) (P : store -> Prop) Q E :
  (forall s, P s -> Q a s) -> triple P (ret a) Q E.
Proof. intros H s HP. apply H, HP. Qed.

(** A fact that does not speak of the store can be taken out of the
    precondition. *)
Lemma triple_assume {A} (fact : Prop) (P : store -> Prop) (m : M A) Q E :
  (fact -> triple P m Q E) -> triple (fun s => P s /\ fact) m Q E.
Proof. intros H s [HP Hf]. apply (H Hf), HP. Qed.

Section DeepCopy.

Variable settings : Settings.
Variable utcnow : Z.
Variable s0 : store.

Lemma triple_calculate_impact_modifier stakeholder game_state (P : store -> Prop) :
  triple P (calculate_impact_modifier stakeholder game_state)
         (fun _ s => P s) P.
Proof.
  unfold calculate_impact_modifier.
  eapply triple_bind; [apply triple_read_dict | intros sat].
  eapply triple_bind; [apply triple_lift | intros v].
  eapply triple_bind; [apply triple_lift | intros size].
  apply triple_ret.
Qed.

Lemma triple_calculate_decision_impacts decision scenario game_state
    (P : store -> Prop) :
  triple P (calculate_decision_impacts decision scenario game_state)
         (fun _ s => P s) P.
Proof.
  unfold calculate_decision_impacts.
  eapply triple_bind.
  { apply triple_foldM. intros acc item.
    eapply triple_bind; [apply triple_calculate_impact_modifier | intros m].
    apply triple_ret. }
  intros resolved.
  eapply triple_bind; [apply triple_lift | intros financial].
  apply triple_ret.
Qed.

Lemma triple_calculate_sustainability_rating game_state (P : store -> Prop) :
  triple P (calculate_sustainability_rating game_state) (fun _ s => P s) P.
Proof.
  unfold calculate_sustainability_rating.
  eapply triple_bind; [apply triple_read_dict | intros sat].
  eapply triple_bind; [apply triple_lift | intros env].
  eapply triple_bind; [apply triple_lift | intros com].
  apply triple_ret.
Qed.

Lemma triple_check_triggered_events game_state resolved (P : store -> Prop) :
  triple P (check_triggered_events settings game_state resolved)
         (fun _ s => P s) P.
Proof.
  unfold check_triggered_events.
  eapply triple_bind; [apply triple_read_dict | intros sat].
  apply triple_ret.
Qed.

Lemma triple_apply_stakeholder_impact updated resolved stakeholder :
  dicts s0 !! stakeholder_satisfaction updated = None ->
  triple (preserved s0)
         (apply_stakeholder_impact updated resolved stakeholder)
         (fun _ s => preserved s0 s) (preserved s0).
Proof.
  intros Hnew. unfold apply_stakeholder_impact.
  destruct (dict_mem stakeholder resolved).
  - eapply triple_bind; [apply triple_read_dict | intros sat].
    eapply triple_bind; [apply triple_lift | intros current].
    eapply triple_bind; [apply triple_lift | intros change].
    apply triple_write_dict, Hnew.
  - apply triple_ret.
Qed.

Lemma triple_apply_impacts game_state resolved :
  triple (preserved s0) (apply_impacts settings true game_state resolved)
         (fun updated s => preserved s0 s /\ apart_from s0 updated)
         (preserved s0).
Proof.
  unfold apply_impacts.
  eapply triple_bind; [apply triple_deep_copy | intros copied].
  apply (triple_assume (apart_from s0 copied) (preserved s0)). intros Hnew.
  eapply triple_bind.
  { apply triple_foldM. intros b x.
    apply triple_apply_stakeholder_impact. exact (proj1 Hnew). }
  intros u.
  eapply triple_bind; [apply triple_lift | intros share].
  eapply triple_bind;
    [apply triple_calculate_sustainability_rating | intros rating].
  apply triple_ret_intro. intros s HP. split; [exact HP | exact Hnew].
Qed.

Lemma triple_handle_events game_state events :
  apart_from s0 game_state ->
  triple (preserved s0) (handle_events game_state events)
         (fun g s => preserved s0 s /\ apart_from s0 g) (preserved s0).
Proof.
  intros Hnew. unfold handle_events.
  eapply triple_bind.
  { apply triple_foldM. intros b event.
    eapply triple_bind; [apply triple_read_list | intros ongoing].
    destruct (existsb (Event_eqb event) ongoing).
    - apply triple_ret.
    - apply triple_write_list. exact (proj1 (proj2 Hnew)). }
  intros u. apply triple_ret_intro. intros s HP. split; assumption.
Qed.

Lemma triple_remember_impact game_state decision resolved stakeholder :
  apart_from s0 game_state ->
  triple (preserved s0)
         (remember_impact utcnow game_state decision resolved stakeholder)
         (fun _ s => preserved s0 s) (preserved s0).
Proof.
  intros Hnew. unfold remember_impact.
  destruct (dict_mem stakeholder resolved).
  - eapply triple_bind; [apply triple_lift | intros change].
    eapply triple_bind; [apply triple_read_meta | intros meta].
    eapply triple_bind; [apply triple_lift | intros memories].
    apply triple_write_meta. exact (proj2 (proj2 Hnew)).
  - apply triple_ret.
Qed.

Lemma triple_update_stakeholder_memories game_state decision resolved :
  apart_from s0 game_state ->
  triple (preserved s0)
         (update_stakeholder_memories settings utcnow game_state decision
                                      resolved)
         (fun _ s => preserved s0 s) (preserved s0).
Proof.
  intros Hnew. unfold update_stakeholder_memories.
  eapply triple_bind.
  { apply triple_foldM. intros b x.
    apply triple_remember_impact, Hnew. }
  intros u. apply triple_ret.
Qed.

Lemma apart_from_check_level_up game_state xp :
  apart_from s0 game_state ->
  apart_from s0 (check_level_up (set_experience_points xp game_state)).
Proof.
  unfold check_level_up. intros H.
  destruct (_ <=? _)%Z; exact H.
Qed.

Lemma triple_process_decision game_state scenario decision :
  triple (preserved s0)
         (process_decision settings true utcnow game_state scenario decision)
         (fun _ s => preserved s0 s) (preserved s0).
Proof.
  unfold process_decision.
  eapply triple_bind;
    [apply triple_calculate_decision_impacts | intros immediate_impacts].
  eapply triple_bind; [apply triple_apply_impacts | intros updated].
  apply (triple_assume (apart_from s0 updated) (preserved s0)). intros Hnew.
  eapply triple_bind; [apply triple_check_triggered_events | intros events].
  eapply triple_bind.
  { instantiate (1 := fun g s => preserved s0 s /\ apart_from s0 g).
    destruct events.
    - apply triple_ret_intro. intros s HP. split; assumption.
    - apply triple_handle_events, Hnew. }
  intros handled.
  apply (triple_assume (apart_from s0 handled) (preserved s0)). intros Hnew'.
  eapply triple_bind; [apply triple_lift | intros xp_gained].
  eapply triple_bind.
  { apply triple_update_stakeholder_memories.
    apply apart_from_check_level_up, Hnew'. }
  intros remembered. apply triple_ret.
Qed.

End DeepCopy.

(** Had [_apply_impacts] asked for [copy(deep=True)]: for every state,
    scenario and decision, and whether the call returns or raises, the
    store after the call holds every container it held before, unchanged. *)
Lemma process_decision_with_deep_copy_preserves_store
    settings utcnow game_state scenario decision s :
  preserved s (snd (process_decision settings true utcnow game_state
                                     scenario decision s)).
Proof.
  pose proof (triple_process_decision settings utcnow s game_state scenario
                decision s (preserved_refl s)) as H.
  destruct (process_decision _ _ _ _ _ _ s) as [[r|e] s']; exact H.
Qed.

(** In particular the containers of the caller's state. *)
Lemma process_decision_with_deep_copy_keeps_prior_state
    settings utcnow game_state scenario decision s :
  is_Some (dicts s !! stakeholder_satisfaction game_state) ->
  is_Some (lists s !! ongoing_events game_state) ->
  is_Some (metas s !! metadata game_state) ->
  containers_unchanged game_state s
    (snd (process_decision settings true utcnow game_state scenario
                           decision s)).
Proof.
  intros [d Hd] [e He] [m Hm].
  destruct (process_decision_with_deep_copy_preserves_store
              settings utcnow game_state scenario decision s)
    as (Pd & Pl & Pm).
  unfold containers_unchanged.
  rewrite Hd, He, Hm. auto.
Qed.

End GameLogicFacts.

(** * Properties of the pattern analyzer *)

Module PatternAnalyzerFacts.
Import PatternAnalyzer PatternAnalyzerSamples.

Section Facts.

Variable min_decisions : Z.
Variable np_std : list fl -> fl.
Variable np_polyfit_slope : list fl -> list fl -> result fl.
Variable calculate_skill_score : Decision -> list string -> result fl.


Lemma rbind_raise {A B} (m : result A) (f : A -> result B) :
  is_raise m -> is_raise (rbind m f).
Proof. destruct m; simpl; tauto. Qed.

Lemma rbind_ok_raise {A B} (m : result A) (f : A -> result B) :
  (forall a, is_raise (f a)) -> is_raise (rbind m f).
Proof. intros H. destruct m; simpl; auto. Qed.

Lemma try_except_total {A} (body : result A) (a : A) :
  exists r, try_except body (fun _ => Ok a) = Ok r.
Proof. destruct body; simpl; eauto. Qed.

Lemma try_except_raise {A} (body : result A) (a : A) :
  is_raise body -> try_except body (fun _ => Ok a) = Ok a.
Proof. destruct body; simpl; tauto. Qed.

(** Below the threshold the decisions are not looked at. *)
Lemma analyze_patterns_below_threshold decisions current_level :
  (Z.of_nat (length decisions) < min_decisions)%Z ->
  analyze_patterns min_decisions np_std np_polyfit_slope calculate_skill_score
                   decisions current_level
  = Ok generate_initial_pattern.
Proof.
  intros H. unfold analyze_patterns.
  destruct (Z.ltb_spec (Z.of_nat (length decisions)) min_decisions); [reflexivity | lia].
Qed.

(** A field that raises makes the whole [try] block raise, whichever
    fields come before it. *)
Lemma compute_pattern_raises decisions :
  is_raise (calculate_confidence np_std decisions)
  \/ is_raise (identify_avoided_topics decisions)
  \/ is_raise (assess_skill_levels calculate_skill_score decisions)
  \/ is_raise (calculate_learning_rate np_polyfit_slope decisions)
  \/ is_raise (analyze_decision_speed decisions)
  \/ is_raise (calculate_consistency decisions) ->
  is_raise (compute_pattern np_std np_polyfit_slope calculate_skill_score
                            decisions).
Proof.
  unfold compute_pattern.
  intros H.
  destruct (calculate_confidence np_std decisions); simpl; [|exact I].
  destruct (identify_avoided_topics decisions); simpl; [|exact I].
  destruct (assess_skill_levels calculate_skill_score decisions); simpl; [|exact I].
  destruct (calculate_learning_rate np_polyfit_slope decisions); simpl; [|exact I].
  destruct (analyze_decision_speed decisions); simpl; [|exact I].
  destruct (calculate_consistency decisions); simpl; [|exact I].
  simpl in H. tauto.
Qed.

(** C7. [analyze_patterns] returns a profile for every decision history and
    never an exception; at or above the sample threshold, as soon as the
    computation of one field raises, the profile returned is the cold-start
    default. *)
Theorem analyze_patterns_fail_soft decisions current_level :
  (exists pattern,
     analyze_patterns min_decisions np_std np_polyfit_slope
                      calculate_skill_score decisions current_level
     = Ok pattern)
  /\ ((min_decisions <= Z.of_nat (length decisions))%Z ->
      is_raise (calculate_confidence np_std decisions)
      \/ is_raise (identify_avoided_topics decisions)
      \/ is_raise (assess_skill_levels calculate_skill_score decisions)
      \/ is_raise (calculate_learning_rate np_polyfit_slope decisions)
      \/ is_raise (analyze_decision_speed decisions)
      \/ is_raise (calculate_consistency decisions) ->
      analyze_patterns min_decisions np_std np_polyfit_slope
                       calculate_skill_score decisions current_level
      = Ok generate_initial_pattern).
Proof.
  unfold analyze_patterns. split.
  - destruct (Z.of_nat (length decisions) <? min_decisions)%Z.
    + eauto.
    + apply try_except_total.
  - intros Hlen Hraise.
    destruct (Z.ltb_spec (Z.of_nat (length decisions)) min_decisions); [reflexivity|].
    apply try_except_raise, compute_pattern_raises, Hraise.
Qed.

(** C10. The [current_level] argument has no influence on the result. *)
Theorem analyze_patterns_ignores_current_level decisions (level1 level2 : Z) :
  analyze_patterns min_decisions np_std np_polyfit_slope calculate_skill_score
                   decisions level1
  = analyze_patterns min_decisions np_std np_polyfit_slope
                     calculate_skill_score decisions level2.
Proof. reflexivity. Qed.

End Facts.

(** C7, on a history of five decisions taken in zero seconds: the speed
    ratio divides by zero and the default profile comes back. *)
Lemma analyze_patterns_fail_soft_on_instant_decisions :
  analyze_patterns 5 sample_std sample_slope sample_skill_score five_instant 1
  = Ok generate_initial_pattern.
Proof.
  apply (proj2 (analyze_patterns_fail_soft 5 sample_std sample_slope
                  sample_skill_score five_instant 1)).
  - vm_compute. discriminate.
  - right. right. right. right. left. exact I.
Defined.

(** C6, on the code.  Below the threshold the profile returned is the
    fixed one of [_generate_initial_pattern], whatever the decisions hold;
    its fields are those of the cold-start contract except that
    [stakeholder_preferences] has four entries: there is none for
    ['customers']. *)
Theorem cold_start_profile_has_no_customers_entry
    min_decisions np_std np_polyfit_slope calculate_skill_score
    decisions current_level :
  (Z.of_nat (length decisions) < min_decisions)%Z ->
  exists pattern,
    analyze_patterns min_decisions np_std np_polyfit_slope
                     calculate_skill_score decisions current_level
    = Ok pattern
    /\ fl_eq (bias_score pattern) (bias_score cold_start_as_specified)
    /\ fl_eq (confidence pattern) (confidence cold_start_as_specified)
    /\ avoided_topics pattern = avoided_topics cold_start_as_specified
    /\ skill_levels pattern = skill_levels cold_start_as_specified
    /\ fl_eq (learning_rate pattern) (learning_rate cold_start_as_specified)
    /\ fl_eq (decision_speed pattern) (decision_speed cold_start_as_specified)
    /\ fl_eq (consistency_score pattern) (consistency_score cold_start_as_specified)
    /\ dict_keys (stakeholder_preferences pattern)
       = ["employees"; "community"; "investors"; "environment"]
    /\ dict_get "customers" (stakeholder_preferences pattern) = None
    /\ dict_get "customers" (stakeholder_preferences cold_start_as_specified)
       = Some (Fin 0.5).
Proof.
  intros Hlen. exists generate_initial_pattern. split.
  - apply analyze_patterns_below_threshold, Hlen.
  - repeat split; reflexivity.
Qed.

(** C6, on the empty history with the default threshold of 5. *)
Lemma cold_start_profile_on_empty_history :
  exists pattern,
    analyze_patterns 5 sample_std sample_slope missing_skill_score [] 1
    = Ok pattern
    /\ dict_get "customers" (stakeholder_preferences pattern) = None.
Proof.
  destruct (cold_start_profile_has_no_customers_entry
              5 sample_std sample_slope missing_skill_score [] 1)
    as (p & Hp & H); [vm_compute; reflexivity|].
  exists p. split; [exact Hp|]. apply H.
Defined.

(** The class as it stands calls [_calculate_skill_score] without defining
    it.  The attribute lookup raises on the first decision, and on an empty
    history the confidence divides by a length of zero: every call of
    [analyze_patterns] returns the cold-start profile. *)
Lemma analyze_patterns_as_written
    min_decisions np_std np_polyfit_slope decisions current_level :
  analyze_patterns min_decisions np_std np_polyfit_slope missing_skill_score
                   decisions current_level
  = Ok generate_initial_pattern.
Proof.
  unfold analyze_patterns.
  destruct (Z.of_nat (length decisions) <? min_decisions)%Z; [reflexivity|].
  apply try_except_raise, compute_pattern_raises.
  destruct decisions as [|d ds].
  - left. exact I.
  - right. right. left. exact I.
Qed.

(** The accumulation loop of [_calculate_bias_score], entry by entry. *)
Lemma bias_accumulation decisions : forall a b c,
  fold_left
    (fun biases decision =>
       dict_add_to "financial" (financial_component decision)
         (dict_add_to "short_term" (short_term_component decision) biases))
    decisions
    [("short_term", a); ("financial", b); ("stakeholder", c)]
  = [("short_term", fold_left fl_add (map short_term_component decisions) a);
     ("financial", fold_left fl_add (map financial_component decisions) b);
     ("stakeholder", c)].
Proof.
  induction decisions as [|d ds IH]; intros a b c; [reflexivity|].
  simpl fold_left at 1. simpl map. simpl fold_left at 2 3.
  rewrite <- IH. reflexivity.
Qed.

(** What [_calculate_bias_score] computes.  The bias score is the mean of
    three totals: the sum over the decisions of (immediate - long_term)/100,
    the sum over the decisions of (financial - mean impact on the affected
    stakeholders)/100, and a third entry that stays 0.  The components are
    summed, not averaged, over the decisions, and the divisor is 3. *)
Theorem calculate_bias_score_formula decisions :
  calculate_bias_score decisions
  = np_mean [py_sum (map short_term_component decisions);
             py_sum (map financial_component decisions);
             Fin 0].
Proof.
  unfold calculate_bias_score, py_sum.
  change (fold_left _ decisions _) with
    (fold_left
       (fun biases decision =>
          dict_add_to "financial" (financial_component decision)
            (dict_add_to "short_term" (short_term_component decision) biases))
       decisions
       [("short_term", Fin 0); ("financial", Fin 0); ("stakeholder", Fin 0)]).
  rewrite bias_accumulation. reflexivity.
Qed.

(** The code does not compute the average of the two averaged
    components: on five decisions with +100 immediate impact and no other
    the two values differ. *)
Lemma bias_score_is_not_the_specified_average :
  ~ (forall decisions,
       (5 <= Z.of_nat (length decisions))%Z ->
       fl_eq (calculate_bias_score decisions)
             (bias_score_as_specified decisions)).
Proof.
  intros H.
  assert (Hlen : (5 <= Z.of_nat (length five_short_sighted))%Z)
    by (vm_compute; discriminate).
  specialize (H five_short_sighted Hlen).
  vm_compute in H. discriminate H.
Qed.

(** C8.  On five decisions with an immediate impact of +100 and no
    other, [_calculate_bias_score] returns 5/3: each decision adds 1 to the
    short-term total, nothing divides by the number of decisions, and the
    mean runs over three entries, one of which is never written.  The
    value is outside the range from -1 to 1 that [LearningPattern]
    documents for the bias score; the two averaged components of the
    claim give 1/2. *)
Theorem bias_score_of_five_short_sighted_decisions :
  exists q,
    calculate_bias_score five_short_sighted = Fin q
    /\ (q == 5 # 3)%Q
    /\ (1 < q)%Q
    /\ fl_eq (bias_score_as_specified five_short_sighted) (Fin (1 # 2)).
Proof.
  eexists. split; [vm_compute; reflexivity|].
  split; [reflexivity|]. split; reflexivity.
Qed.

End PatternAnalyzerFacts.

(** * Laws of the game logic *)

Module GameLogicLaws.
Import GameLogic ScenarioEndpoints GameLogicSamples GameLogicNotions.
Import GameLogicFacts.

(** ** Dictionaries *)

Lemma dict_get_set_eq {A} k (v : A) d : dict_get k (dict_set k v d) = Some v.
Proof.
  induction d as [|[k' v'] d IH]; simpl.
  - rewrite String.eqb_refl. reflexivity.
  - destruct (String.eqb k k') eqn:E; simpl; rewrite E; [reflexivity | exact IH].
Qed.

Lemma dict_get_set_ne {A} k k' (v : A) d :
  k <> k' -> dict_get k (dict_set k' v d) = dict_get k d.
Proof.
  intros Hne. induction d as [|[k0 v0] d IH]; simpl.
  - destruct (String.eqb k k') eqn:E; [|reflexivity].
    apply String.eqb_eq in E. contradiction.
  - destruct (String.eqb k' k0) eqn:E0; simpl.
    + apply String.eqb_eq in E0. subst k0.
      destruct (String.eqb k k') eqn:E; [|reflexivity].
      apply String.eqb_eq in E. contradiction.
    + destruct (String.eqb k k0); [reflexivity | exact IH].
Qed.

Lemma dict_mem_true {A} k (d : dict A) :
  dict_mem k d = true <-> exists v, dict_get k d = Some v.
Proof.
  unfold dict_mem. destruct (dict_get k d) as [v|].
  - split; [intros _; eauto | reflexivity].
  - split; [discriminate | intros [v H]; discriminate].
Qed.

Lemma dict_get_In_keys {A} k (d : dict A) v :
  dict_get k d = Some v -> In k (dict_keys d).
Proof.
  induction d as [|[k' v'] d IH]; simpl; [discriminate|].
  destruct (String.eqb k k') eqn:E.
  - apply String.eqb_eq in E. auto.
  - auto.
Qed.

Lemma dict_get_None_keys {A} k (d : dict A) :
  dict_get k d = None <-> ~ In k (dict_keys d).
Proof.
  induction d as [|[k' v'] d IH]; simpl; [tauto|].
  destruct (String.eqb k k') eqn:E.
  - apply String.eqb_eq in E. split; [discriminate | intros H; exfalso; auto].
  - apply String.eqb_neq in E. rewrite IH. split.
    + intros H [H1|H1]; [congruence | contradiction].
    + tauto.
Qed.

Lemma dict_get_In {A} k (v : A) d : dict_get k d = Some v -> In (k, v) d.
Proof.
  induction d as [|[k' v'] d IH]; simpl; [discriminate|].
  destruct (String.eqb k k') eqn:E.
  - apply String.eqb_eq in E. intros H. inversion H. subst. auto.
  - auto.
Qed.

Lemma In_dict_get {A} k (v : A) d :
  List.NoDup (dict_keys d) -> In (k, v) d -> dict_get k d = Some v.
Proof.
  induction d as [|[k' v'] d IH]; simpl; [intros _ []|].
  intros Hnd Hin. inversion Hnd as [|? ? Hk' Hd]; subst.
  destruct Hin as [E|Hin].
  - inversion E; subst. rewrite String.eqb_refl. reflexivity.
  - destruct (String.eqb k k') eqn:E; [|auto].
    apply String.eqb_eq in E. subst k'. exfalso. apply Hk'.
    apply (in_map fst) in Hin. exact Hin.
Qed.

Lemma dict_keys_set_In {A} k k' (v : A) d :
  In k' (dict_keys (dict_set k v d)) <-> k' = k \/ In k' (dict_keys d).
Proof.
  induction d as [|[k0 v0] d IH]; simpl.
  - split; [intros [H|[]]; auto | intros [H|[]]; auto].
  - destruct (String.eqb k k0) eqn:E; simpl.
    + apply String.eqb_eq in E. subst k0. split; [auto|].
      intros [H|H]; auto.
    + rewrite IH. tauto.
Qed.

Lemma dict_keys_set_NoDup {A} k (v : A) d :
  List.NoDup (dict_keys d) -> List.NoDup (dict_keys (dict_set k v d)).
Proof.
  induction d as [|[k0 v0] d IH]; simpl; intros Hnd.
  - constructor; [intros [] | constructor].
  - inversion Hnd as [|? ? Hk0 Hd]; subst.
    destruct (String.eqb k k0) eqn:E; simpl.
    + constructor; assumption.
    + apply String.eqb_neq in E. constructor; [|auto].
      intros Hin. apply dict_keys_set_In in Hin as [Hin|Hin]; auto.
Qed.

(** ** Numbers *)

Lemma fl_of_Z_is_zero z : fl_is_zero (fl_of_Z z) = (z =? 0)%Z.
Proof.
  unfold fl_is_zero, fl_of_Z.
  destruct (Z.eqb_spec z 0) as [->|Hz]; [reflexivity|].
  destruct (Qeq_bool (inject_Z z) 0) eqn:E; [|reflexivity].
  apply Qeq_bool_iff in E. unfold Qeq in E. simpl in E. lia.
Qed.

Lemma py_truediv_result a b :
  match py_truediv a b with
  | Ok v => fl_is_zero b = false /\ v = np_div a b
  | Raise e => e = ZeroDivisionError /\ fl_is_zero b = true
  end.
Proof. unfold py_truediv. destruct (fl_is_zero b); auto. Qed.

(** ** Events *)

Lemma option_string_eqb_eq a b : option_string_eqb a b = true <-> a = b.
Proof.
  destruct a, b; simpl; try (split; congruence).
  rewrite String.eqb_eq. split; congruence.
Qed.

Lemma Event_eqb_eq a b : Event_eqb a b = true <-> a = b.
Proof.
  unfold Event_eqb. rewrite !andb_true_iff, !String.eqb_eq, option_string_eqb_eq.
  destruct a, b; simpl. split.
  - intros [[[-> ->] ->] ->]. reflexivity.
  - intros H. inversion H. auto.
Qed.

Lemma existsb_Event_eqb e l : existsb (Event_eqb e) l = true <-> In e l.
Proof.
  rewrite existsb_exists. split.
  - intros (x & Hx & E). apply Event_eqb_eq in E. subst. exact Hx.
  - intros H. exists e. split; [exact H | apply Event_eqb_eq; reflexivity].
Qed.

Lemma bind_ok_eq {A B} (m : M A) (f : A -> M B) s a s1 :
  m s = (Ok a, s1) -> bind m f s = f a s1.
Proof. unfold bind. intros ->. reflexivity. Qed.

Lemma bind_raise_eq {A B} (m : M A) (f : A -> M B) s e s1 :
  m s = (Raise e, s1) -> bind m f s = (Raise e, s1).
Proof. unfold bind. intros ->. reflexivity. Qed.

Lemma read_dict_eq l s d :
  dicts s !! l = Some d -> read_dict l s = (Ok d, s).
Proof.
  intros H. unfold read_dict.
  match goal with
  | |- context [match ?x with _ => _ end] =>
      replace x with (Some d) by (symmetry; exact H)
  end.
  reflexivity.
Qed.

Lemma read_dict_missing l s :
  dicts s !! l = None -> read_dict l s = (Raise DanglingReference, s).
Proof.
  intros H. unfold read_dict.
  match goal with
  | |- context [match ?x with _ => _ end] =>
      replace x with (@None (dict fl)) by (symmetry; exact H)
  end.
  reflexivity.
Qed.

Lemma read_list_eq l s d :
  lists s !! l = Some d -> read_list l s = (Ok d, s).
Proof.
  intros H. unfold read_list.
  match goal with
  | |- context [match ?x with _ => _ end] =>
      replace x with (Some d) by (symmetry; exact H)
  end.
  reflexivity.
Qed.

Lemma read_meta_eq l s d :
  metas s !! l = Some d -> read_meta l s = (Ok d, s).
Proof.
  intros H. unfold read_meta.
  match goal with
  | |- context [match ?x with _ => _ end] =>
      replace x with (Some d) by (symmetry; exact H)
  end.
  reflexivity.
Qed.

Lemma foldM_cons_ok {A B} (f : B -> A -> M B) x l b s b' s1 :
  f b x s = (Ok b', s1) -> foldM f (x :: l) b s = foldM f l b' s1.
Proof. simpl. apply bind_ok_eq. Qed.

Lemma foldM_cons_raise {A B} (f : B -> A -> M B) x l b s e s1 :
  f b x s = (Raise e, s1) -> foldM f (x :: l) b s = (Raise e, s1).
Proof. simpl. apply bind_raise_eq. Qed.

(** [_handle_events] only appends.  With the event list in the store, it
    returns the state it was given; the list afterwards is the old list
    followed by events of the batch, every event of the batch is in it, and
    no event that was already there or that comes twice in the batch is
    added a second time.  The satisfaction dicts and the metadata are not
    touched. *)
Theorem handle_events_appends game_state events s ongoing :
  lists s !! ongoing_events game_state = Some ongoing ->
  exists added s',
    handle_events game_state events s = (Ok game_state, s')
    /\ lists s' !! ongoing_events game_state = Some (ongoing ++ added)%list
    /\ (forall e, In e added -> In e events /\ ~ In e ongoing)
    /\ (forall e, In e events -> In e (ongoing ++ added)%list)
    /\ NoDup added
    /\ dicts s' = dicts s /\ metas s' = metas s.
Proof.
  unfold handle_events. intros Hl.
  enough (exists added s',
             foldM (fun (_ : unit) event =>
                      let* ongoing := read_list (ongoing_events game_state) in
                      if existsb (Event_eqb event) ongoing then ret tt
                      else write_list (ongoing_events game_state)
                                      (ongoing ++ [event])%list)
                   events tt s = (Ok tt, s')
             /\ lists s' !! ongoing_events game_state = Some (ongoing ++ added)%list
             /\ (forall e, In e added -> In e events /\ ~ In e ongoing)
             /\ (forall e, In e events -> In e (ongoing ++ added)%list)
             /\ NoDup added
             /\ dicts s' = dicts s /\ metas s' = metas s) as (added & s' & Hrun & H).
  { exists added, s'. split; [|exact H].
    erewrite bind_ok_eq; [|exact Hrun]. reflexivity. }
  revert s ongoing Hl.
  induction events as [|e events IH]; intros s ongoing Hl.
  - exists [], s. simpl. rewrite app_nil_r.
    repeat split; auto; try tauto. constructor.
  - destruct (existsb (Event_eqb e) ongoing) eqn:Ein.
    + rewrite (foldM_cons_ok _ e events tt s tt s)
        by (unfold bind, read_list; rewrite Hl, Ein; reflexivity).
      apply existsb_Event_eqb in Ein.
      destruct (IH s ongoing Hl)
        as (added & s' & Hrun & Hl' & Hadd & Hall & Hnd & Hd & Hm).
      exists added, s'.
      split; [exact Hrun|]. split; [exact Hl'|].
      split.
      { intros x Hx. destruct (Hadd x Hx) as [H1 H2].
        split; [right; exact H1 | exact H2]. }
      split; [|auto].
      intros x [<-|Hx]; [apply in_or_app; auto | auto].
    + assert (Hnot : ~ In e ongoing).
      { intros H. apply existsb_Event_eqb in H. congruence. }
      set (s1 := {| dicts := dicts s;
                    lists := <[ongoing_events game_state
                               := (ongoing ++ [e])%list]> (lists s);
                    metas := metas s |}).
      rewrite (foldM_cons_ok _ e events tt s tt s1)
        by (unfold bind, read_list; rewrite Hl, Ein; reflexivity).
      destruct (IH s1 (ongoing ++ [e])%list) as
        (added & s' & Hrun & Hl' & Hadd & Hall & Hnd & Hd & Hm).
      { simpl. apply lookup_insert_eq. }
      exists (e :: added), s'.
      split; [exact Hrun|].
      split; [rewrite Hl', <- app_assoc; reflexivity|].
      split.
      { intros x [<-|Hx]; [split; [left; reflexivity | exact Hnot]|].
        destruct (Hadd x Hx) as [H1 H2]. split; [right; exact H1|].
        intros H. apply H2, in_or_app. left. exact H. }
      split.
      { intros x Hx. change (ongoing ++ e :: added)%list
          with (ongoing ++ [e] ++ added)%list. rewrite app_assoc.
        destruct Hx as [<-|Hx]; [|auto].
        apply in_or_app. left. apply in_or_app. right. left. reflexivity. }
      split; [|auto].
      constructor; [|exact Hnd].
      intros H. apply list_elem_of_In in H.
      destruct (Hadd e H) as [_ H2]. apply H2, in_or_app.
      right. left. reflexivity.
Qed.

Lemma handle_events_on_two_crises :
  exists added s',
    handle_events starting_state
      [{| ev_type := "financial_crisis"; ev_stakeholder := None;
          ev_severity := "high";
          ev_description := "Critical financial situation" |};
       {| ev_type := "financial_crisis"; ev_stakeholder := None;
          ev_severity := "high";
          ev_description := "Critical financial situation" |}]
      starting_store
    = (Ok starting_state, s')
    /\ lists s' !! ongoing_events starting_state = Some ([] ++ added)%list
    /\ length added = 1%nat.
Proof.
  destruct (handle_events_appends starting_state
              [{| ev_type := "financial_crisis"; ev_stakeholder := None;
                  ev_severity := "high";
                  ev_description := "Critical financial situation" |};
               {| ev_type := "financial_crisis"; ev_stakeholder := None;
                  ev_severity := "high";
                  ev_description := "Critical financial situation" |}]
              starting_store [] eq_refl)
    as (added & s' & Hrun & Hl & _).
  exists added, s'. split; [exact Hrun|]. split; [exact Hl|].
  vm_compute in Hrun. inversion Hrun. subst s'.
  vm_compute in Hl. inversion Hl. reflexivity.
Defined.

(** ** Crisis detection *)

(** [_check_triggered_events] reads the state and changes nothing.  Its
    result holds a stakeholder crisis for exactly the stakeholders whose
    satisfaction is below 30, a financial crisis exactly when the resources
    are below a fifth of the starting capital, and a reputation crisis
    exactly when the reputation is below 30; the impacts it is given play
    no part. *)
Theorem check_triggered_events_exact settings game_state resolved s sat :
  dicts s !! stakeholder_satisfaction game_state = Some sat ->
  exists events,
    check_triggered_events settings game_state resolved s = (Ok events, s)
    /\ (forall k,
          (exists e, In e events /\ ev_type e = "stakeholder_crisis"
                     /\ ev_stakeholder e = Some k)
          <-> (exists v, In (k, v) sat /\ fl_ltb v (Fin 30) = true))
    /\ ((exists e, In e events /\ ev_type e = "financial_crisis")
        <-> fl_ltb (financial_resources game_state)
                   (fl_mul (fl_of_Z (STARTING_CAPITAL settings)) (Fin 0.2))
            = true)
    /\ ((exists e, In e events /\ ev_type e = "reputation_crisis")
        <-> fl_ltb (reputation game_state) (Fin 30) = true).
Proof.
  intros Hsat. unfold check_triggered_events.
  rewrite (bind_ok_eq _ _ s sat s) by (apply read_dict_eq, Hsat).
  unfold ret. eexists. split; [reflexivity|].
  split; [|split].
  - intros k. split.
    + intros (e & Hin & Hty & Hst).
      apply in_app_or in Hin as [Hin|Hin].
      * apply in_flat_map in Hin as ([k' v] & Hkv & He). simpl in He.
        destruct (fl_ltb v (Fin 30)) eqn:Ev; [|contradiction].
        destruct He as [<-|[]]. simpl in Hst. inversion Hst. subst k'.
        exists v. auto.
      * apply in_app_or in Hin as [Hin|Hin].
        -- destruct (fl_ltb (financial_resources game_state) _);
             [|contradiction].
           destruct Hin as [<-|[]]. discriminate Hty.
        -- destruct (fl_ltb (reputation game_state) _); [|contradiction].
           destruct Hin as [<-|[]]. discriminate Hty.
    + intros (v & Hkv & Hv). eexists. split.
      * apply in_or_app. left. apply in_flat_map. exists (k, v).
        split; [exact Hkv|]. simpl. rewrite Hv. left. reflexivity.
      * split; reflexivity.
  - split.
    + intros (e & Hin & Hty).
      apply in_app_or in Hin as [Hin|Hin].
      * apply in_flat_map in Hin as ([k' v] & Hkv & He). simpl in He.
        destruct (fl_ltb v (Fin 30)); [|contradiction].
        destruct He as [<-|[]]. discriminate Hty.
      * apply in_app_or in Hin as [Hin|Hin].
        -- destruct (fl_ltb (financial_resources game_state) _);
             [reflexivity | contradiction].
        -- destruct (fl_ltb (reputation game_state) _); [|contradiction].
           destruct Hin as [<-|[]]. discriminate Hty.
    + intros H. rewrite H. eexists. split.
      * apply in_or_app. right. apply in_or_app. left. left. reflexivity.
      * reflexivity.
  - split.
    + intros (e & Hin & Hty).
      apply in_app_or in Hin as [Hin|Hin].
      * apply in_flat_map in Hin as ([k' v] & Hkv & He). simpl in He.
        destruct (fl_ltb v (Fin 30)); [|contradiction].
        destruct He as [<-|[]]. discriminate Hty.
      * apply in_app_or in Hin as [Hin|Hin].
        -- destruct (fl_ltb (financial_resources game_state) _);
             [|contradiction].
           destruct Hin as [<-|[]]. discriminate Hty.
        -- destruct (fl_ltb (reputation game_state) _);
             [reflexivity | contradiction].
    + intros H. rewrite H. eexists. split.
      * apply in_or_app. right. apply in_or_app. right. left. reflexivity.
      * reflexivity.
Qed.

Lemma no_crisis_on_the_starting_state :
  exists events,
    check_triggered_events default_settings starting_state [] starting_store
    = (Ok events, starting_store)
    /\ events = [].
Proof.
  destruct (check_triggered_events_exact default_settings starting_state []
              starting_store neutral_satisfaction eq_refl)
    as (events & Hrun & _).
  exists events. split; [exact Hrun|].
  vm_compute in Hrun. inversion Hrun. reflexivity.
Defined.

(** ** Resolving the impacts *)

Lemma size_modifiers_known size :
  match dict_get size size_modifiers with
  | Some m => In size ["small"; "medium"; "large"]
              /\ (m = Fin 1.2 \/ m = Fin 1.0 \/ m = Fin 0.8)
  | None => ~ In size ["small"; "medium"; "large"]
  end.
Proof.
  unfold size_modifiers. simpl.
  destruct (String.eqb size "small") eqn:E1;
    [apply String.eqb_eq in E1; subst; simpl; auto|].
  destruct (String.eqb size "medium") eqn:E2;
    [apply String.eqb_eq in E2; subst; simpl; auto|].
  destruct (String.eqb size "large") eqn:E3;
    [apply String.eqb_eq in E3; subst; simpl; auto 6|].
  apply String.eqb_neq in E1, E2, E3.
  intros [H|[H|[H|[]]]]; congruence.
Qed.

(** What [_calculate_impact_modifier] does, case by case. *)
Lemma calculate_impact_modifier_cases stakeholder game_state s sat :
  dicts s !! stakeholder_satisfaction game_state = Some sat ->
  calculate_impact_modifier stakeholder game_state s
  = (match dict_get stakeholder sat with
     | None => Raise (KeyError stakeholder)
     | Some satisfaction =>
         match dict_get (company_size game_state) size_modifiers with
         | None => Raise (KeyError (company_size game_state))
         | Some size_modifier =>
             Ok (fl_mul
                   (if fl_ltb satisfaction (Fin 30)
                    then fl_mul (Fin 1.0) (Fin 1.2)
                    else if fl_ltb (Fin 70) satisfaction
                         then fl_mul (Fin 1.0) (Fin 0.8)
                         else Fin 1.0)
                   size_modifier)
         end
     end, s).
Proof.
  intros Hsat. unfold calculate_impact_modifier.
  rewrite (bind_ok_eq _ _ s sat s) by (apply read_dict_eq, Hsat).
  unfold dict_index, lift, bind, ret.
  destruct (dict_get stakeholder sat) as [v|]; [|reflexivity].
  destruct (dict_get (company_size game_state) size_modifiers);
    reflexivity.
Qed.

(** [_calculate_impact_modifier] never writes.  It returns a modifier
    between 0.64 and 1.44, whatever the satisfaction value, when the
    stakeholder has a satisfaction entry and the company size is one of
    small, medium, large; otherwise it raises [KeyError], for the
    stakeholder first. *)
Theorem calculate_impact_modifier_range stakeholder game_state s sat :
  dicts s !! stakeholder_satisfaction game_state = Some sat ->
  exists r,
    calculate_impact_modifier stakeholder game_state s = (r, s)
    /\ match r with
       | Ok modifier =>
           In stakeholder (dict_keys sat)
           /\ In (company_size game_state) ["small"; "medium"; "large"]
           /\ within 0.64 1.44 modifier
       | Raise e =>
           (~ In stakeholder (dict_keys sat) /\ e = KeyError stakeholder)
           \/ (In stakeholder (dict_keys sat)
               /\ ~ In (company_size game_state) ["small"; "medium"; "large"]
               /\ e = KeyError (company_size game_state))
       end.
Proof.
  intros Hsat. eexists. split.
  { apply (calculate_impact_modifier_cases _ _ _ _ Hsat). }
  destruct (dict_get stakeholder sat) as [v|] eqn:Ev.
  - apply dict_get_In_keys in Ev.
    pose proof (size_modifiers_known (company_size game_state)) as Hsize.
    destruct (dict_get (company_size game_state) size_modifiers) as [m|].
    + destruct Hsize as [Hin Hm]. split; [exact Ev|]. split; [exact Hin|].
      destruct (fl_ltb v (Fin 30)); [|destruct (fl_ltb (Fin 70) v)];
        destruct Hm as [ -> | [ -> | -> ] ]; simpl;
        eexists; (split; [reflexivity | split; discriminate]).
    + right. auto.
  - left. split; [apply dict_get_None_keys, Ev | reflexivity].
Qed.

Lemma modifier_for_the_employees_of_a_new_company :
  exists r,
    calculate_impact_modifier "employees" starting_state starting_store
    = (r, starting_store)
    /\ r = Ok (Fin (1.0 * 1.2)).
Proof.
  destruct (calculate_impact_modifier_range "employees" starting_state
              starting_store neutral_satisfaction eq_refl) as (r & Hr & _).
  exists r. split; [exact Hr|].
  vm_compute in Hr. inversion Hr. reflexivity.
Defined.

(** A decision whose impacts name a key without a satisfaction entry in
    the state, ['financial'] for one, is never processed: the call ends in
    a [KeyError] before anything is written. *)
Theorem decision_with_unknown_key_raises
    settings copy_deep utcnow game_state scenario decision s sat k :
  dicts s !! stakeholder_satisfaction game_state = Some sat ->
  In k (dict_keys (impacts decision)) ->
  ~ In k (dict_keys sat) ->
  exists key,
    process_decision settings copy_deep utcnow game_state scenario decision s
    = (Raise (KeyError key), s).
Proof.
  intros Hsat Hk Hnot. unfold process_decision.
  enough (exists key,
             calculate_decision_impacts decision scenario game_state s
             = (Raise (KeyError key), s)) as [key Hkey].
  { exists key. apply bind_raise_eq, Hkey. }
  unfold calculate_decision_impacts.
  enough (forall items acc, In k (dict_keys items) ->
            exists key,
              foldM (fun (resolved : dict fl) (item : string * fl) =>
                       let stakeholder := fst item in
                       let base_impact :=
                         fl_mul (snd item) (difficulty_level scenario) in
                       let* modifier :=
                         calculate_impact_modifier stakeholder game_state in
                       ret (dict_set stakeholder (fl_mul base_impact modifier)
                                     resolved))
                    items acc s
              = (Raise (KeyError key), s)) as Hloop.
  { destruct (Hloop (impacts decision) [] Hk) as [key Hkey].
    exists key. apply bind_raise_eq, Hkey. }
  induction items as [|[k0 v0] items IH]; intros acc Hin; [destruct Hin|].
  pose proof (calculate_impact_modifier_cases k0 game_state s sat Hsat) as Hm.
  destruct (dict_get k0 sat) as [v|] eqn:Ev.
  - destruct (dict_get (company_size game_state) size_modifiers) as [m|].
    + destruct Hin as [Heq|Hin].
      { simpl in Heq. subst k0. apply dict_get_In_keys in Ev. contradiction. }
      erewrite foldM_cons_ok.
      * apply IH, Hin.
      * cbv beta zeta. erewrite bind_ok_eq; [|exact Hm]. reflexivity.
    + eexists. apply foldM_cons_raise. cbv beta zeta.
      apply bind_raise_eq. exact Hm.
  - eexists. apply foldM_cons_raise. cbv beta zeta.
    apply bind_raise_eq. exact Hm.
Qed.

Lemma decision_with_a_financial_impact_raises :
  exists key,
    process_decision default_settings false 0 starting_state half_difficulty
                     raise_wages starting_store
    = (Raise (KeyError key), starting_store).
Proof.
  apply (decision_with_unknown_key_raises default_settings false 0
           starting_state half_difficulty raise_wages starting_store
           neutral_satisfaction "financial" eq_refl).
  - simpl. auto.
  - simpl. intros [E|[E|[E|[E|[E|[]]]]]]; discriminate E.
Defined.

(** An impact on a key that is not one of the five weighted stakeholders,
    the financial impact included, does not feed the reputation impact. *)
Lemma calculate_reputation_impact_other_key decision resolved k v :
  ~ In k (dict_keys reputation_weights) ->
  calculate_reputation_impact decision (dict_set k v resolved)
  = calculate_reputation_impact decision resolved.
Proof.
  intros Hk. unfold calculate_reputation_impact, dict_get_default.
  simpl in Hk. simpl map.
  rewrite !dict_get_set_ne; [reflexivity | | | | |];
    intros E; apply Hk; subst k; auto 6.
Qed.



(** ** Experience and levels *)

Lemma Qtrunc_floor (q : Q) : (0 <= q)%Q -> Qtrunc q = Qfloor q.
Proof.
  intros H. unfold Qtrunc. apply Qle_bool_iff in H. rewrite H. reflexivity.
Qed.

Lemma Qfloor_plus_le (x y : Q) (k : Z) :
  (x + inject_Z k <= y)%Q -> (Qfloor x + k <= Qfloor y)%Z.
Proof.
  intros H. rewrite <- (Qfloor_Z (Qfloor x + k)).
  apply Qfloor_resp_le. rewrite inject_Z_plus.
  pose proof (Qfloor_le x). lra.
Qed.

(** The requirement of level 1734 is the last one within the doubles:
    from level 1735 on the product in [_calculate_xp_needed] is beyond the
    largest double and the source's [int] raises [OverflowError]. *)
Lemma last_requirement_within_the_doubles :
  Qle_bool (LEVEL_XP_REQUIREMENT * Qpower 1.5 (1734 - 1)) DBL_MAX = true
  /\ Qle_bool (LEVEL_XP_REQUIREMENT * Qpower 1.5 (1735 - 1)) DBL_MAX = false.
Proof. split; vm_compute; reflexivity. Qed.

(** The requirement grows with the level: from level 1, where it is 1000,
    each level asks for at least 500 points more than the one before.
    The statement is for the levels whose requirement, and that of the
    next level, is within the doubles: levels 1 to 1733. *)
Theorem calculate_xp_needed_grows (level : Z) :
  (1 <= level <= 1733)%Z ->
  (1000 <= calculate_xp_needed level)%Z
  /\ (calculate_xp_needed level + 500 <= calculate_xp_needed (level + 1))%Z.
Proof.
  intros [Hl _]. unfold calculate_xp_needed, LEVEL_XP_REQUIREMENT.
  assert (Hp : (1 <= Qpower 1.5 (level - 1))%Q)
    by (apply Qpower_1_le; [lra | lia]).
  replace (level + 1 - 1)%Z with ((level - 1) + 1)%Z by lia.
  assert (Hs : (Qpower 1.5 (level - 1 + 1) == Qpower 1.5 (level - 1) * 1.5)%Q).
  { rewrite Qpower_plus; [|intros E; discriminate E]. reflexivity. }
  set (P := Qpower 1.5 (level - 1)) in *.
  set (P' := Qpower 1.5 (level - 1 + 1)) in *.
  rewrite !Qtrunc_floor by lra.
  split.
  - apply (Qfloor_resp_le 1000 (1000 * P)). lra.
  - apply Qfloor_plus_le. change (inject_Z 500) with 500%Q. lra.
Qed.

Lemma xp_needed_for_the_first_levels :
  (1000 <= calculate_xp_needed 1)%Z
  /\ (calculate_xp_needed 1 + 500 <= calculate_xp_needed 2)%Z.
Proof. apply calculate_xp_needed_grows. lia. Defined.

(** A decision whose experience points can be computed earns the base
    of 100 points at least when the difficulty is not negative: the
    impact and balance bonuses only count gains. *)
Theorem calculate_experience_points_at_least_base
    settings decision resolved difficulty xp :
  fl_leb (Fin 0) difficulty = true ->
  calculate_experience_points settings decision resolved difficulty = Ok xp ->
  (100 <= xp)%Z.
Proof.
  intros Hd H. unfold calculate_experience_points in H.
  unfold py_truediv in H.
  destruct (fl_is_zero _) eqn:Hz in H; [discriminate|].
  simpl rbind in H. simpl in Hz. unfold fl_of_Z in H. simpl np_div in H.
  rewrite Hz in H.
  set (count := inject_Z (Z.of_nat (length (filter _ (dict_values resolved))))) in *.
  set (types := inject_Z (Z.of_nat (length (STAKEHOLDER_TYPES settings)))) in *.
  assert (Hratio : (0 <= count / types)%Q).
  { apply Qmult_le_0_compat.
    - unfold count. change 0%Q with (inject_Z 0). rewrite <- Zle_Qle. lia.
    - apply Qinv_le_0_compat. unfold types.
      change 0%Q with (inject_Z 0). rewrite <- Zle_Qle. lia. }
  generalize dependent (count / types)%Q. intros ratio H Hratio.
  pose proof (fun t => sum_of_positive_terms (dict_values resolved) (Fin 0) t
                         (or_intror (ex_intro _ 0%Q (conj eq_refl (Qle_refl 0)))))
    as Hsum.
  fold (py_sum (filter (fun v => fl_ltb (Fin 0) v = true) (dict_values resolved)))
    in Hsum.
  destruct (py_sum _) as [total| | |] in H, Hsum;
    destruct (fl_leb_0_nonnegative _ Hd) as [->|(d & -> & Hdq)];
    simpl in H; try discriminate.
  inversion H. subst xp.
  specialize (Hsum total eq_refl).
  rewrite Qtrunc_floor by lra.
  match goal with
  | |- (_ <= Qfloor ?q)%Z => apply (Qfloor_resp_le 100 q)
  end.
  lra.
Qed.

Lemma experience_for_an_easy_decision :
  exists xp,
    calculate_experience_points default_settings unknown_approach
      [("employees", Fin 12)] (Fin 0.5) = Ok xp
    /\ (100 <= xp)%Z.
Proof.
  destruct (calculate_experience_points default_settings unknown_approach
              [("employees", Fin 12)] (Fin 0.5)) as [xp|e] eqn:E;
    [|vm_compute in E; discriminate E].
  exists xp. split; [reflexivity|].
  apply (calculate_experience_points_at_least_base default_settings
           unknown_approach [("employees", Fin 12)] (Fin 0.5) xp);
    [reflexivity|exact E].
Defined.

(** ** The sustainability rating *)

Lemma calculate_sustainability_rating_value game_state s sat e c :
  dicts s !! stakeholder_satisfaction game_state = Some sat ->
  dict_get "environment" sat = Some e ->
  dict_get "community" sat = Some c ->
  calculate_sustainability_rating game_state s
  = (Ok (let overall_score :=
           fl_add (fl_mul e (Fin 0.6)) (fl_mul c (Fin 0.4)) in
         if fl_leb (Fin 90) overall_score then "A+"
         else if fl_leb (Fin 80) overall_score then "A"
         else if fl_leb (Fin 70) overall_score then "B+"
         else if fl_leb (Fin 60) overall_score then "B"
         else if fl_leb (Fin 50) overall_score then "C+"
         else if fl_leb (Fin 40) overall_score then "C"
         else "D"), s).
Proof.
  intros Hsat He Hc. unfold calculate_sustainability_rating.
  rewrite (bind_ok_eq _ _ s sat s) by (apply read_dict_eq, Hsat).
  unfold dict_index, lift, bind. rewrite He, Hc. reflexivity.
Qed.

Ltac order_facts :=
  repeat match goal with
         | H : Qle_bool _ _ = true |- _ => apply Qle_bool_iff in H
         | H : Qle_bool ?a ?b = false |- _ =>
             assert (~ (a <= b)%Q)
               by (let G := fresh in
                   intro G; apply Qle_bool_iff in G; congruence);
             clear H
         end.

(** A higher satisfaction of the environment or of the community never
    gives a lower rating. *)
Theorem calculate_sustainability_rating_monotone
    game_state s sat (e c : Q) game_state' s' sat' (e' c' : Q) :
  dicts s !! stakeholder_satisfaction game_state = Some sat ->
  dict_get "environment" sat = Some (Fin e) ->
  dict_get "community" sat = Some (Fin c) ->
  dicts s' !! stakeholder_satisfaction game_state' = Some sat' ->
  dict_get "environment" sat' = Some (Fin e') ->
  dict_get "community" sat' = Some (Fin c') ->
  (e <= e')%Q -> (c <= c')%Q ->
  exists rating rating',
    calculate_sustainability_rating game_state s = (Ok rating, s)
    /\ calculate_sustainability_rating game_state' s' = (Ok rating', s')
    /\ rating_rank rating <= rating_rank rating'.
Proof.
  intros Hs He Hc Hs' He' Hc' Hle Hlc.
  eexists. eexists.
  split; [apply (calculate_sustainability_rating_value _ _ _ _ _ Hs He Hc)|].
  split; [apply (calculate_sustainability_rating_value _ _ _ _ _ Hs' He' Hc')|].
  cbv zeta. unfold fl_mul, fl_add, fl_leb.
  set (x := (e * 0.6 + c * 0.4)%Q).
  set (x' := (e' * 0.6 + c' * 0.4)%Q).
  assert (Hx : (x <= x')%Q) by (unfold x, x'; lra).
  clearbody x x'.
  destruct (Qle_bool 90 x') eqn:A6; [|destruct (Qle_bool 80 x') eqn:A5;
    [|destruct (Qle_bool 70 x') eqn:A4; [|destruct (Qle_bool 60 x') eqn:A3;
    [|destruct (Qle_bool 50 x') eqn:A2; [|destruct (Qle_bool 40 x') eqn:A1]]]]];
  (destruct (Qle_bool 90 x) eqn:B6; [|destruct (Qle_bool 80 x) eqn:B5;
    [|destruct (Qle_bool 70 x) eqn:B4; [|destruct (Qle_bool 60 x) eqn:B3;
    [|destruct (Qle_bool 50 x) eqn:B2; [|destruct (Qle_bool 40 x) eqn:B1]]]]]);
  first [ cbn; lia | exfalso; order_facts; lra ].
Qed.

Lemma rating_after_an_environmental_gain :
  exists rating rating',
    calculate_sustainability_rating starting_state starting_store
    = (Ok rating, starting_store)
    /\ calculate_sustainability_rating starting_state
         {| dicts := {[ 1%positive :=
                         [("community", Fin 50); ("environment", Fin 95)] ]};
            lists := lists starting_store;
            metas := metas starting_store |}
       = (Ok rating',
          {| dicts := {[ 1%positive :=
                          [("community", Fin 50); ("environment", Fin 95)] ]};
             lists := lists starting_store;
             metas := metas starting_store |})
    /\ rating_rank rating <= rating_rank rating'.
Proof.
  apply (calculate_sustainability_rating_monotone
           starting_state starting_store neutral_satisfaction 50 50
           starting_state _ [("community", Fin 50); ("environment", Fin 95)]
           95 50); try reflexivity; discriminate.
Defined.

(** ** Applying the impacts *)

Section Applying.

Variable settings : Settings.
Variable copy_deep : bool.
Variable utcnow : Z.

Lemma apply_impacts_scalars game_state resolved updated s s' :
  apply_impacts settings copy_deep game_state resolved s = (Ok updated, s') ->
  financial_resources updated
  = fl_add (financial_resources game_state)
           (dict_get_default "financial" (Fin 0) resolved)
  /\ reputation updated
     = fl_add (reputation game_state)
              (dict_get_default "reputation" (Fin 0) resolved)
  /\ company_size updated = company_size game_state.
Proof.
  unfold apply_impacts. intros H.
  step H as copied Hcopy. apply GameState_copy_ok in Hcopy as [Hsc _].
  destruct Hsc as (Hsize & Hfr & Hrep & _).
  step H as u Hloop. step H as share Hshare. finish Hshare.
  step H as rating Hrating. finish H. simpl.
  rewrite Hfr, Hrep, Hsize. auto.
Qed.

(** The steps of a call of [process_decision] that has returned. *)
Lemma process_decision_steps
    game_state scenario decision updated resolved s s' :
  process_decision settings copy_deep utcnow game_state scenario decision s
  = (Ok (updated, resolved), s') ->
  exists applied s1 xp,
    calculate_decision_impacts decision scenario game_state s
    = (Ok resolved, s)
    /\ apply_impacts settings copy_deep game_state resolved s
       = (Ok applied, s1)
    /\ calculate_experience_points settings decision resolved
                                   (difficulty_level scenario) = Ok xp
    /\ updated
       = check_level_up
           (set_experience_points (experience_points applied + xp)%Z applied).
Proof.
  intros H. unfold process_decision in H.
  step H as imp Himpacts.
  pose proof (calculate_decision_impacts_store _ _ _ _ _ _ Himpacts). subst.
  step H as u1 Happly. step H as events Hevents.
  step H as u2 Hhandle. step H as xp Hgain. finish Hgain.
  step H as u3 Hmem.
  apply (update_stakeholder_memories_same_state settings utcnow) in Hmem
    as [-> _].
  assert (u2 = u1) as ->.
  { destruct events; [finish Hhandle; reflexivity|].
    apply handle_events_same_state in Hhandle as [-> _]. reflexivity. }
  apply ret_ok in H as [H _]. inversion H; subst.
  eauto 10.
Qed.

Lemma check_level_up_scalars game_state :
  financial_resources (check_level_up game_state)
  = financial_resources game_state
  /\ reputation (check_level_up game_state) = reputation game_state
  /\ company_size (check_level_up game_state) = company_size game_state.
Proof.
  unfold check_level_up. destruct (_ <=? _)%Z; simpl; auto.
Qed.

(** The impacts that [process_decision] returns are the ones it has
    applied: the new resources are the old ones plus the returned
    ['financial'] entry, the new reputation the old one plus the returned
    ['reputation'] entry, the experience grows by the points computed from
    the returned impacts, and the company size stays. *)
Theorem process_decision_applies_returned_impacts
    game_state scenario decision updated resolved s s' :
  process_decision settings copy_deep utcnow game_state scenario decision s
  = (Ok (updated, resolved), s') ->
  financial_resources updated
  = fl_add (financial_resources game_state)
           (dict_get_default "financial" (Fin 0) resolved)
  /\ reputation updated
     = fl_add (reputation game_state)
              (dict_get_default "reputation" (Fin 0) resolved)
  /\ company_size updated = company_size game_state
  /\ exists xp,
       calculate_experience_points settings decision resolved
                                   (difficulty_level scenario) = Ok xp
       /\ experience_points updated
          = (experience_points game_state + xp)%Z.
Proof.
  intros H.
  apply process_decision_steps in H
    as (applied & s1 & xp & _ & Happly & Hxp & ->).
  pose proof (apply_impacts_scalars _ _ _ _ _ Happly) as (Hfr & Hrep & Hsize).
  pose proof (apply_impacts_ok settings copy_deep _ _ _ _ _ Happly)
    as (_ & Hxp0 & _).
  match goal with
  | |- context [check_level_up ?g] =>
      destruct (check_level_up_scalars g) as (-> & -> & ->);
      destruct (check_level_up_ok g) as (-> & _)
  end.
  simpl. rewrite Hfr, Hrep, Hsize, Hxp0.
  split; [reflexivity|]. split; [reflexivity|]. split; [reflexivity|].
  exists xp. split; [exact Hxp | reflexivity].
Qed.

(** A call that returns never leaves the resources at exactly zero: the
    market share divides by the resources after the financial impact, and
    a sum of zero ends the call in [ZeroDivisionError]. *)
Theorem process_decision_never_returns_zero_resources
    game_state scenario decision updated resolved s s' :
  process_decision settings copy_deep utcnow game_state scenario decision s
  = (Ok (updated, resolved), s') ->
  fl_is_zero (financial_resources updated) = false.
Proof.
  intros H.
  apply process_decision_steps in H
    as (applied & s1 & xp & _ & Happly & Hxp & ->).
  pose proof (apply_impacts_scalars _ _ _ _ _ Happly) as (Hfr & _).
  pose proof (apply_impacts_market_share settings copy_deep _ _ _ _ _ Happly)
    as Hshare.
  match goal with
  | |- context [check_level_up ?g] =>
      destruct (check_level_up_scalars g) as (-> & _)
  end.
  simpl. rewrite Hfr.
  destruct (fl_is_zero _) eqn:Hz; [|reflexivity].
  rewrite calculate_new_market_share_zero in Hshare by exact Hz.
  discriminate Hshare.
Qed.

End Applying.

Lemma resources_after_the_first_decision :
  exists updated resolved s',
    process_decision default_settings false 0 starting_state half_difficulty
                     unknown_approach starting_store
    = (Ok (updated, resolved), s')
    /\ fl_is_zero (financial_resources updated) = false.
Proof.
  eexists. eexists. eexists. split; [vm_compute; reflexivity|].
  eapply (process_decision_never_returns_zero_resources default_settings false
            0 starting_state half_difficulty unknown_approach _ _
            starting_store).
  vm_compute. reflexivity.
Defined.

Lemma applied_impacts_of_the_first_decision :
  exists updated resolved s',
    process_decision default_settings false 0 starting_state half_difficulty
                     unknown_approach starting_store
    = (Ok (updated, resolved), s')
    /\ reputation updated
       = fl_add (reputation starting_state)
                (dict_get_default "reputation" (Fin 0) resolved).
Proof.
  eexists. eexists. eexists. split; [vm_compute; reflexivity|].
  eapply (process_decision_applies_returned_impacts default_settings false 0
            starting_state half_difficulty unknown_approach _ _
            starting_store).
  vm_compute. reflexivity.
Defined.

(** ** The satisfaction loop *)

Lemma satisfaction_loop updated resolved types :
  NoDup types ->
  forall s sat u s',
    dicts s !! stakeholder_satisfaction updated = Some sat ->
    foldM (fun (_ : unit) stakeholder =>
             apply_stakeholder_impact updated resolved stakeholder)
          types tt s = (Ok u, s') ->
    exists sat',
      dicts s' !! stakeholder_satisfaction updated = Some sat'
      /\ satisfaction_after types resolved sat sat'.
Proof.
  induction types as [|x types IH]; intros Hnd s sat u s' Hsat H.
  - simpl in H. finish H. exists sat. split; [exact Hsat|].
    intros k. split; [intros []|reflexivity].
  - apply NoDup_cons in Hnd as [Hx Hnd].
    assert (Hx' : ~ In x types) by (intros Hin; apply Hx, list_elem_of_In, Hin).
    simpl in H. step H as v Hround. destruct v.
    unfold apply_stakeholder_impact in Hround.
    destruct (dict_mem x resolved) eqn:Hmem.
    + step Hround as cur Hr. finish Hr.
      step Hround as current Hc. finish Hc.
      step Hround as change Hch. finish Hch.
      unfold write_dict in Hround. inversion Hround; subst; clear Hround.
      assert (cur = sat) as ->.
      { match goal with
        | Hr : _ = Some cur |- _ =>
            pose proof (eq_trans (eq_sym Hr) Hsat) as E; inversion E;
            reflexivity
        end. }
      unfold dict_index in *.
      destruct (dict_get x sat) as [old|] eqn:Eold; [|discriminate].
      destruct (dict_get x resolved) as [c|] eqn:Ec; [|discriminate].
      match goal with Hq : Ok old = Ok current |- _ => inversion Hq; subst end.
      match goal with Hq : Ok c = Ok change |- _ => inversion Hq; subst end.
      edestruct (IH Hnd) as (sat' & Hsat' & Hafter);
        [| exact H |]; [simpl; apply lookup_insert_eq|].
      exists sat'. split; [exact Hsat'|].
      intros k. destruct (Hafter k) as [Hin Hout]. split.
      * intros [<-|Hk] change' old' Hc' Ho'.
        -- rewrite Hout by (left; exact Hx').
           rewrite dict_get_set_eq. unfold clamp. congruence.
        -- assert (k <> x) by (intros ->; contradiction).
           apply Hin; [exact Hk | exact Hc' |].
           rewrite dict_get_set_ne by assumption. exact Ho'.
      * intros Hk.
        assert (k <> x).
        { intros ->. destruct Hk as [Hk|Hk]; [apply Hk; left; reflexivity|].
          congruence. }
        rewrite Hout.
        -- apply dict_get_set_ne. assumption.
        -- destruct Hk as [Hk|Hk]; [left; intros Hin'; apply Hk; right; exact Hin' | right; exact Hk].
    + finish Hround.
      destruct (IH Hnd s sat u s' Hsat H) as (sat' & Hsat' & Hafter).
      exists sat'. split; [exact Hsat'|].
      assert (Hnone : dict_get x resolved = None).
      { unfold dict_mem in Hmem. destruct (dict_get x resolved); congruence. }
      intros k. destruct (Hafter k) as [Hin Hout]. split.
      * intros [<-|Hk] change old Hc Ho; [congruence|]. eapply Hin; eauto.
      * intros Hk. apply Hout.
        destruct Hk as [Hk|Hk]; [|right; exact Hk].
        left. intros Hin'. apply Hk. right. exact Hin'.
Qed.

(** [_apply_impacts] on the satisfaction dict, with stakeholder types that
    are pairwise distinct: a stakeholder of the settings with an entry in
    the impacts goes to [max(0, min(100, old + impact))]; every other
    entry, a stakeholder without impact or a key that is no stakeholder
    type, keeps its value. *)
Theorem apply_impacts_satisfaction
    settings copy_deep game_state resolved updated s s' sat :
  NoDup (STAKEHOLDER_TYPES settings) ->
  dicts s !! stakeholder_satisfaction game_state = Some sat ->
  apply_impacts settings copy_deep game_state resolved s = (Ok updated, s') ->
  exists sat',
    dicts s' !! stakeholder_satisfaction updated = Some sat'
    /\ satisfaction_after (STAKEHOLDER_TYPES settings) resolved sat sat'.
Proof.
  intros Hnd Hsat H. unfold apply_impacts in H.
  step H as copied Hcopy.
  apply (GameState_copy_ok copy_deep) in Hcopy as [_ Hd].
  step H as u Hloop. step H as share Hshare. finish Hshare.
  step H as rating Hrating.
  apply calculate_sustainability_rating_store in Hrating. subst. finish H.
  simpl.
  eapply (satisfaction_loop
            (set_reputation _ (set_financial_resources _ copied)));
    [exact Hnd | | exact Hloop].
  simpl. exact (eq_trans Hd Hsat).
Qed.

Lemma default_stakeholder_types_distinct :
  NoDup (STAKEHOLDER_TYPES default_settings).
Proof.
  repeat (apply NoDup_cons; split;
          [rewrite list_elem_of_In; simpl; intuition discriminate|]).
  apply NoDup_nil. exact I.
Qed.

Lemma satisfaction_after_a_wage_rise :
  exists updated s' sat',
    apply_impacts default_settings false starting_state
      [("employees", Fin 12); ("financial", Fin 0); ("reputation", Fin 5.4)]
      starting_store
    = (Ok updated, s')
    /\ dicts s' !! stakeholder_satisfaction updated = Some sat'
    /\ satisfaction_after (STAKEHOLDER_TYPES default_settings)
         [("employees", Fin 12); ("financial", Fin 0); ("reputation", Fin 5.4)]
         neutral_satisfaction sat'.
Proof.
  destruct (apply_impacts default_settings false starting_state
              [("employees", Fin 12); ("financial", Fin 0);
               ("reputation", Fin 5.4)] starting_store)
    as [[updated|e] s'] eqn:E; [|vm_compute in E; discriminate E].
  destruct (apply_impacts_satisfaction default_settings false starting_state
              _ updated starting_store s' neutral_satisfaction
              default_stakeholder_types_distinct eq_refl E)
    as (sat' & Hsat' & Hafter).
  exists updated, s', sat'. auto.
Defined.

(** ** Stakeholder memories *)

Lemma new_memory_is_recent utcnow decision resolved k :
  recent utcnow (new_memory utcnow decision resolved k).
Proof.
  unfold recent, new_memory, days_between, STAKEHOLDER_MEMORY_DURATION.
  simpl. rewrite Z.sub_diag. reflexivity.
Qed.

Lemma remember_impact_round utcnow game_state decision resolved x s s1 :
  remember_impact utcnow game_state decision resolved x s = (Ok tt, s1) ->
  (dict_mem x resolved = true ->
   remembered utcnow decision resolved s1 (metadata game_state) x)
  /\ (forall k, k <> x ->
        memories_of s1 (metadata game_state) k
        = memories_of s (metadata game_state) k)
  /\ (dict_mem x resolved = false -> s1 = s).
Proof.
  unfold remember_impact. intros H.
  destruct (dict_mem x resolved) eqn:Hmem.
  - step H as change Hc. finish Hc. step H as meta Hm. finish Hm.
    step H as memories Hi. finish Hi.
    unfold write_meta in H. inversion H; subst; clear H.
    assert (Hchange : dict_get_default x (Fin 0) resolved = change).
    { unfold dict_get_default, dict_index in *.
      destruct (dict_get x resolved); congruence. }
    split; [|split; [|discriminate]].
    + intros _. unfold remembered, memories_of. simpl.
      rewrite lookup_insert_eq. rewrite dict_get_set_eq.
      eexists. split; [reflexivity|]. split.
      * subst change. rewrite filter_app.
        rewrite (filter_cons_True _ _ [])
          by apply (new_memory_is_recent utcnow decision resolved x).
        rewrite filter_nil. apply last_snoc.
      * apply Forall_forall. intros m Hin.
        apply list_elem_of_filter in Hin as [Hr _]. exact Hr.
    + intros k Hk. unfold memories_of. simpl. rewrite lookup_insert_eq.
      etransitivity; [apply dict_get_set_ne, Hk|].
      match goal with
      | Hr : metas s !! metadata game_state = Some meta |- _ =>
          replace (metas s !! metadata game_state) with (Some meta)
            by (symmetry; exact Hr)
      end.
      clear - Hk. destruct meta as [d|].
      * destruct (dict_mem x d); [reflexivity|].
        apply dict_get_set_ne, Hk.
      * apply (dict_get_set_ne k x (@nil Memory) [] Hk).
  - finish H. split; [discriminate|]. split; reflexivity.
Qed.

(** [_update_stakeholder_memories] returns the state it was given.  For
    every stakeholder of the settings with an entry in the impacts, the
    memory list ends with the memory of this decision and holds only
    memories less than five days old; the memories of every other
    stakeholder are as they were. *)
Theorem update_stakeholder_memories_remembers
    settings utcnow game_state decision resolved updated s s' :
  update_stakeholder_memories settings utcnow game_state decision resolved s
  = (Ok updated, s') ->
  updated = game_state
  /\ (forall k, In k (STAKEHOLDER_TYPES settings) ->
                dict_mem k resolved = true ->
                remembered utcnow decision resolved s' (metadata game_state) k)
  /\ (forall k, ~ In k (STAKEHOLDER_TYPES settings)
                \/ dict_mem k resolved = false ->
                memories_of s' (metadata game_state) k
                = memories_of s (metadata game_state) k).
Proof.
  unfold update_stakeholder_memories. intros H.
  step H as u Hloop. finish H. split; [reflexivity|].
  revert s u Hloop. generalize (STAKEHOLDER_TYPES settings) as types.
  induction types as [|x types IH]; intros s u H; simpl in H.
  - finish H. split; [intros k []|reflexivity].
  - step H as v Hround. destruct v.
    apply remember_impact_round in Hround as (Hnew & Hother & Hsame).
    destruct (IH _ _ H) as [Hin Hout]. split.
    + intros k Hk Hmem.
      destruct (in_dec String.string_dec k types) as [Hkt|Hkt]; [auto|].
      destruct Hk as [<-|Hk]; [|contradiction].
      destruct (Hnew Hmem) as (ms & Hms & Hlast & Hall).
      exists ms. split; [|auto].
      rewrite Hout by (left; exact Hkt). exact Hms.
    + intros k Hk. rewrite Hout.
      * destruct (String.string_dec k x) as [->|Hne]; [|apply Hother, Hne].
        destruct Hk as [Hk|Hk]; [exfalso; apply Hk; left; reflexivity|].
        rewrite (Hsame Hk). reflexivity.
      * destruct Hk as [Hk|Hk]; [|right; exact Hk].
        left. intros Hin'. apply Hk. right. exact Hin'.
Qed.

Lemma memory_of_the_first_decision :
  exists updated s',
    update_stakeholder_memories default_settings 0 starting_state
      unknown_approach [("employees", Fin 12)] starting_store
    = (Ok updated, s')
    /\ remembered 0 unknown_approach [("employees", Fin 12)] s'
         (metadata starting_state) "employees".
Proof.
  destruct (update_stakeholder_memories default_settings 0 starting_state
              unknown_approach [("employees", Fin 12)] starting_store)
    as [[updated|e] s'] eqn:E; [|vm_compute in E; discriminate E].
  exists updated, s'. split; [reflexivity|].
  apply (update_stakeholder_memories_remembers _ _ _ _ _ _ _ _ E).
  - simpl. auto.
  - reflexivity.
Defined.

(** ** The exceptions of the rules and the answers of the endpoint *)

Lemma raises_only_ret {A} S (a : A) : raises_only S (ret a).
Proof. intros s e s' H. discriminate H. Qed.

Lemma raises_only_bind {A B} S (m : M A) (f : A -> M B) :
  raises_only S m -> (forall a, raises_only S (f a)) ->
  raises_only S (bind m f).
Proof.
  intros Hm Hf s e s' H. unfold bind in H.
  destruct (m s) as [[a|e0] s1] eqn:E.
  - apply (Hf a s1 e s' H).
  - inversion H; subst. apply (Hm s e s' E).
Qed.

Lemma raises_only_lift {A} (S : exn -> Prop) (r : result A) :
  (forall e, r = Raise e -> S e) -> raises_only S (lift r).
Proof. intros Hr s e s' H. inversion H. auto. Qed.

Lemma raises_only_foldM {A B} S (f : B -> A -> M B) l :
  (forall b x, raises_only S (f b x)) ->
  forall b, raises_only S (foldM f l b).
Proof.
  intros Hf. induction l as [|x l IH]; intros b; simpl.
  - apply raises_only_ret.
  - apply raises_only_bind; [apply Hf | intros b'; apply IH].
Qed.

Lemma raises_only_read_dict l : raises_only not_http (read_dict l).
Proof.
  intros s e s' H. unfold read_dict in H.
  destruct (dicts s !! l); inversion H. exact I.
Qed.

Lemma raises_only_read_list l : raises_only not_http (read_list l).
Proof.
  intros s e s' H. unfold read_list in H.
  destruct (lists s !! l); inversion H. exact I.
Qed.

Lemma raises_only_read_meta l : raises_only not_http (read_meta l).
Proof.
  intros s e s' H. unfold read_meta in H.
  destruct (metas s !! l); inversion H. exact I.
Qed.

Lemma dict_index_not_http {A} k (d : dict A) e :
  dict_index k d = Raise e -> not_http e.
Proof.
  unfold dict_index. destruct (dict_get k d); intros H; inversion H. exact I.
Qed.

Lemma py_truediv_not_http a b e : py_truediv a b = Raise e -> not_http e.
Proof.
  unfold py_truediv. destruct (fl_is_zero b); intros H; inversion H. exact I.
Qed.

Lemma py_int_not_http a e : py_int a = Raise e -> not_http e.
Proof. destruct a; intros H; inversion H; exact I. Qed.

Lemma rbind_not_http {A B} (m : result A) (f : A -> result B) e :
  (forall e, m = Raise e -> not_http e) ->
  (forall a e, f a = Raise e -> not_http e) ->
  rbind m f = Raise e -> not_http e.
Proof.
  intros Hm Hf H. destruct m as [a|e0]; simpl in H.
  - apply (Hf a e H).
  - inversion H; subst. apply Hm. reflexivity.
Qed.

Ltac raises_only_step :=
  first
    [ apply raises_only_ret
    | apply raises_only_read_dict
    | apply raises_only_read_list
    | apply raises_only_read_meta
    | apply raises_only_lift; intros ? ?;
      first [ eapply dict_index_not_http; eassumption
            | eapply py_truediv_not_http; eassumption
            | eapply py_int_not_http; eassumption ]
    | apply raises_only_bind; [|intros ?]
    | intros ? ? ? ?; discriminate ].

Lemma calculate_impact_modifier_raises stakeholder game_state :
  raises_only not_http (calculate_impact_modifier stakeholder game_state).
Proof. unfold calculate_impact_modifier. repeat raises_only_step. Qed.

Lemma calculate_decision_impacts_raises decision scenario game_state :
  raises_only not_http
    (calculate_decision_impacts decision scenario game_state).
Proof.
  unfold calculate_decision_impacts.
  apply raises_only_bind.
  { apply raises_only_foldM. intros b x.
    apply raises_only_bind; [apply calculate_impact_modifier_raises|].
    intros m. apply raises_only_ret. }
  intros resolved. apply raises_only_bind; [|intros f; apply raises_only_ret].
  apply raises_only_lift. intros e. unfold calculate_financial_impact.
  apply rbind_not_http.
  - intros e0. apply dict_index_not_http.
  - intros a e0 H. discriminate H.
Qed.

Lemma GameState_copy_raises deep game_state :
  raises_only not_http (GameState_copy deep game_state).
Proof.
  unfold GameState_copy. destruct deep; [|apply raises_only_ret].
  repeat raises_only_step.
Qed.

Lemma apply_impacts_raises settings copy_deep game_state resolved :
  raises_only not_http (apply_impacts settings copy_deep game_state resolved).
Proof.
  unfold apply_impacts.
  apply raises_only_bind; [apply GameState_copy_raises | intros copied].
  apply raises_only_bind.
  { apply raises_only_foldM. intros b x. unfold apply_stakeholder_impact.
    destruct (dict_mem x resolved); repeat raises_only_step. }
  intros u. apply raises_only_bind.
  { apply raises_only_lift. intros e. unfold calculate_new_market_share.
    apply rbind_not_http.
    - intros e0. apply py_truediv_not_http.
    - intros a e0 H. discriminate H. }
  intros share. unfold calculate_sustainability_rating.
  repeat raises_only_step.
Qed.

Lemma process_decision_raises
    settings copy_deep utcnow game_state scenario decision :
  raises_only not_http
    (process_decision settings copy_deep utcnow game_state scenario decision).
Proof.
  unfold process_decision.
  apply raises_only_bind; [apply calculate_decision_impacts_raises|].
  intros resolved.
  apply raises_only_bind; [apply apply_impacts_raises | intros updated].
  apply raises_only_bind.
  { unfold check_triggered_events. repeat raises_only_step. }
  intros events. apply raises_only_bind.
  { destruct events; [apply raises_only_ret|]. unfold handle_events.
    apply raises_only_bind; [|intros u; apply raises_only_ret].
    apply raises_only_foldM. intros b event.
    apply raises_only_bind; [apply raises_only_read_list | intros ongoing].
    destruct (existsb _ ongoing); repeat raises_only_step. }
  intros handled. apply raises_only_bind.
  { apply raises_only_lift. intros e. unfold calculate_experience_points.
    apply rbind_not_http.
    - intros e0. apply py_truediv_not_http.
    - intros a e0. apply py_int_not_http. }
  intros xp. apply raises_only_bind; [|intros u; apply raises_only_ret].
  unfold update_stakeholder_memories.
  apply raises_only_bind; [|intros u; apply raises_only_ret].
  apply raises_only_foldM. intros b x. unfold remember_impact.
  destruct (dict_mem x resolved); repeat raises_only_step.
Qed.

(** Once the scenario and the game state are found and the decision has
    passed the validation, whatever [process_decision] raises is answered
    with status 500 by [submit_decision]: none of the exceptions of the
    rules is an [HTTPException], the only kind that would pass through
    with a status of its own. *)
Theorem failed_processing_is_answered_500
    settings copy_deep utcnow game_state scenario decision s e s' :
  validate_decision utcnow decision scenario = true ->
  process_decision settings copy_deep utcnow game_state scenario decision s
  = (Raise e, s') ->
  submit_decision settings copy_deep utcnow game_state scenario decision s
  = (Raise (HTTPException 500), s').
Proof.
  intros Hvalid Hraise. unfold submit_decision. rewrite Hvalid. simpl.
  pose proof (process_decision_raises _ _ _ _ _ _ _ _ _ Hraise) as He.
  rewrite Hraise. destruct e; try contradiction; reflexivity.
Qed.

Lemma wage_rise_is_answered_500 :
  submit_decision default_settings false 0 starting_state half_difficulty
                  raise_wages starting_store
  = (Raise (HTTPException 500), starting_store).
Proof.
  apply (failed_processing_is_answered_500 default_settings false 0
           starting_state half_difficulty raise_wages starting_store
           (KeyError "financial") starting_store).
  - reflexivity.
  - vm_compute. reflexivity.
Defined.

(** A decision that [_validate_decision] accepts at some time is accepted
    at every earlier time: only the time limit depends on the clock, and
    it only ever rejects later submissions. *)
Theorem validate_decision_deadline utcnow utcnow' decision scenario :
  (utcnow <= utcnow')%Z ->
  validate_decision utcnow' decision scenario = true ->
  validate_decision utcnow decision scenario = true.
Proof.
  unfold validate_decision. intros Hle H.
  destruct (negb (existsb _ (possible_approaches scenario)));
    [discriminate|].
  destruct (time_constraint scenario) as [limit|]; [|exact H].
  destruct (negb (limit =? 0)%Z); [|exact H]. simpl in *.
  destruct (Z.ltb_spec (limit * microseconds_per_second)
                       (utcnow' - created_at scenario)); [discriminate|].
  destruct (Z.ltb_spec (limit * microseconds_per_second)
                       (utcnow - created_at scenario)); [lia|exact H].
Qed.

Lemma decision_after_half_a_minute :
  validate_decision 30000000 raise_wages one_minute_limit = true.
Proof.
  apply (validate_decision_deadline 30000000 60000000 raise_wages
           one_minute_limit); [lia | reflexivity].
Defined.

(** ** The resolved impacts *)

Lemma impacts_loop scenario game_state items : forall acc resolved s s',
  List.NoDup (dict_keys items) ->
  foldM (fun (resolved : dict fl) (item : string * fl) =>
           let stakeholder := fst item in
           let base_impact := fl_mul (snd item) (difficulty_level scenario) in
           let* modifier := calculate_impact_modifier stakeholder game_state in
           ret (dict_set stakeholder (fl_mul base_impact modifier) resolved))
        items acc s
  = (Ok resolved, s') ->
  s' = s
  /\ (forall k v, In (k, v) items ->
        exists modifier,
          calculate_impact_modifier k game_state s = (Ok modifier, s)
          /\ dict_get k resolved
             = Some (fl_mul (fl_mul v (difficulty_level scenario)) modifier))
  /\ (forall k, ~ In k (dict_keys items) ->
                dict_get k resolved = dict_get k acc)
  /\ (forall k, In k (dict_keys resolved)
                <-> In k (dict_keys acc) \/ In k (dict_keys items)).
Proof.
  induction items as [|[k0 v0] items IH]; intros acc resolved s s' Hnd H;
    simpl in H.
  - finish H. split; [reflexivity|]. split; [intros k v []|].
    split; [reflexivity|]. intros k. simpl. tauto.
  - inversion Hnd as [|? ? Hk0 Hnd']; subst.
    step H as acc' Hitem. step Hitem as m Hm.
    pose proof (calculate_impact_modifier_store _ _ _ _ _ Hm). subst.
    finish Hitem.
    destruct (IH _ _ _ _ Hnd' H) as (-> & Hin & Hout & Hkeys).
    split; [reflexivity|]. split; [|split].
    + intros k v [E|Hkv].
      * inversion E; subst. exists m. split; [exact Hm|].
        rewrite (Hout k Hk0). apply dict_get_set_eq.
      * apply (Hin k v Hkv).
    + intros k Hk. simpl in Hk.
      rewrite Hout by tauto.
      apply dict_get_set_ne. intros E. apply Hk. left. auto.
    + intros k. rewrite Hkeys, dict_keys_set_In. simpl.
      split; [intros [[->|Hk]|Hk]; auto | intros [Hk|[<-|Hk]]; auto].
Qed.

(** What [_calculate_decision_impacts] returns.  The store is left as it
    is.  Every impact of the decision, the keys ['financial'] and
    ['reputation'] apart, is resolved to the base impact times the
    difficulty times the modifier of that stakeholder; ['financial'] holds
    the financial impact, ['reputation'] the reputation impact of the
    resolved impacts, and there is no other key. *)
Theorem calculate_decision_impacts_entries
    decision scenario game_state resolved s s' :
  List.NoDup (dict_keys (impacts decision)) ->
  calculate_decision_impacts decision scenario game_state s
  = (Ok resolved, s') ->
  s' = s
  /\ (forall k v,
        In (k, v) (impacts decision) ->
        k <> "financial" -> k <> "reputation" ->
        exists modifier,
          calculate_impact_modifier k game_state s = (Ok modifier, s)
          /\ dict_get k resolved
             = Some (fl_mul (fl_mul v (difficulty_level scenario)) modifier))
  /\ (exists financial,
        calculate_financial_impact decision game_state = Ok financial
        /\ dict_get "financial" resolved = Some financial)
  /\ dict_get "reputation" resolved
     = Some (calculate_reputation_impact decision resolved)
  /\ (forall k, In k (dict_keys resolved)
                <-> k = "financial" \/ k = "reputation"
                    \/ In k (dict_keys (impacts decision))).
Proof.
  intros Hnd H. unfold calculate_decision_impacts in H.
  step H as loop Hloop. step H as financial Hf. finish Hf. finish H.
  apply impacts_loop in Hloop as (-> & Hin & _ & Hkeys); [|exact Hnd].
  split; [reflexivity|]. split; [|split; [|split]].
  - intros k v Hkv Hkf Hkr. destruct (Hin k v Hkv) as (m & Hm & Hget).
    exists m. split; [exact Hm|].
    rewrite !dict_get_set_ne by assumption. exact Hget.
  - exists financial. split; [assumption|].
    rewrite dict_get_set_ne by discriminate. apply dict_get_set_eq.
  - rewrite dict_get_set_eq. f_equal. symmetry.
    apply calculate_reputation_impact_other_key.
    simpl. intros [E|[E|[E|[E|[E|[]]]]]]; discriminate E.
  - intros k. rewrite !dict_keys_set_In, Hkeys. simpl. tauto.
Qed.

Lemma resolved_impacts_of_a_wage_rise :
  exists resolved,
    calculate_decision_impacts unknown_approach half_difficulty
                               starting_state starting_store
    = (Ok resolved, starting_store)
    /\ dict_get "reputation" resolved
       = Some (calculate_reputation_impact unknown_approach resolved).
Proof.
  destruct (calculate_decision_impacts unknown_approach half_difficulty
              starting_state starting_store) as [[resolved|e] s'] eqn:E;
    [|vm_compute in E; discriminate E].
  assert (Hnd : List.NoDup (dict_keys (impacts unknown_approach)))
    by (repeat constructor; simpl; tauto).
  destruct (calculate_decision_impacts_entries unknown_approach
              half_difficulty starting_state resolved starting_store s'
              Hnd E) as (-> & _ & _ & Hrep & _).
  exists resolved. split; [reflexivity | exact Hrep].
Defined.

(** ** Decisions that are processed *)

Lemma In_keys_dict_get {A} k (d : dict A) :
  In k (dict_keys d) -> exists v, dict_get k d = Some v.
Proof.
  intros Hin. destruct (dict_get k d) as [v|] eqn:E; [eauto|].
  apply dict_get_None_keys in E. contradiction.
Qed.

Lemma dict_keys_set_same {A} k (v : A) d :
  In k (dict_keys d) -> dict_keys (dict_set k v d) = dict_keys d.
Proof.
  induction d as [|[k0 v0] d IH]; simpl; [intros []|].
  destruct (String.eqb k k0) eqn:E; simpl; [reflexivity|].
  apply String.eqb_neq in E. intros [H|H]; [congruence|].
  rewrite IH by exact H. reflexivity.
Qed.

Lemma finite_mul a b : finite a -> finite b -> finite (fl_mul a b).
Proof. intros [p ->] [q ->]. eexists. reflexivity. Qed.

Lemma finite_add a b : finite a -> finite b -> finite (fl_add a b).
Proof. intros [p ->] [q ->]. eexists. reflexivity. Qed.

Lemma finite_Fin q : finite (Fin q).
Proof. eexists. reflexivity. Qed.

Lemma dict_get_finite k v d :
  finite_values d -> dict_get k d = Some v -> finite v.
Proof.
  intros Hd E. apply dict_get_In in E. unfold finite_values in Hd.
  rewrite Forall_forall in Hd. apply list_elem_of_In in E. apply (Hd _ E).
Qed.

Lemma dict_get_default_finite k d :
  finite_values d -> finite (dict_get_default k (Fin 0) d).
Proof.
  intros Hd. unfold dict_get_default.
  destruct (dict_get k d) as [v|] eqn:E; [|apply finite_Fin].
  apply (dict_get_finite k v d Hd E).
Qed.

Lemma dict_set_finite k v d :
  finite_values d -> finite v -> finite_values (dict_set k v d).
Proof. intros Hd Hv. apply (dict_set_Forall finite); assumption. Qed.

Lemma py_sum_finite l : forall q0,
  Forall finite l -> finite (fold_left fl_add l (Fin q0)).
Proof.
  induction l as [|x l IH]; intros q0 Hl; simpl; [apply finite_Fin|].
  inversion Hl as [|? ? [q ->] Hl']; subst. apply IH, Hl'.
Qed.

Lemma modifier_returns stakeholder game_state s sat :
  dicts s !! stakeholder_satisfaction game_state = Some sat ->
  In stakeholder (dict_keys sat) ->
  In (company_size game_state) ["small"; "medium"; "large"] ->
  exists modifier,
    calculate_impact_modifier stakeholder game_state s = (Ok modifier, s)
    /\ finite modifier.
Proof.
  intros Hsat Hk Hsize.
  rewrite (calculate_impact_modifier_cases _ _ _ _ Hsat).
  destruct (In_keys_dict_get _ _ Hk) as [v ->].
  pose proof (size_modifiers_known (company_size game_state)) as Hm.
  destruct (dict_get (company_size game_state) size_modifiers) as [m|];
    [|contradiction].
  eexists. split; [reflexivity|].
  destruct Hm as [_ [ -> | [ -> | -> ] ]];
    destruct (fl_ltb v (Fin 30)); try destruct (fl_ltb (Fin 70) v);
    apply finite_Fin.
Qed.

Lemma impacts_loop_returns scenario game_state s sat items :
  dicts s !! stakeholder_satisfaction game_state = Some sat ->
  In (company_size game_state) ["small"; "medium"; "large"] ->
  finite (difficulty_level scenario) ->
  forall acc,
    (forall k, In k (dict_keys items) -> In k (dict_keys sat)) ->
    finite_values items -> finite_values acc ->
    exists resolved,
      foldM (fun (resolved : dict fl) (item : string * fl) =>
               let stakeholder := fst item in
               let base_impact :=
                 fl_mul (snd item) (difficulty_level scenario) in
               let* modifier :=
                 calculate_impact_modifier stakeholder game_state in
               ret (dict_set stakeholder (fl_mul base_impact modifier)
                             resolved))
            items acc s
      = (Ok resolved, s)
      /\ finite_values resolved.
Proof.
  intros Hsat Hsize Hdiff.
  induction items as [|[k v] items IH]; intros acc Hkeys Hitems Hacc.
  - exists acc. split; [reflexivity | exact Hacc].
  - inversion Hitems as [|? ? Hv Hitems']; subst. simpl in Hv.
    destruct (modifier_returns k game_state s sat Hsat) as (m & Hm & Hfm);
      [apply Hkeys; left; reflexivity | exact Hsize |].
    destruct (IH (dict_set k (fl_mul (fl_mul v (difficulty_level scenario)) m)
                           acc)) as (resolved & Hrun & Hfin).
    + intros k' Hk'. apply Hkeys. right. exact Hk'.
    + exact Hitems'.
    + apply dict_set_finite; [exact Hacc|].
      apply finite_mul; [apply finite_mul; assumption | exact Hfm].
    + exists resolved. split; [|exact Hfin].
      rewrite <- Hrun. apply foldM_cons_ok. simpl.
      rewrite (bind_ok_eq _ _ _ _ _ Hm). reflexivity.
Qed.

Lemma calculate_financial_impact_returns decision game_state :
  In (company_size game_state) ["small"; "medium"; "large"] ->
  finite_values (impacts decision) ->
  finite (market_share game_state) ->
  exists financial,
    calculate_financial_impact decision game_state = Ok financial
    /\ finite financial.
Proof.
  intros Hsize Himp [share Hshare]. unfold calculate_financial_impact.
  destruct (dict_get_default_finite "financial" _ Himp) as [base ->].
  rewrite Hshare.
  destruct Hsize as [E|[E|[E|[]]]]; rewrite <- E; simpl;
    eexists; (split; [reflexivity | apply finite_Fin]).
Qed.

Lemma calculate_reputation_impact_finite decision resolved :
  finite_values resolved ->
  finite (calculate_reputation_impact decision resolved).
Proof.
  intros H. unfold calculate_reputation_impact, reputation_weights. simpl map.
  destruct (dict_get_default_finite "employees" _ H) as [a ->].
  destruct (dict_get_default_finite "customers" _ H) as [b ->].
  destruct (dict_get_default_finite "community" _ H) as [c ->].
  destruct (dict_get_default_finite "environment" _ H) as [d ->].
  destruct (dict_get_default_finite "investors" _ H) as [e ->].
  apply finite_Fin.
Qed.

Lemma calculate_decision_impacts_returns
    decision scenario game_state s sat :
  dicts s !! stakeholder_satisfaction game_state = Some sat ->
  In (company_size game_state) ["small"; "medium"; "large"] ->
  (forall k, In k (dict_keys (impacts decision)) -> In k (dict_keys sat)) ->
  finite_values (impacts decision) ->
  finite (difficulty_level scenario) ->
  finite (market_share game_state) ->
  exists resolved financial,
    calculate_decision_impacts decision scenario game_state s
    = (Ok resolved, s)
    /\ finite_values resolved
    /\ calculate_financial_impact decision game_state = Ok financial
    /\ dict_get_default "financial" (Fin 0) resolved = financial.
Proof.
  intros Hsat Hsize Hkeys Himp Hdiff Hshare.
  destruct (impacts_loop_returns scenario game_state s sat (impacts decision)
              Hsat Hsize Hdiff [] Hkeys Himp (List.Forall_nil _))
    as (loop & Hloop & Hfin).
  destruct (calculate_financial_impact_returns decision game_state
              Hsize Himp Hshare) as (financial & Hf & Hff).
  eexists. exists financial. unfold calculate_decision_impacts.
  rewrite (bind_ok_eq _ _ _ _ _ Hloop).
  rewrite Hf. unfold lift at 1. unfold bind at 1. unfold ret.
  split; [reflexivity|].
  assert (Hfin' : finite_values (dict_set "financial" financial loop))
    by (apply dict_set_finite; assumption).
  split; [|split; [reflexivity|]].
  - apply dict_set_finite; [exact Hfin'|].
    apply calculate_reputation_impact_finite, Hfin'.
  - unfold dict_get_default.
    rewrite dict_get_set_ne by discriminate.
    rewrite dict_get_set_eq. reflexivity.
Qed.

Lemma has_satisfaction_In game_state s sat k :
  dicts s !! stakeholder_satisfaction game_state = Some sat ->
  has_satisfaction game_state s k -> In k (dict_keys sat).
Proof.
  intros Hsat (sat' & Hsat' & Hk).
  pose proof (eq_trans (eq_sym Hsat) Hsat') as E. inversion E. exact Hk.
Qed.

Lemma lift_ok_eq {A B} (a : A) (f : A -> M B) s :
  bind (lift (Ok a)) f s = f a s.
Proof. reflexivity. Qed.

Lemma GameState_copy_returns deep game_state s sat events meta :
  dicts s !! stakeholder_satisfaction game_state = Some sat ->
  lists s !! ongoing_events game_state = Some events ->
  metas s !! metadata game_state = Some meta ->
  exists copied s1,
    GameState_copy deep game_state s = (Ok copied, s1)
    /\ same_scalars copied game_state
    /\ dicts s1 !! stakeholder_satisfaction copied = Some sat
    /\ lists s1 !! ongoing_events copied = Some events
    /\ metas s1 !! metadata copied = Some meta.
Proof.
  intros Hd Hl Hm. unfold GameState_copy. destruct deep.
  - rewrite (bind_ok_eq _ _ _ _ _ (read_dict_eq _ _ _ Hd)).
    rewrite (bind_ok_eq _ _ _ _ _ (read_list_eq _ _ _ Hl)).
    rewrite (bind_ok_eq _ _ _ _ _ (read_meta_eq _ _ _ Hm)).
    unfold bind, alloc_dict, alloc_list, alloc_meta, ret. simpl.
    eexists. eexists. split; [reflexivity|].
    split; [repeat split|]. simpl.
    split; [apply lookup_insert_eq|].
    split; apply lookup_insert_eq.
  - exists game_state, s. split; [reflexivity|].
    split; [repeat split | auto].
Qed.

Lemma satisfaction_loop_returns updated resolved types : forall s sat,
  dicts s !! stakeholder_satisfaction updated = Some sat ->
  (forall k, In k types -> In k (dict_keys sat)) ->
  exists s' sat',
    foldM (fun (_ : unit) stakeholder =>
             apply_stakeholder_impact updated resolved stakeholder)
          types tt s
    = (Ok tt, s')
    /\ dicts s' !! stakeholder_satisfaction updated = Some sat'
    /\ dict_keys sat' = dict_keys sat
    /\ lists s' = lists s /\ metas s' = metas s.
Proof.
  induction types as [|x types IH]; intros s sat Hsat Hkeys.
  - exists s, sat. auto.
  - assert (Hx : In x (dict_keys sat)) by (apply Hkeys; left; reflexivity).
    destruct (dict_mem x resolved) eqn:Hmem.
    + destruct (In_keys_dict_get _ _ Hx) as [current Hcur].
      apply dict_mem_true in Hmem as Hchange. destruct Hchange as [change Hch].
      set (sat1 := dict_set x (py_max (Fin 0)
                     (py_min (Fin 100) (fl_add current change))) sat).
      set (s1 := {| dicts := <[stakeholder_satisfaction updated := sat1]>
                               (dicts s);
                    lists := lists s; metas := metas s |}).
      assert (Hround : apply_stakeholder_impact updated resolved x s
                       = (Ok tt, s1)).
      { unfold apply_stakeholder_impact. rewrite Hmem.
        rewrite (bind_ok_eq _ _ _ _ _ (read_dict_eq _ _ _ Hsat)).
        unfold dict_index. rewrite Hcur, Hch. reflexivity. }
      destruct (IH s1 sat1) as (s' & sat' & Hrun & Hsat' & Hk' & Hl' & Hm').
      * apply lookup_insert_eq.
      * intros k Hk. unfold sat1. rewrite dict_keys_set_same by exact Hx.
        apply Hkeys. right. exact Hk.
      * exists s', sat'. split; [|split; [exact Hsat'|split]].
        -- rewrite <- Hrun. apply foldM_cons_ok. exact Hround.
        -- rewrite Hk'. unfold sat1. apply dict_keys_set_same, Hx.
        -- split; [rewrite Hl' | rewrite Hm']; reflexivity.
    + destruct (IH s sat Hsat) as (s' & sat' & Hrun & Hrest).
      * intros k Hk. apply Hkeys. right. exact Hk.
      * exists s', sat'. split; [|exact Hrest].
        rewrite <- Hrun. apply foldM_cons_ok.
        unfold apply_stakeholder_impact. rewrite Hmem. reflexivity.
Qed.

Lemma handle_events_returns game_state events : forall s ongoing,
  lists s !! ongoing_events game_state = Some ongoing ->
  exists s' ongoing',
    handle_events game_state events s = (Ok game_state, s')
    /\ lists s' !! ongoing_events game_state = Some ongoing'
    /\ dicts s' = dicts s /\ metas s' = metas s.
Proof.
  unfold handle_events.
  induction events as [|event events IH]; intros s ongoing Hl.
  - exists s, ongoing. auto.
  - destruct (existsb (Event_eqb event) ongoing) eqn:Hseen.
    + destruct (IH s ongoing Hl) as (s' & ongoing' & Hrun & Hrest).
      exists s', ongoing'. split; [|exact Hrest].
      rewrite <- Hrun. unfold bind at 1 3.
      rewrite (foldM_cons_ok _ _ _ _ _ tt s); [reflexivity|].
      rewrite (bind_ok_eq _ _ _ _ _ (read_list_eq _ _ _ Hl)).
      rewrite Hseen. reflexivity.
    + set (s1 := {| dicts := dicts s;
                    lists := <[ongoing_events game_state
                               := (ongoing ++ [event])%list]> (lists s);
                    metas := metas s |}).
      destruct (IH s1 (ongoing ++ [event])%list) as (s' & ongoing' & Hrun & Hrest).
      { apply lookup_insert_eq. }
      exists s', ongoing'. split; [|exact Hrest].
      rewrite <- Hrun. unfold bind at 1 3.
      rewrite (foldM_cons_ok _ _ _ _ _ tt s1); [reflexivity|].
      rewrite (bind_ok_eq _ _ _ _ _ (read_list_eq _ _ _ Hl)).
      rewrite Hseen. reflexivity.
Qed.

Lemma calculate_experience_points_returns
    settings decision resolved difficulty :
  STAKEHOLDER_TYPES settings <> [] ->
  finite_values resolved -> finite difficulty ->
  exists xp,
    calculate_experience_points settings decision resolved difficulty = Ok xp.
Proof.
  intros Htypes Hres [d ->]. unfold calculate_experience_points.
  unfold py_truediv. rewrite fl_of_Z_is_zero.
  destruct (Z.eqb_spec (Z.of_nat (length (STAKEHOLDER_TYPES settings))) 0)
    as [E|E].
  { destruct (STAKEHOLDER_TYPES settings); [congruence | simpl in E; lia]. }
  unfold rbind. cbv beta iota zeta.
  assert (Hratio : finite (np_div
            (fl_of_Z (Z.of_nat (length
               (filter (fun v => fl_ltb (Fin 0) (fl_abs v) = true)
                       (dict_values resolved)))))
            (fl_of_Z (Z.of_nat (length (STAKEHOLDER_TYPES settings)))))).
  { unfold np_div, fl_of_Z.
    destruct (Qeq_bool _ 0) eqn:Ez; [|apply finite_Fin].
    apply Qeq_bool_iff in Ez. unfold Qeq in Ez. simpl in Ez. lia. }
  destruct Hratio as [ratio ->].
  assert (Hsum : finite (py_sum (filter (fun v => fl_ltb (Fin 0) v = true)
                                        (dict_values resolved)))).
  { apply py_sum_finite. apply Forall_forall. intros v Hv.
    apply list_elem_of_filter in Hv as [_ Hv].
    apply list_elem_of_In, in_map_iff in Hv as ([k v'] & <- & Hin).
    unfold finite_values in Hres. rewrite Forall_forall in Hres.
    apply list_elem_of_In in Hin. apply (Hres _ Hin). }
  destruct Hsum as [total ->]. simpl. eexists. reflexivity.
Qed.

Lemma bind_foldM_cons {A B C} (f : B -> A -> M B) (k : B -> M C)
    x l b s b' s1 :
  f b x s = (Ok b', s1) ->
  bind (foldM f (x :: l) b) k s = bind (foldM f l b') k s1.
Proof.
  intros H. unfold bind. rewrite (foldM_cons_ok f x l b s b' s1 H).
  reflexivity.
Qed.

Lemma remember_impact_returns
    utcnow game_state decision resolved stakeholder s meta :
  metas s !! metadata game_state = Some meta ->
  exists s' meta',
    remember_impact utcnow game_state decision resolved stakeholder s
    = (Ok tt, s')
    /\ metas s' !! metadata game_state = Some meta'
    /\ dicts s' = dicts s /\ lists s' = lists s.
Proof.
  intros Hm. unfold remember_impact.
  destruct (dict_mem stakeholder resolved) eqn:Hmem;
    [|exists s, meta; auto].
  apply dict_mem_true in Hmem as [change Hch].
  unfold dict_index at 1. rewrite Hch. rewrite lift_ok_eq.
  rewrite (bind_ok_eq _ _ _ _ _ (read_meta_eq _ _ _ Hm)).
  set (d0 := match meta with Some d => d | None => [] end).
  set (d1 := if dict_mem stakeholder d0 then d0
             else dict_set stakeholder [] d0).
  assert (Hd1 : exists memories, dict_get stakeholder d1 = Some memories).
  { unfold d1. destruct (dict_mem stakeholder d0) eqn:E.
    - apply dict_mem_true in E. exact E.
    - eexists. apply dict_get_set_eq. }
  destruct Hd1 as [memories Hd1].
  unfold dict_index. rewrite Hd1. rewrite lift_ok_eq.
  unfold write_meta. eexists. eexists. split; [reflexivity|]. simpl.
  split; [apply lookup_insert_eq | auto].
Qed.

Lemma update_stakeholder_memories_returns
    settings utcnow game_state decision resolved : forall s meta,
  metas s !! metadata game_state = Some meta ->
  exists s' meta',
    update_stakeholder_memories settings utcnow game_state decision resolved s
    = (Ok game_state, s')
    /\ metas s' !! metadata game_state = Some meta'
    /\ dicts s' = dicts s /\ lists s' = lists s.
Proof.
  unfold update_stakeholder_memories.
  induction (STAKEHOLDER_TYPES settings) as [|x types IH]; intros s meta Hm.
  - exists s, meta. auto.
  - destruct (remember_impact_returns utcnow game_state decision resolved x
                s meta Hm) as (s1 & meta1 & Hround & Hm1 & Hd1 & Hl1).
    destruct (IH s1 meta1 Hm1) as (s' & meta' & Hrun & Hm' & Hd' & Hl').
    exists s', meta'. split; [|split; [exact Hm'|]].
    + rewrite <- Hrun. apply bind_foldM_cons. exact Hround.
    + split; [rewrite Hd', Hd1 | rewrite Hl', Hl1]; reflexivity.
Qed.

Lemma check_level_up_containers game_state :
  stakeholder_satisfaction (check_level_up game_state)
  = stakeholder_satisfaction game_state
  /\ ongoing_events (check_level_up game_state) = ongoing_events game_state
  /\ metadata (check_level_up game_state) = metadata game_state
  /\ company_size (check_level_up game_state) = company_size game_state
  /\ market_share (check_level_up game_state) = market_share game_state.
Proof.
  unfold check_level_up. destruct (_ <=? _)%Z; simpl; auto.
Qed.

Lemma apply_impacts_returns
    settings copy_deep game_state resolved s sat events meta :
  dicts s !! stakeholder_satisfaction game_state = Some sat ->
  lists s !! ongoing_events game_state = Some events ->
  metas s !! metadata game_state = Some meta ->
  (forall k, In k (STAKEHOLDER_TYPES settings) -> In k (dict_keys sat)) ->
  In "environment" (dict_keys sat) ->
  In "community" (dict_keys sat) ->
  fl_is_zero (fl_add (financial_resources game_state)
                     (dict_get_default "financial" (Fin 0) resolved))
  = false ->
  exists applied s' sat',
    apply_impacts settings copy_deep game_state resolved s = (Ok applied, s')
    /\ dicts s' !! stakeholder_satisfaction applied = Some sat'
    /\ dict_keys sat' = dict_keys sat
    /\ (exists events', lists s' !! ongoing_events applied = Some events')
    /\ (exists meta', metas s' !! metadata applied = Some meta')
    /\ company_size applied = company_size game_state
    /\ within 0 100 (market_share applied).
Proof.
  intros Hd Hl Hm Hkeys Henv Hcom Hnz.
  destruct (GameState_copy_returns copy_deep game_state s sat events meta
              Hd Hl Hm) as (copied & s1 & Hcopy & Hsc & Hd1 & Hl1 & Hm1).
  destruct Hsc as (Hsize & Hfr & Hrep & Hms & _).
  pose (us := set_reputation
                (fl_add (reputation copied)
                        (dict_get_default "reputation" (Fin 0) resolved))
                (set_financial_resources
                   (fl_add (financial_resources copied)
                           (dict_get_default "financial" (Fin 0) resolved))
                   copied)).
  destruct (satisfaction_loop_returns us resolved (STAKEHOLDER_TYPES settings)
              s1 sat Hd1 Hkeys)
    as (s2 & sat2 & Hloop & Hd2 & Hk2 & Hl2 & Hm2).
  assert (Hshare : exists share,
            calculate_new_market_share us resolved = Ok share
            /\ within 0 100 share).
  { unfold calculate_new_market_share, py_truediv. simpl financial_resources.
    rewrite Hfr, Hnz. eexists. split; [reflexivity|]. apply clamp_within. }
  destruct Hshare as (share & Hshare & Hfs).
  rewrite <- Hk2 in Henv, Hcom.
  destruct (In_keys_dict_get _ _ Henv) as [e He].
  destruct (In_keys_dict_get _ _ Hcom) as [c Hc].
  pose proof (calculate_sustainability_rating_value
                (set_market_share share us) s2 sat2 e c Hd2 He Hc) as Hrating.
  eexists. exists s2, sat2. split.
  - unfold apply_impacts.
    erewrite bind_ok_eq; [|exact Hcopy]. cbv zeta.
    erewrite bind_ok_eq; [|exact Hloop].
    change (calculate_new_market_share _ resolved)
      with (calculate_new_market_share us resolved).
    rewrite Hshare, lift_ok_eq.
    erewrite bind_ok_eq; [|exact Hrating]. reflexivity.
  - simpl. split; [exact Hd2|]. split; [exact Hk2|].
    split; [exists events; rewrite Hl2; exact Hl1|].
    split; [exists meta; rewrite Hm2; exact Hm1|].
    split; [exact Hsize | exact Hfs].
Qed.

Lemma within_finite lo hi x : within lo hi x -> finite x.
Proof. intros (q & -> & _). apply finite_Fin. Qed.

Lemma in_range_finite d : in_range d -> finite_values d.
Proof.
  unfold in_range, finite_values. intros H.
  eapply Forall_impl; [exact H|]. intros kv. apply within_finite.
Qed.

Lemma dict_get_default_in_range k d :
  in_range d -> within (-100) 100 (dict_get_default k (Fin 0) d).
Proof.
  intros Hd. unfold dict_get_default.
  destruct (dict_get k d) as [v|] eqn:E.
  - apply dict_get_In in E. unfold in_range in Hd.
    rewrite Forall_forall in Hd. apply list_elem_of_In in E.
    apply (Hd _ E).
  - exists 0%Q. split; [reflexivity|]. split; discriminate.
Qed.

(** The financial impact is at most 400 in size: an impact of 100 at
    most, doubled for a large company and doubled again at a market share
    of 100. *)
Lemma financial_impact_small decision game_state :
  In (company_size game_state) ["small"; "medium"; "large"] ->
  in_range (impacts decision) ->
  within 0 100 (market_share game_state) ->
  exists f,
    calculate_financial_impact decision game_state = Ok (Fin f)
    /\ (-400 <= f)%Q /\ (f <= 400)%Q.
Proof.
  intros Hsize Himp (m & Hm & Hm0 & Hm1). unfold calculate_financial_impact.
  destruct (dict_get_default_in_range "financial" _ Himp)
    as (b & -> & Hb0 & Hb1).
  rewrite Hm. unfold dict_index.
  assert (Ht : (1 <= 1 + m / 100)%Q /\ (1 + m / 100 <= 2)%Q).
  { split.
    - assert (0 <= m / 100)%Q
        by (apply Qle_shift_div_l; [reflexivity | lra]). lra.
    - assert (m / 100 <= 1)%Q
        by (apply Qle_shift_div_r; [reflexivity | lra]). lra. }
  destruct Ht as [Ht1 Ht2].
  assert (Hbound : forall c : Q,
            (0 <= c)%Q -> (c <= 2)%Q ->
            (-400 <= b * c * (1 + m / 100))%Q
            /\ (b * c * (1 + m / 100) <= 400)%Q).
  { intros c Hc0 Hc2. set (t := (1 + m / 100)%Q) in *.
    assert (Hbc : (-200 <= b * c)%Q /\ (b * c <= 200)%Q) by (split; nra).
    destruct Hbc. split; nra. }
  destruct Hsize as [E|[E|[E|[]]]]; rewrite <- E; simpl dict_get;
    unfold rbind, np_div, fl_mul, fl_add;
    change (Qeq_bool 100 0) with false; cbv iota;
    eexists; (split; [reflexivity|]); apply Hbound; lra.
Qed.

(** [process_decision] returns, and leaves a state that the rules can
    work on, under these conditions: the state it is given is one that the
    rules can work on, its level is between 1 and 1734 (the requirement
    of a higher level is beyond the largest double) and its resources
    are at least 500 away from zero (the financial impact is at most 400 in
    size, so it cannot bring them to zero); every impact of the decision is
    on a key of the satisfaction dict and lies in [-100, 100]; the
    difficulty lies in [0, 1]. *)
Theorem process_decision_returns
    settings copy_deep utcnow game_state scenario decision s :
  well_formed settings game_state s ->
  (forall k, In k (dict_keys (impacts decision)) ->
             has_satisfaction game_state s k) ->
  in_range (impacts decision) ->
  within 0 1 (difficulty_level scenario) ->
  away_from_zero 500 (financial_resources game_state) ->
  (1 <= current_level game_state <= 1734)%Z ->
  exists updated resolved s',
    process_decision settings copy_deep utcnow game_state scenario decision s
    = (Ok (updated, resolved), s')
    /\ well_formed settings updated s'.
Proof.
  intros (Hev & Hmeta & Htypes & Henv & Hcom & Hsize & Hne & Hmarket)
         Hkeys Hrange Hdifficulty Hresources _.
  pose proof (in_range_finite _ Hrange) as Himp.
  pose proof (within_finite _ _ _ Hdifficulty) as Hdiff.
  pose proof (within_finite _ _ _ Hmarket) as Hshare.
  assert (Hnz : forall financial,
            calculate_financial_impact decision game_state = Ok financial ->
            fl_is_zero (fl_add (financial_resources game_state) financial)
            = false).
  { intros financial Hf.
    destruct (financial_impact_small decision game_state Hsize Hrange Hmarket)
      as (f & Hf' & Hf0 & Hf1).
    rewrite Hf' in Hf. inversion Hf; subst financial.
    destruct Hresources as (r & -> & Hr). simpl.
    destruct (Qeq_bool (r + f) 0) eqn:E; [|reflexivity].
    apply Qeq_bool_iff in E. destruct Hr; lra. }
  destruct Henv as (sat & Hsat & Henv).
  destruct Hev as [events Hev]. destruct Hmeta as [meta Hmeta].
  pose proof (has_satisfaction_In _ _ _ _ Hsat Hcom) as Hcom'.
  assert (Htypes' : forall k, In k (STAKEHOLDER_TYPES settings) ->
                              In k (dict_keys sat))
    by (intros k Hk; apply (has_satisfaction_In _ _ _ _ Hsat), Htypes, Hk).
  assert (Hkeys' : forall k, In k (dict_keys (impacts decision)) ->
                             In k (dict_keys sat))
    by (intros k Hk; apply (has_satisfaction_In _ _ _ _ Hsat), Hkeys, Hk).
  destruct (calculate_decision_impacts_returns decision scenario game_state
              s sat Hsat Hsize Hkeys' Himp Hdiff Hshare)
    as (resolved & financial & Himpacts & Hfin & Hf & Hget).
  destruct (apply_impacts_returns settings copy_deep game_state resolved
              s sat events meta Hsat Hev Hmeta Htypes' Henv Hcom')
    as (applied & s1 & sat1 & Happly & Hsat1 & Hk1 & [events1 Hev1]
        & [meta1 Hmeta1] & Hsize1 & Hshare1).
  { rewrite Hget. apply Hnz, Hf. }
  assert (Hcheck : exists triggered,
            check_triggered_events settings applied resolved s1
            = (Ok triggered, s1)).
  { unfold check_triggered_events.
    erewrite bind_ok_eq; [|apply read_dict_eq, Hsat1].
    eexists. reflexivity. }
  destruct Hcheck as [triggered Hcheck].
  assert (Hhandle : exists s2 events2,
            match triggered with
            | [] => ret applied
            | _ :: _ => handle_events applied triggered
            end s1 = (Ok applied, s2)
            /\ lists s2 !! ongoing_events applied = Some events2
            /\ dicts s2 = dicts s1 /\ metas s2 = metas s1).
  { destruct triggered as [|t triggered].
    - exists s1, events1. auto.
    - apply (handle_events_returns applied (t :: triggered) s1 events1 Hev1). }
  destruct Hhandle as (s2 & events2 & Hhandle & Hev2 & Hd2 & Hm2).
  destruct (calculate_experience_points_returns settings decision resolved
              (difficulty_level scenario) Hne Hfin Hdiff) as [xp Hxp].
  pose (levelled := check_level_up
                      (set_experience_points
                         (experience_points applied + xp)%Z applied)).
  destruct (check_level_up_containers
              (set_experience_points (experience_points applied + xp)%Z
                                     applied))
    as (Lsat & Lev & Lmeta & Lsize & Lshare).
  simpl in Lsat, Lev, Lmeta, Lsize, Lshare. fold levelled in Lsat, Lev, Lmeta, Lsize, Lshare.
  destruct (update_stakeholder_memories_returns settings utcnow levelled
              decision resolved s2 meta1)
    as (s3 & meta3 & Hmem & Hmeta3 & Hd3 & Hl3).
  { rewrite Lmeta, Hm2. exact Hmeta1. }
  exists levelled, resolved, s3. split.
  - unfold process_decision.
    erewrite bind_ok_eq; [|exact Himpacts].
    erewrite bind_ok_eq; [|exact Happly].
    erewrite bind_ok_eq; [|exact Hcheck].
    erewrite bind_ok_eq; [|exact Hhandle].
    rewrite Hxp, lift_ok_eq. cbv zeta.
    erewrite bind_ok_eq; [|exact Hmem]. reflexivity.
  - assert (Hsat3 : dicts s3 !! stakeholder_satisfaction levelled = Some sat1).
    { rewrite Lsat, Hd3, Hd2. exact Hsat1. }
    assert (Hhas : forall k, In k (dict_keys sat) ->
                             has_satisfaction levelled s3 k).
    { intros k Hk. exists sat1. split; [exact Hsat3|].
      rewrite Hk1. exact Hk. }
    split; [exists events2; rewrite Lev, Hl3; exact Hev2|].
    split; [exists meta3; exact Hmeta3|].
    split; [intros k Hk; apply Hhas, Htypes', Hk|].
    split; [apply Hhas, Henv|].
    split; [apply Hhas, Hcom'|].
    split; [rewrite Lsize, Hsize1; exact Hsize|].
    split; [exact Hne | rewrite Lshare; exact Hshare1].
Qed.

Lemma first_decision_returns :
  exists updated resolved s',
    process_decision default_settings false 0 starting_state half_difficulty
                     unknown_approach starting_store
    = (Ok (updated, resolved), s')
    /\ well_formed default_settings updated s'.
Proof.
  assert (Hsat : forall k, In k (dict_keys neutral_satisfaction) ->
                           has_satisfaction starting_state starting_store k).
  { intros k Hk. exists neutral_satisfaction. split; [reflexivity | exact Hk]. }
  apply (process_decision_returns default_settings false 0 starting_state
           half_difficulty unknown_approach starting_store).
  - split; [eexists; reflexivity|].
    split; [eexists; reflexivity|].
    split; [intros k Hk; apply Hsat; simpl in *; tauto|].
    split; [apply Hsat; simpl; tauto|].
    split; [apply Hsat; simpl; tauto|].
    split; [simpl; tauto|].
    split; [discriminate|].
    exists 5%Q. split; [reflexivity | split; discriminate].
  - intros k Hk. apply Hsat. simpl in *. tauto.
  - repeat constructor.
    exists 20%Q. split; [reflexivity | split; discriminate].
  - exists 0.5%Q. split; [reflexivity | split; discriminate].
  - exists 1000000%Q. split; [reflexivity | left; discriminate].
  - simpl. lia.
Defined.

End GameLogicLaws.

(** * Laws of the pattern analyzer *)

Module PatternAnalyzerLaws.
Import PatternAnalyzer PatternAnalyzerSamples PatternAnalyzerNotions.

(** ** Numbers *)

(** [max(0, min(1, x))] lies in the unit interval for every [x], NaN and
    the infinities included. *)
Lemma unit_clamp_between (x : fl) :
  between 0 1 (py_max (Fin 0) (py_min (Fin 1) x)).
Proof.
  destruct x as [q| | |]; try (vm_compute; eexists; split;
    [reflexivity | split; discriminate]).
  unfold py_min, py_max, fl_ltb.
  destruct (Qle_bool 1 q) eqn:E1; simpl.
  - exists 1%Q. split; [reflexivity|]. split; discriminate.
  - destruct (Qle_bool q 0) eqn:E2; simpl.
    + exists 0%Q. split; [reflexivity|]. split; discriminate.
    + exists q. split; [reflexivity|]. split.
      * destruct (Qlt_le_dec 0 q) as [Hlt|Hle]; [apply Qlt_le_weak, Hlt|].
        apply Qle_bool_iff in Hle. congruence.
      * destruct (Qlt_le_dec q 1) as [Hlt|Hle]; [apply Qlt_le_weak, Hlt|].
        apply Qle_bool_iff in Hle. congruence.
Qed.

(** ** Lists of results *)

Lemma mapR_result {A B} (f : A -> result B) l :
  match mapR f l with
  | Ok ys => Forall2 (fun x y => f x = Ok y) l ys
  | Raise e => Exists (fun x => f x = Raise e) l
  end.
Proof.
  induction l as [|x l IH]; simpl; [constructor|].
  destruct (f x) as [y|e] eqn:E; [|left; exact E].
  destruct (mapR f l) as [ys|e].
  - constructor; assumption.
  - right. exact IH.
Qed.

(** ** The speed score *)

(** [_analyze_decision_speed] raises [ZeroDivisionError] exactly when some
    decision of the history took zero seconds; otherwise its score lies
    in the unit interval, whatever the difficulties are. *)
Theorem analyze_decision_speed_result decisions :
  match analyze_decision_speed decisions with
  | Ok v =>
      between 0 1 v /\ Forall (fun d => time_spent d <> 0%Z) decisions
  | Raise e =>
      e = ZeroDivisionError
      /\ Exists (fun d => time_spent d = 0%Z) decisions
  end.
Proof.
  unfold analyze_decision_speed.
  destruct decisions as [|d0 ds].
  { split; [|constructor]. exists 0.5%Q. split; [reflexivity|].
    split; discriminate. }
  generalize (d0 :: ds). clear d0 ds. intros decisions.
  match goal with
  | |- context [mapR ?f decisions] => pose proof (mapR_result f decisions) as H
  end.
  cbv beta in H.
  destruct (mapR _ decisions) as [scores|e]; simpl.
  - split; [apply unit_clamp_between|].
    induction H as [|d y l ys Hd _ IH]; constructor; [|exact IH].
    pose proof (GameLogicLaws.py_truediv_result
                  (fl_add (Fin 30) (fl_mul (Fin 90) (difficulty_level d)))
                  (fl_of_Z (time_spent d))) as Hr.
    rewrite Hd in Hr. destruct Hr as [Hz _].
    rewrite GameLogicLaws.fl_of_Z_is_zero in Hz. apply Z.eqb_neq, Hz.
  - induction H as [d l Hd|d l _ IH].
    + pose proof (GameLogicLaws.py_truediv_result
                    (fl_add (Fin 30) (fl_mul (Fin 90) (difficulty_level d)))
                    (fl_of_Z (time_spent d))) as Hr.
      rewrite Hd in Hr. destruct Hr as [-> Hz].
      rewrite GameLogicLaws.fl_of_Z_is_zero in Hz. apply Z.eqb_eq in Hz.
      split; [reflexivity | left; exact Hz].
    + destruct IH as [-> IH]. split; [reflexivity | right; exact IH].
Qed.

(** ** Similarity of two decisions *)

Lemma stakeholders_union_empty (l1 l2 : list string) :
  size (list_to_set l1 ∪ list_to_set l2 : gset string) = 0%nat
  <-> l1 = [] /\ l2 = [].
Proof.
  rewrite size_empty_iff. split.
  - intros H. split.
    + destruct l1 as [|x l1]; [reflexivity|]. exfalso.
      set_solver.
    + destruct l2 as [|x l2]; [reflexivity|]. exfalso.
      set_solver.
  - intros [-> ->]. set_solver.
Qed.

(** [_calculate_decision_similarity] raises [ZeroDivisionError] exactly
    when neither decision affects a stakeholder: the union of the two
    stakeholder sets is then empty.  In every other case it returns. *)
Theorem calculate_decision_similarity_result decision1 decision2 :
  match calculate_decision_similarity decision1 decision2 with
  | Ok _ =>
      stakeholders_affected decision1 <> []
      \/ stakeholders_affected decision2 <> []
  | Raise e =>
      e = ZeroDivisionError
      /\ stakeholders_affected decision1 = []
      /\ stakeholders_affected decision2 = []
  end.
Proof.
  unfold calculate_decision_similarity.
  match goal with
  | |- context [py_truediv ?a ?b] => pose proof (GameLogicLaws.py_truediv_result a b) as H
  end.
  destruct (py_truediv _ _) as [v|e]; simpl.
  - destruct H as [Hz _]. rewrite GameLogicLaws.fl_of_Z_is_zero in Hz.
    apply Z.eqb_neq in Hz.
    destruct (stakeholders_affected decision1) as [|x l1];
      [|left; discriminate].
    destruct (stakeholders_affected decision2) as [|y l2];
      [|right; discriminate].
    exfalso. apply Hz.
    replace (size _) with 0%nat; [reflexivity|].
    symmetry. apply stakeholders_union_empty. auto.
  - destruct H as [-> Hz]. split; [reflexivity|].
    rewrite GameLogicLaws.fl_of_Z_is_zero in Hz. apply Z.eqb_eq in Hz.
    apply stakeholders_union_empty. lia.
Qed.

(** ** The clamped fields of the profile *)

Lemma between_half : between 0 1 (Fin 0.5).
Proof. exists 0.5%Q. split; [reflexivity|]. split; discriminate. Qed.

Lemma calculate_confidence_between np_std decisions c :
  calculate_confidence np_std decisions = Ok c -> between 0 1 c.
Proof.
  unfold calculate_confidence. intros H.
  destruct (mapR _ _) as [similarities|e]; [|discriminate H].
  simpl in H. destruct (py_truediv _ _) as [ratio|e]; [|discriminate H].
  simpl in H. inversion H. apply unit_clamp_between.
Qed.

Lemma calculate_learning_rate_between np_polyfit_slope decisions r :
  calculate_learning_rate np_polyfit_slope decisions = Ok r -> between 0 1 r.
Proof.
  unfold calculate_learning_rate. intros H.
  destruct (length decisions <? 10)%nat.
  { inversion H. apply between_half. }
  destruct (map _ (seq 0 _)) as [|p trend].
  { inversion H. apply between_half. }
  destruct (np_polyfit_slope _ _) as [slope|e]; [|discriminate H].
  simpl in H. inversion H. apply unit_clamp_between.
Qed.

Lemma analyze_decision_speed_between decisions v :
  analyze_decision_speed decisions = Ok v -> between 0 1 v.
Proof.
  unfold analyze_decision_speed. intros H.
  destruct decisions as [|d ds].
  { inversion H. apply between_half. }
  destruct (mapR _ _) as [scores|e]; [|discriminate H].
  simpl in H. inversion H. apply unit_clamp_between.
Qed.

(** Whatever the history holds and whatever numpy's standard deviation
    and line fit return (NaN and the infinities included), the profile
    that [analyze_patterns] returns has its confidence, its learning rate
    and its decision speed in the unit interval. *)
Theorem analyze_patterns_unit_scores
    min_decisions np_std np_polyfit_slope calculate_skill_score
    decisions current_level :
  exists pattern,
    analyze_patterns min_decisions np_std np_polyfit_slope
                     calculate_skill_score decisions current_level
    = Ok pattern
    /\ between 0 1 (confidence pattern)
    /\ between 0 1 (learning_rate pattern)
    /\ between 0 1 (decision_speed pattern).
Proof.
  assert (Hdefault : between 0 1 (confidence generate_initial_pattern)
                     /\ between 0 1 (learning_rate generate_initial_pattern)
                     /\ between 0 1 (decision_speed generate_initial_pattern))
    by (repeat split; apply between_half).
  unfold analyze_patterns.
  destruct (Z.of_nat (length decisions) <? min_decisions)%Z; [eauto|].
  unfold compute_pattern.
  destruct (calculate_confidence np_std decisions) as [c|e] eqn:Ec;
    simpl; [|eauto].
  destruct (identify_avoided_topics decisions) as [a|e]; simpl; [|eauto].
  destruct (assess_skill_levels calculate_skill_score decisions) as [k|e];
    simpl; [|eauto].
  destruct (calculate_learning_rate np_polyfit_slope decisions) as [r|e] eqn:Er;
    simpl; [|eauto].
  destruct (analyze_decision_speed decisions) as [v|e] eqn:Ev;
    simpl; [|eauto].
  destruct (calculate_consistency decisions) as [y|e]; simpl; [|eauto].
  eexists. split; [reflexivity|]. simpl.
  split; [eapply calculate_confidence_between; eassumption|].
  split; [eapply calculate_learning_rate_between; eassumption|].
  eapply analyze_decision_speed_between; eassumption.
Qed.

(** ** Avoided topics *)

Lemma dict_incr_get k k' n d :
  dict_get_default k 0%Z (dict_incr k' n d)
  = if String.eqb k k' then (dict_get_default k 0 d + n)%Z
    else dict_get_default k 0%Z d.
Proof.
  unfold dict_incr, dict_get_default at 1.
  destruct (String.eqb k k') eqn:E.
  - apply String.eqb_eq in E. subst k'.
    rewrite GameLogicLaws.dict_get_set_eq. reflexivity.
  - apply String.eqb_neq in E.
    rewrite GameLogicLaws.dict_get_set_ne by exact E. reflexivity.
Qed.

Lemma dict_incr_positive k d :
  Forall (fun kv : string * Z => (0 < snd kv)%Z) d ->
  Forall (fun kv : string * Z => (0 < snd kv)%Z) (dict_incr k 1 d).
Proof.
  intros Hd. unfold dict_incr.
  apply (GameLogicFacts.dict_set_Forall (fun v => (0 < v)%Z)); [exact Hd|].
  unfold dict_get_default. destruct (dict_get k d) as [v|] eqn:E; [|lia].
  apply GameLogicLaws.dict_get_In in E. rewrite Forall_forall in Hd.
  apply list_elem_of_In in E. specialize (Hd _ E). simpl in Hd. lia.
Qed.

(** The two counters after the loop of [_identify_avoided_topics]. *)
Lemma topic_counts decisions : forall topic_counts topic_avoidance,
  let counts :=
    fold_left
      (fun (acc : dict Z * dict Z) decision =>
         let topic_counts := dict_incr (scenario_type decision) 1 (fst acc) in
         let topic_avoidance :=
           if is_avoidance_behavior decision
           then dict_incr (scenario_type decision) 1 (snd acc)
           else snd acc in
         (topic_counts, topic_avoidance))
      decisions (topic_counts, topic_avoidance) in
  (forall k, dict_get_default k 0%Z (fst counts)
             = (dict_get_default k 0 topic_counts
                + Z.of_nat (length (decisions_on k decisions)))%Z)
  /\ (forall k, dict_get_default k 0%Z (snd counts)
                = (dict_get_default k 0 topic_avoidance
                   + Z.of_nat (length (avoided_on k decisions)))%Z)
  /\ (List.NoDup (dict_keys topic_counts) ->
      List.NoDup (dict_keys (fst counts)))
  /\ (Forall (fun kv : string * Z => (0 < snd kv)%Z) topic_counts ->
      Forall (fun kv : string * Z => (0 < snd kv)%Z) (fst counts)).
Proof.
  induction decisions as [|d ds IH]; intros tc ta; simpl.
  - repeat split; intros; try lia; assumption.
  - specialize (IH (dict_incr (scenario_type d) 1 tc)
                   (if is_avoidance_behavior d
                    then dict_incr (scenario_type d) 1 ta else ta)).
    simpl in IH. destruct IH as (Hc & Ha & Hnd & Hpos).
    split; [|split; [|split]].
    + intros k. rewrite Hc, dict_incr_get. unfold decisions_on. simpl.
      rewrite (String.eqb_sym k).
      destruct (String.eqb (scenario_type d) k); simpl; lia.
    + intros k. rewrite Ha. unfold avoided_on, decisions_on. simpl.
      rewrite (String.eqb_sym (scenario_type d)).
      destruct (is_avoidance_behavior d) eqn:Eav.
      * rewrite dict_incr_get.
        destruct (String.eqb k (scenario_type d)); simpl;
          [rewrite Eav; simpl; lia | lia].
      * destruct (String.eqb k (scenario_type d)); simpl;
          [rewrite Eav; simpl; lia | lia].
    + intros H. apply Hnd. unfold dict_incr. apply GameLogicLaws.dict_keys_set_NoDup, H.
    + intros H. apply Hpos, dict_incr_positive, H.
Qed.

Lemma avoidance_rate_above (a c : Z) :
  (0 < c)%Z ->
  fl_ltb (Fin 0.7) (np_div (fl_of_Z a) (fl_of_Z c)) = true
  <-> (7 * c < 10 * a)%Z.
Proof.
  intros Hc. unfold np_div, fl_of_Z.
  destruct (Qeq_bool (inject_Z c) 0) eqn:E.
  { apply Qeq_bool_iff in E. unfold Qeq in E. simpl in E. lia. }
  unfold fl_ltb. rewrite negb_true_iff.
  destruct c as [|p|p]; try lia.
  destruct (Qle_bool (inject_Z a / inject_Z (Z.pos p)) 0.7) eqn:El.
  - apply Qle_bool_iff in El. unfold Qle in El. simpl in El.
    split; [discriminate | lia].
  - split; [intros _ | reflexivity].
    destruct (Z.lt_ge_cases (7 * Z.pos p) (10 * a)) as [H|H]; [exact H|].
    exfalso. assert (Hle : Qle_bool (inject_Z a / inject_Z (Z.pos p)) 0.7 = true).
    { apply Qle_bool_iff. unfold Qle. simpl. lia. }
    congruence.
Qed.

Lemma mapR_total {A B} (f : A -> result B) (g : A -> B) l :
  (forall x, In x l -> f x = Ok (g x)) -> mapR f l = Ok (map g l).
Proof.
  induction l as [|x l IH]; intros H; simpl; [reflexivity|].
  rewrite (H x) by (left; reflexivity).
  rewrite IH by (intros y Hy; apply H; right; exact Hy). reflexivity.
Qed.

Lemma flagged_keys {A} (flag : string * A -> bool) (d : dict A) t :
  In t (map fst (filter (fun f : string * bool => snd f = true)
                        (map (fun item => (fst item, flag item)) d)))
  <-> exists v, In (t, v) d /\ flag (t, v) = true.
Proof.
  rewrite in_map_iff. split.
  - intros ([k b] & Hk & Hin). simpl in Hk. subst k.
    apply list_elem_of_In, list_elem_of_filter in Hin as [Hb Hin].
    simpl in Hb. subst b.
    apply list_elem_of_In, in_map_iff in Hin as ([k v] & E & Hin).
    simpl in E. inversion E; subst. eauto.
  - intros (v & Hin & Hflag). exists (t, true). split; [reflexivity|].
    apply list_elem_of_In, list_elem_of_filter. split; [reflexivity|].
    apply list_elem_of_In, in_map_iff. exists (t, v). simpl.
    rewrite Hflag. auto.
Qed.

Lemma flagged_keys_NoDup {A} (flag : string * A -> bool) (d : dict A) :
  List.NoDup (dict_keys d) ->
  List.NoDup (map fst (filter (fun f : string * bool => snd f = true)
                              (map (fun item => (fst item, flag item)) d))).
Proof.
  induction d as [|[k v] d IH]; simpl; intros Hnd; [constructor|].
  inversion Hnd as [|? ? Hk Hd]; subst.
  rewrite filter_cons. destruct (decide _) as [Hflag|Hflag]; simpl; [|auto].
  constructor; [|auto].
  intros Hin. apply flagged_keys in Hin as (v' & Hin & _).
  apply Hk. apply (in_map fst) in Hin. exact Hin.
Qed.

(** [_identify_avoided_topics] never raises: every topic it divides by
    has been counted at least once.  It reports a topic exactly when more
    than 70 percent of the decisions on that topic show avoidance
    behaviour, and reports no topic twice. *)
Theorem identify_avoided_topics_exact decisions :
  exists topics,
    identify_avoided_topics decisions = Ok topics
    /\ List.NoDup topics
    /\ forall topic,
         In topic topics
         <-> (7 * length (decisions_on topic decisions)
              < 10 * length (avoided_on topic decisions))%nat.
Proof.
  unfold identify_avoided_topics.
  pose proof (topic_counts decisions [] []) as H. cbv zeta in H.
  cbv zeta.
  match goal with
  | |- context [fold_left ?f decisions ?init] =>
      match type of H with
      | context [fold_left ?g decisions ?init'] =>
          change (fold_left g decisions init')
            with (fold_left f decisions init) in H
      end;
      destruct (fold_left f decisions init) as [tc ta]
  end.
  simpl in H. destruct H as (Hc & Ha & Hnd & Hpos).
  specialize (Hnd (List.NoDup_nil _)). specialize (Hpos (List.Forall_nil _)).
  cbv zeta. simpl fst. simpl snd.
  rewrite (mapR_total _
             (fun item : string * Z =>
                (fst item,
                 fl_ltb (Fin 0.7)
                   (np_div (fl_of_Z (dict_get_default (fst item) 0%Z ta))
                           (fl_of_Z (snd item)))))).
  2:{ intros [k c] Hin. simpl. unfold py_truediv.
      rewrite GameLogicLaws.fl_of_Z_is_zero.
      rewrite Forall_forall in Hpos. apply list_elem_of_In in Hin.
      specialize (Hpos _ Hin). simpl in Hpos.
      destruct (Z.eqb_spec c 0); [lia | reflexivity]. }
  simpl. eexists. split; [reflexivity|]. split.
  - apply (flagged_keys_NoDup
             (fun item : string * Z =>
                fl_ltb (Fin 0.7)
                  (np_div (fl_of_Z (dict_get_default (fst item) 0%Z ta))
                          (fl_of_Z (snd item))))), Hnd.
  - intros topic.
    rewrite (flagged_keys
               (fun item : string * Z =>
                  fl_ltb (Fin 0.7)
                    (np_div (fl_of_Z (dict_get_default (fst item) 0%Z ta))
                            (fl_of_Z (snd item))))).
    simpl. specialize (Hc topic). specialize (Ha topic).
    change (dict_get_default topic 0%Z []) with 0%Z in Hc, Ha.
    assert (Hsub : (length (avoided_on topic decisions)
                    <= length (decisions_on topic decisions))%nat).
    { unfold avoided_on. apply List.filter_length_le. }
    split.
    + intros (c & Hin & Hrate).
      assert (Hcpos : (0 < c)%Z).
      { rewrite Forall_forall in Hpos. apply list_elem_of_In in Hin.
        apply (Hpos _ Hin). }
      apply avoidance_rate_above in Hrate; [|exact Hcpos].
      apply (GameLogicLaws.In_dict_get _ _ _ Hnd) in Hin.
      unfold dict_get_default in Hc. rewrite Hin in Hc. lia.
    + intros Hrate.
      exists (Z.of_nat (length (decisions_on topic decisions))).
      assert (Hin : dict_get topic tc
                    = Some (Z.of_nat (length (decisions_on topic decisions)))).
      { unfold dict_get_default in Hc.
        destruct (dict_get topic tc) as [c|]; [f_equal; lia | lia]. }
      split; [apply GameLogicLaws.dict_get_In, Hin|].
      apply avoidance_rate_above; lia.
Qed.

(** ** Stakeholder preferences *)

Lemma py_sum_between lo hi l : forall q0,
  Forall (between lo hi) l ->
  exists q,
    fold_left fl_add l (Fin q0) = Fin q
    /\ (q0 + inject_Z (Z.of_nat (length l)) * lo <= q)%Q
    /\ (q <= q0 + inject_Z (Z.of_nat (length l)) * hi)%Q.
Proof.
  induction l as [|x l IH]; intros q0 Hl.
  - exists q0. split; [reflexivity|].
    change (inject_Z (Z.of_nat (length (@nil fl)))) with 0%Q. split; lra.
  - inversion Hl as [|? ? (q & -> & Hlo & Hhi) Hl']; subst.
    destruct (IH (q0 + q)%Q Hl') as (r & Hr & Hrlo & Hrhi).
    exists r. split; [exact Hr|].
    change (length (Fin q :: l)) with (S (length l)).
    rewrite Nat2Z.inj_succ. unfold Z.succ. rewrite inject_Z_plus.
    change (inject_Z 1) with 1%Q.
    set (n := inject_Z (Z.of_nat (length l))) in *. split; lra.
Qed.

Lemma np_mean_between lo hi l :
  l <> [] -> Forall (between lo hi) l -> between lo hi (np_mean l).
Proof.
  intros Hne Hl. unfold np_mean, py_sum.
  destruct (py_sum_between lo hi l 0 Hl) as (q & -> & Hlo & Hhi).
  unfold np_div, fl_of_Z.
  assert (Hn : (0 < Z.of_nat (length l))%Z) by (destruct l; [congruence | simpl; lia]).
  destruct (Qeq_bool (inject_Z (Z.of_nat (length l))) 0) eqn:E.
  { apply Qeq_bool_iff in E. unfold Qeq in E. simpl in E. lia. }
  assert (Hpos : (0 < inject_Z (Z.of_nat (length l)))%Q).
  { change 0%Q with (inject_Z 0). rewrite <- Zlt_Qlt. exact Hn. }
  set (n := inject_Z (Z.of_nat (length l))) in *.
  exists (q / n)%Q. split; [reflexivity|]. split.
  - apply Qle_shift_div_l; [exact Hpos | lra].
  - apply Qle_shift_div_r; [exact Hpos | lra].
Qed.

Lemma normalised_between x :
  between (-100) 100 x ->
  between 0 1 (np_div (fl_add x (Fin 100)) (Fin 200)).
Proof.
  intros (q & -> & Hlo & Hhi). simpl.
  exists ((q + 100) / 200)%Q. split; [reflexivity|]. split.
  - apply Qle_shift_div_l; [reflexivity | lra].
  - apply Qle_shift_div_r; [reflexivity | lra].
Qed.

Lemma impact_between decision stakeholder :
  impacts_in_range decision ->
  between (-100) 100
    (dict_get_default stakeholder (Fin 0) (impacts decision)).
Proof.
  intros Hd. unfold dict_get_default.
  destruct (dict_get stakeholder (impacts decision)) as [v|] eqn:E.
  - apply GameLogicLaws.dict_get_In in E. unfold impacts_in_range in Hd.
    rewrite Forall_forall in Hd. apply list_elem_of_In in E.
    apply (Hd _ E).
  - exists 0%Q. split; [reflexivity|]. split; discriminate.
Qed.

Lemma dict_append_invariant (P : fl -> Prop) k v (d : dict (list fl)) :
  Forall (fun kv : string * list fl => snd kv <> [] /\ Forall P (snd kv)) d ->
  P v ->
  Forall (fun kv : string * list fl => snd kv <> [] /\ Forall P (snd kv))
         (dict_append k v d).
Proof.
  intros Hd Hv. unfold dict_append.
  apply (GameLogicFacts.dict_set_Forall
           (fun l : list fl => l <> [] /\ Forall P l)); [exact Hd|].
  split; [intros E; apply app_eq_nil in E as [_ E]; discriminate E|].
  apply Forall_app. split; [|constructor; [exact Hv | constructor]].
  unfold dict_get_default. destruct (dict_get k d) as [l|] eqn:E;
    [|constructor].
  apply GameLogicLaws.dict_get_In in E. rewrite Forall_forall in Hd.
  apply list_elem_of_In in E. apply (Hd _ E).
Qed.

(** The impact lists that the first loop of
    [_analyze_stakeholder_preferences] collects. *)
Lemma collected_impacts decisions : forall acc,
  Forall impacts_in_range decisions ->
  Forall (fun kv : string * list fl =>
            snd kv <> [] /\ Forall (between (-100) 100) (snd kv)) acc ->
  let collected :=
    fold_left
      (fun acc decision =>
         fold_left
           (fun acc stakeholder =>
              dict_append stakeholder
                (dict_get_default stakeholder (Fin 0) (impacts decision)) acc)
           (stakeholders_affected decision) acc)
      decisions acc in
  Forall (fun kv : string * list fl =>
            snd kv <> [] /\ Forall (between (-100) 100) (snd kv)) collected
  /\ forall k, In k (dict_keys collected)
               <-> In k (dict_keys acc)
                   \/ exists d, In d decisions
                                /\ In k (stakeholders_affected d).
Proof.
  induction decisions as [|d ds IH]; intros acc Hds Hacc; simpl.
  - split; [exact Hacc|]. intros k. split; [auto|].
    intros [H|(d & [] & _)]. exact H.
  - inversion Hds as [|? ? Hd Hds']; subst.
    assert (Hinner : forall l acc0,
      Forall (fun kv : string * list fl =>
                snd kv <> [] /\ Forall (between (-100) 100) (snd kv)) acc0 ->
      let inner :=
        fold_left
          (fun acc stakeholder =>
             dict_append stakeholder
               (dict_get_default stakeholder (Fin 0) (impacts d)) acc)
          l acc0 in
      Forall (fun kv : string * list fl =>
                snd kv <> [] /\ Forall (between (-100) 100) (snd kv)) inner
      /\ forall k, In k (dict_keys inner)
                   <-> In k (dict_keys acc0) \/ In k l).
    { induction l as [|x l IHl]; intros acc0 H0; simpl.
      - split; [exact H0|]. intros k. tauto.
      - destruct (IHl (dict_append x
                         (dict_get_default x (Fin 0) (impacts d)) acc0))
          as [Hf Hk].
        { apply dict_append_invariant; [exact H0|].
          apply impact_between, Hd. }
        split; [exact Hf|]. intros k. rewrite Hk.
        unfold dict_append. rewrite GameLogicLaws.dict_keys_set_In.
        split; [intros [[->|H]|H]; auto | intros [H|[->|H]]; auto]. }
    destruct (Hinner (stakeholders_affected d) acc Hacc) as [Hf Hk].
    destruct (IH _ Hds' Hf) as [Hf' Hk'].
    split; [exact Hf'|]. intros k. rewrite Hk', Hk. split.
    + intros [[H|H]|(d' & Hd' & H)]; [auto | right; eauto | right; eauto].
    + intros [H|(d' & [<-|Hd'] & H)]; [auto | auto | right; eauto].
Qed.

Lemma normalised_preferences (items : dict (list fl)) : forall preferences,
  Forall (fun kv : string * list fl =>
            snd kv <> [] /\ Forall (between (-100) 100) (snd kv)) items ->
  Forall (fun kv : string * fl => between 0 1 (snd kv)) preferences ->
  let result :=
    fold_left
      (fun preferences (item : string * list fl) =>
         let avg_impact := np_mean (snd item) in
         dict_set (fst item) (np_div (fl_add avg_impact (Fin 100)) (Fin 200))
                  preferences)
      items preferences in
  Forall (fun kv : string * fl => between 0 1 (snd kv)) result
  /\ forall k, In k (dict_keys result)
               <-> In k (dict_keys preferences) \/ In k (dict_keys items).
Proof.
  induction items as [|[x l] items IH]; intros prefs Hitems Hprefs; simpl.
  - split; [exact Hprefs|]. intros k. tauto.
  - inversion Hitems as [|? ? [Hne Hl] Hitems']; subst. simpl in Hne, Hl.
    destruct (IH (dict_set x (np_div (fl_add (np_mean l) (Fin 100)) (Fin 200))
                           prefs) Hitems') as [Hf Hk].
    { apply (GameLogicFacts.dict_set_Forall (between 0 1)); [exact Hprefs|].
      apply normalised_between, np_mean_between; assumption. }
    split; [exact Hf|]. intros k. rewrite Hk, GameLogicLaws.dict_keys_set_In.
    split; [intros [[->|H]|H]; auto | intros [H|[->|H]]; auto].
Qed.

(** When every recorded impact lies in [-100, 100], every preference that
    [_analyze_stakeholder_preferences] returns lies in the unit interval;
    the stakeholders that get a preference are those that some decision of
    the history affects. *)
Theorem analyze_stakeholder_preferences_normalised decisions :
  Forall impacts_in_range decisions ->
  Forall (fun kv : string * fl => between 0 1 (snd kv))
         (analyze_stakeholder_preferences decisions)
  /\ forall stakeholder,
       In stakeholder (dict_keys (analyze_stakeholder_preferences decisions))
       <-> exists d, In d decisions
                     /\ In stakeholder (stakeholders_affected d).
Proof.
  intros Hds. unfold analyze_stakeholder_preferences.
  destruct (collected_impacts decisions [] Hds (List.Forall_nil _))
    as [Hf Hk].
  cbv zeta in Hf, Hk.
  destruct (normalised_preferences _ [] Hf (List.Forall_nil _)) as [Hf' Hk'].
  cbv zeta in Hf', Hk'.
  split; [exact Hf'|]. intros k. rewrite Hk', Hk. simpl. tauto.
Qed.

Lemma preferences_of_five_short_sighted_decisions :
  Forall (fun kv : string * fl => between 0 1 (snd kv))
         (analyze_stakeholder_preferences five_short_sighted).
Proof.
  apply (analyze_stakeholder_preferences_normalised five_short_sighted).
  repeat constructor;
    (eexists; split; [reflexivity | split; discriminate]).
Defined.

(** ** The range of the similarity *)

Lemma impact_difference_between v1 v2 :
  between (-100) 100 v1 -> between (-100) 100 v2 ->
  between 0 1 (np_div (fl_abs (fl_sub v1 v2)) (Fin 200)).
Proof.
  intros (a & -> & Ha1 & Ha2) (b & -> & Hb1 & Hb2). simpl.
  exists (Qabs (a + - b) / 200)%Q. split; [reflexivity|]. split.
  - apply Qle_shift_div_l; [reflexivity|].
    pose proof (Qabs_nonneg (a + - b)). lra.
  - apply Qle_shift_div_r; [reflexivity|].
    apply Qabs_Qle_condition. split; lra.
Qed.

Lemma calculate_impact_similarity_between impacts1 impacts2 :
  Forall (fun kv : string * fl => between (-100) 100 (snd kv)) impacts1 ->
  Forall (fun kv : string * fl => between (-100) 100 (snd kv)) impacts2 ->
  impacts1 <> [] \/ impacts2 <> [] ->
  between 0 1 (calculate_impact_similarity impacts1 impacts2).
Proof.
  intros H1 H2 Hne. unfold calculate_impact_similarity.
  set (all_keys := (list_to_set (dict_keys impacts1)
                    ∪ list_to_set (dict_keys impacts2) : gset string)).
  assert (Hkeys : elements all_keys <> []).
  { assert (Hk : exists k, k ∈ all_keys).
    { destruct Hne as [Hne|Hne].
      - destruct impacts1 as [|[k v] l]; [congruence|].
        exists k. unfold all_keys. simpl. set_solver.
      - destruct impacts2 as [|[k v] l]; [congruence|].
        exists k. unfold all_keys. simpl. set_solver. }
    destruct Hk as [k Hk]. intros E.
    apply elem_of_elements in Hk. rewrite E in Hk.
    apply not_elem_of_nil in Hk. exact Hk. }
  assert (Hin : forall i k, 
            Forall (fun kv : string * fl => between (-100) 100 (snd kv)) i ->
            between (-100) 100 (dict_get_default k (Fin 0) i)).
  { intros i k Hi. apply (impact_between
      {| id := ""; timestamp := 0; scenario_type := ""; choice := "";
         stakeholders_affected := []; impacts := i; rationale := "";
         time_spent := 0; difficulty_level := Fin 0 |} k Hi). }
  match goal with
  | |- between 0 1 (fl_sub (Fin 1) (np_mean ?l)) =>
      destruct (np_mean_between 0 1 l) as (m & -> & Hm0 & Hm1)
  end.
  - intros E. apply map_eq_nil in E. contradiction.
  - apply Forall_forall. intros x Hx.
    apply list_elem_of_In, in_map_iff in Hx as (k & <- & _).
    apply impact_difference_between; apply Hin; assumption.
  - simpl. exists (1 + - m)%Q. split; [reflexivity|]. split; lra.
Qed.

(** For decisions whose impacts lie in [-100, 100], with one impact at
    least between them and one affected stakeholder at least between
    them, [_calculate_decision_similarity] returns a number in the unit
    interval. *)
Theorem calculate_decision_similarity_range decision1 decision2 :
  impacts_in_range decision1 -> impacts_in_range decision2 ->
  impacts decision1 <> [] \/ impacts decision2 <> [] ->
  stakeholders_affected decision1 <> []
  \/ stakeholders_affected decision2 <> [] ->
  exists similarity,
    calculate_decision_similarity decision1 decision2 = Ok similarity
    /\ between 0 1 similarity.
Proof.
  intros H1 H2 Himp Hst. unfold calculate_decision_similarity.
  destruct (calculate_impact_similarity_between _ _ H1 H2 Himp)
    as (a & -> & Ha0 & Ha1).
  set (set1 := (list_to_set (stakeholders_affected decision1) : gset string)).
  set (set2 := (list_to_set (stakeholders_affected decision2) : gset string)).
  assert (Hle : (size (set1 ∩ set2) <= size (set1 ∪ set2))%nat)
    by (apply subseteq_size; intros x Hx;
        apply elem_of_intersection in Hx as [Hx _];
        apply elem_of_union_l, Hx).
  assert (Hpos : (0 < size (set1 ∪ set2))%nat).
  { destruct (size (set1 ∪ set2)) eqn:E; [|lia]. exfalso.
    apply stakeholders_union_empty in E as [E1 E2].
    destruct Hst; contradiction. }
  unfold py_truediv. rewrite GameLogicLaws.fl_of_Z_is_zero.
  destruct (Z.eqb_spec (Z.of_nat (size (set1 ∪ set2))) 0) as [E|E]; [lia|].
  unfold rbind, np_div at 2, fl_of_Z.
  destruct (Qeq_bool (inject_Z (Z.of_nat (size (set1 ∪ set2)))) 0) eqn:Ez.
  { apply Qeq_bool_iff in Ez. unfold Qeq in Ez. simpl in Ez. lia. }
  simpl.
  assert (Hu : (0 < inject_Z (Z.of_nat (size (set1 ∪ set2))))%Q).
  { change 0%Q with (inject_Z 0). rewrite <- Zlt_Qlt. lia. }
  assert (Hi : (0 <= inject_Z (Z.of_nat (size (set1 ∩ set2))))%Q).
  { change 0%Q with (inject_Z 0). rewrite <- Zle_Qle. lia. }
  assert (Hiu : (inject_Z (Z.of_nat (size (set1 ∩ set2)))
                 <= inject_Z (Z.of_nat (size (set1 ∪ set2))))%Q).
  { rewrite <- Zle_Qle. lia. }
  set (i := inject_Z (Z.of_nat (size (set1 ∩ set2)))) in *.
  set (u := inject_Z (Z.of_nat (size (set1 ∪ set2)))) in *.
  assert (Hr0 : (0 <= i / u)%Q)
    by (apply Qle_shift_div_l; [exact Hu | lra]).
  assert (Hr1 : (i / u <= 1)%Q)
    by (apply Qle_shift_div_r; [exact Hu | lra]).
  eexists. split; [reflexivity|].
  exists ((a + i / u) / 2)%Q. split; [reflexivity|]. split.
  - apply Qle_shift_div_l; [reflexivity | lra].
  - apply Qle_shift_div_r; [reflexivity | lra].
Qed.

Lemma similarity_of_two_short_sighted_decisions :
  exists similarity,
    calculate_decision_similarity (short_sighted 1) (short_sighted 2)
    = Ok similarity
    /\ between 0 1 similarity.
Proof.
  apply (calculate_decision_similarity_range (short_sighted 1)
           (short_sighted 2)).
  - repeat constructor;
      (eexists; split; [reflexivity | split; discriminate]).
  - repeat constructor;
      (eexists; split; [reflexivity | split; discriminate]).
  - left. discriminate.
  - left. discriminate.
Defined.

End PatternAnalyzerLaws.
